(** * The summary generation pipeline of modelmeters ([ai-summary.py]) and
      the footer parser of its token-accounting collaborator
      ([monthly/aisummary/count_tokens.py]).

    Text is modelled as ASCII [string]s, Python [int]s as [Z], Python
    [float]s as the binary64 values of [SpecFloat]. *)

From Stdlib Require Import ZArith QArith Qround Ascii String List Lia.
From Stdlib Require Import DecimalString DecimalN SpecFloat.
From stdpp Require Import base option gmap strings.

Local Open Scope string_scope.
Local Open Scope Z_scope.

(** ** Characters *)

Definition is_digit (c : ascii) : bool :=
  (48 <=? Z.of_nat (nat_of_ascii c)) && (Z.of_nat (nat_of_ascii c) <=? 57).

Definition digit_val (c : ascii) : Z := Z.of_nat (nat_of_ascii c) - 48.

(** White space: what [\s] matches, and what [str.strip] and [int] remove
    around text. *)
Definition is_space (c : ascii) : bool :=
  let n := Z.of_nat (nat_of_ascii c) in
  ((9 <=? n) && (n <=? 13)) || ((28 <=? n) && (n <=? 32)).

(** [\s*], greedy; also [s.lstrip()]. *)
Fixpoint skip_spaces (s : string) : string :=
  match s with
  | String c s' => if is_space c then skip_spaces s' else s
  | EmptyString => s
  end.

(** ** Python values and exceptions *)

(** Values a usage field can hold: [None], a [bool], an [int], a [float],
    a [str], or an object that is neither a number nor convertible by
    [int()] (a list, a nested mapping such as [input_tokens_details]). *)
Inductive pyval : Type :=
| VNone
| VBool (b : bool)
| VInt (z : Z)
| VFloat (f : spec_float)
| VStr (s : string)
| VOpaque.

Inductive exn_kind : Type :=
| ValueError | TypeError | OSError | RemoteError | OverflowError.

Record pyexn : Type := Exn { exn_class : exn_kind; exn_msg : string }.

(** Result of a computation that may raise. *)
Inductive res (A : Type) : Type :=
| Ok (a : A)
| Raise (e : pyexn).
Arguments Ok {A} a.
Arguments Raise {A} e.

Definition res_bind {A B} (r : res A) (k : A -> res B) : res B :=
  match r with
  | Ok a => k a
  | Raise e => Raise e
  end.

Declare Scope res_scope.
Delimit Scope res_scope with res.
Notation "x <- r ;;; k" := (res_bind r (fun x => k))
  (at level 100, r at next level, right associativity) : res_scope.

Definition is_ok {A} (r : res A) : bool :=
  match r with Ok _ => true | Raise _ => false end.

(** [x is None] *)
Definition is_none (v : pyval) : bool :=
  match v with VNone => true | _ => false end.

(** [isinstance(t, (int, float))]: [bool] is a subclass of [int]. *)
Definition is_numeric (v : pyval) : bool :=
  match v with VBool _ | VInt _ | VFloat _ => true | _ => false end.

(** *** Floats (binary64: 53 bits of precision, infinities at 2^1024) *)

(** [x + y] on floats. *)
Definition float_add (x y : spec_float) : spec_float := SFadd 53 1024 x y.

(** [float(z)]: the nearest float, ties to even. *)
Definition float_of_int (z : Z) : res spec_float :=
  match binary_normalize 53 1024 z 0 false with
  | S754_infinity _ =>
      Raise (Exn OverflowError "int too large to convert to float")
  | f => Ok f
  end.

(** [int(f)]: the fraction is dropped. *)
Definition int_of_float (f : spec_float) : res Z :=
  match f with
  | S754_zero _ => Ok 0
  | S754_infinity _ =>
      Raise (Exn OverflowError "cannot convert float infinity to integer")
  | S754_nan => Raise (Exn ValueError "cannot convert float NaN to integer")
  | S754_finite s m e =>
      let magnitude :=
        if 0 <=? e then Z.pos m * 2 ^ e else Z.pos m / 2 ^ (- e) in
      Ok (if s then - magnitude else magnitude)
  end.

(** *** [int(s)] for text *)

(** The digits after a first digit, single underscores allowed between
    digits: the number read so far, and what is left. *)
Fixpoint literal_digits (acc : Z) (s : string) : Z * string :=
  match s with
  | String c rest =>
      if is_digit c then literal_digits (10 * acc + digit_val c) rest
      else if Ascii.eqb c "_" then
        match rest with
        | String d rest' =>
            if is_digit d then literal_digits (10 * acc + digit_val d) rest'
            else (acc, s)
        | EmptyString => (acc, s)
        end
      else (acc, s)
  | EmptyString => (acc, s)
  end.

(** White space, an optional sign, digits, white space. *)
Definition int_of_text (s : string) : res Z :=
  let invalid :=
    Raise (Exn ValueError "invalid literal for int() with base 10") in
  let s := skip_spaces s in
  let '(negative, s) :=
    match s with
    | String "-" rest => (true, rest)
    | String "+" rest => (false, rest)
    | _ => (false, s)
    end in
  match s with
  | String c rest =>
      if is_digit c then
        let '(n, tail) := literal_digits (digit_val c) rest in
        match skip_spaces tail with
        | EmptyString => Ok (if negative then - n else n)
        | _ => invalid
        end
      else invalid
  | EmptyString => invalid
  end.

(** [int(x)] *)
Definition py_int (v : pyval) : res Z :=
  match v with
  | VInt z => Ok z
  | VBool b => Ok (if b then 1 else 0)
  | VFloat f => int_of_float f
  | VStr s => int_of_text s
  | VNone | VOpaque =>
      Raise (Exn TypeError "int() argument must be a string, a bytes-like object or a real number")
  end.

(** ** Thousands-grouped rendering: [format(n, ',')] *)

Definition digits_of_N (n : N) : string :=
  NilZero.string_of_uint (N.to_uint n).

(** A comma goes before every digit that is followed by a positive multiple
    of three digits less one, i.e. groups of three counted from the right. *)
Fixpoint group_thousands (s : string) : string :=
  match s with
  | EmptyString => EmptyString
  | String c rest =>
      String c
        (if (negb (Nat.eqb (String.length rest) 0)
             && Nat.eqb (String.length rest mod 3) 0)%bool
         then String "," (group_thousands rest)
         else group_thousands rest)
  end.

Definition format_comma (z : Z) : string :=
  if z <? 0
  then String "-" (group_thousands (digits_of_N (Z.to_N (- z))))
  else group_thousands (digits_of_N (Z.to_N z)).

(** [format(int(x), ',') if x is not None else 'n/a'] *)
Definition render_count (v : pyval) : res string :=
  if is_none v then Ok "n/a"
  else (z <- py_int v ;;; Ok (format_comma z))%res.

(** ** Usage extraction (lines 177-198 of [main]) *)

Abbreviation fields := (gmap string pyval).

(** What [usage.model_dump] does, when the attribute exists. *)
Inductive dump : Type :=
| NoDump
| DumpRaises
| DumpReturns (d : fields).

(** [getattr(response, "usage", None)]: absent/[None], a [dict], or an
    object with attributes. *)
Inductive usage_t : Type :=
| UAbsent
| UMapping (d : fields)
| UObject (attrs : fields) (md : dump).

(** [if hasattr(usage, "model_dump"): try: usage = usage.model_dump()
    except Exception: pass] *)
Definition normalize_usage (u : usage_t) : usage_t :=
  match u with
  | UObject _ (DumpReturns d) => UMapping d
  | _ => u
  end.

(** [usage.get(k)] on a mapping, [getattr(usage, k, None)] otherwise. *)
Definition usage_lookup (u : usage_t) (k : string) : pyval :=
  match u with
  | UAbsent => VNone
  | UMapping d => default VNone (d !! k)
  | UObject attrs _ => default VNone (attrs !! k)
  end.

(** Truthiness of an optional [str] argument. *)
Definition truthy_key (k : option string) : bool :=
  match k with
  | Some s => negb (String.eqb s "")
  | None => false
  end.

Definition _uget (usage : usage_t) (primary : string) (fallback : option string)
  : pyval :=
  let val := usage_lookup usage primary in
  if (is_none val && truthy_key fallback)%bool
  then usage_lookup usage (default "" fallback)
  else val.

(** The integer an [int] or a [bool] stands for. *)
Definition numeric_value (v : pyval) : Z :=
  match v with
  | VInt z => z
  | VBool true => 1
  | _ => 0
  end.

(** [[t for t in (input_tokens, output_tokens)
      if isinstance(t, (int, float))]] *)
Definition numeric_parts (l : list pyval) : list pyval :=
  List.filter is_numeric l.

(** [x + y] for numbers: an [int] (or [bool]) is converted when the other
    operand is a [float]. *)
Definition py_add (x y : pyval) : res pyval :=
  match x, y with
  | VFloat a, VFloat b => Ok (VFloat (float_add a b))
  | VFloat a, _ =>
      (b <- float_of_int (numeric_value y) ;;; Ok (VFloat (float_add a b)))%res
  | _, VFloat b =>
      (a <- float_of_int (numeric_value x) ;;; Ok (VFloat (float_add a b)))%res
  | _, _ => Ok (VInt (numeric_value x + numeric_value y))
  end.

(** [sum(parts)]: the parts are added to [0] from left to right. *)
Definition py_sum (parts : list pyval) : res pyval :=
  fold_left (fun acc v => (a <- acc ;;; py_add a v)%res) parts (Ok (VInt 0)).

Record UsageMetrics : Type := {
  input_tokens : pyval;
  output_tokens : pyval;
  total_tokens : pyval
}.

(** Lines 196-198: [int(sum(parts)) if parts else None]. *)
Definition reconstruct_total (input_tokens output_tokens : pyval) : res pyval :=
  let parts := numeric_parts [input_tokens; output_tokens] in
  match parts with
  | [] => Ok VNone
  | _ => (s <- py_sum parts ;;; z <- py_int s ;;; Ok (VInt z))%res
  end.

Definition extract_usage (raw : usage_t) : res UsageMetrics :=
  let usage := normalize_usage raw in
  let input_tokens := _uget usage "input_tokens" (Some "prompt_tokens") in
  let output_tokens := _uget usage "output_tokens" (Some "completion_tokens") in
  let total_tokens := _uget usage "total_tokens" None in
  (total_tokens <-
     (if is_none total_tokens
      then reconstruct_total input_tokens output_tokens
      else Ok total_tokens) ;;;
   Ok {| input_tokens := input_tokens;
         output_tokens := output_tokens;
         total_tokens := total_tokens |})%res.

(** The footer of the disclaimer (lines 213-215), given the three rendered
    counts. *)
Definition footer_line (i o t : string) : string :=
  "Input tokens: " +:+ i +:+ " | Output tokens: " +:+ o
  +:+ " | Total tokens: " +:+ t +:+ "._".

Definition token_footer (m : UsageMetrics) : res string :=
  (i <- render_count (input_tokens m) ;;;
   o <- render_count (output_tokens m) ;;;
   t <- render_count (total_tokens m) ;;;
   Ok (footer_line i o t))%res.

(** Extraction, then the footer: lines 177-198 and 213-215. *)
Definition usage_footer (raw : usage_t) : res string :=
  (m <- extract_usage raw ;;; token_footer m)%res.

(** ** Module constants *)

Definition nl : string := String (ascii_of_nat 10) EmptyString.
Definition dquote : string := String (ascii_of_nat 34) EmptyString.

(** [reasoning_effort = "low"] (line 21) *)
Definition reasoning_effort : string := "low".

(** The fixed instruction block (lines 57-94), one list entry per line. *)
Definition system_message : string :=
  String.concat nl
    ["";
     "";
     "<general instructions>";
     "You are a helpful AI assistant that summarises a price list file of new Azure AI Foundry Model meters, and provides a concise overview of the file. The file is provided in ndjson format. Stick to the facts. Do not include a title or preamble.";
     "When summarising, group the models by model provider (using heading level 3), and try to summarise one model per bullet point.";
     "";
     "<general instructions/>";
     "";
     "<output sections>";
     "";
     "A summary of the new Azure AI Foundry Model meters, grouped by model provider.";
     "";
     "After each model group, use the Microsoft Learn MCP tool to provide links to the documentation for each specific model family, or service mentioned.";
     "";
     "<pricing format>";
     "";
     "- All the prices are in USD, show prices with a dollar sign.";
     "- Do not write $3.0 per 1 Hour, write $3/hour. Same for seconds.";
     "- For $3.0 per 1K tokens, write $3/1k tokens.";
     "- For $3.0 per 1M tokens, write $3/1M tokens.";
     "- Do not round up or round down pricing";
     ("- When there are multiple prices for the same model, don't quote the range or individual prices, just state " +:+ dquote +:+ "from $(lowest price)" +:+ dquote +:+ ".");
     "- Express prices given in scientific notation as a decimal amount. e.g 5e-05 will be $0.00005";
     "- Unless otherwise specified, quote the exact price listed.";
     "";
     "<pricing format/>";
     "";
     "<common abbreviations>";
     "Reasoning";
     "Data Zone";
     "Batch";
     "Cached";
     "Input";
     "Output";
     "";
     "<common abbreviations>";
     "";
     ""].

(** ** Calendar dates: [datetime.strptime] / [strftime] *)

Record date : Type := { year : Z; month : Z; day : Z }.

Definition in_range (lo hi : ascii) (c : ascii) : bool :=
  (Z.of_nat (nat_of_ascii lo) <=? Z.of_nat (nat_of_ascii c))
  && (Z.of_nat (nat_of_ascii c) <=? Z.of_nat (nat_of_ascii hi)).

(** A regex alternative reads a prefix and yields a number and the rest. *)
Definition alt := string -> option (Z * string).

Fixpoint first_alt (alts : list alt) (s : string) : option (Z * string) :=
  match alts with
  | [] => None
  | a :: more =>
      match a s with
      | Some r => Some r
      | None => first_alt more s
      end
  end.

(** A two-character alternative [[l1-h1][l2-h2]]. *)
Definition two_chars (l1 h1 l2 h2 : ascii) : alt := fun s =>
  match s with
  | String a (String b rest) =>
      if in_range l1 h1 a && in_range l2 h2 b
      then Some (10 * digit_val a + digit_val b, rest)
      else None
  | _ => None
  end.

(** A one-character alternative [[l-h]]. *)
Definition one_char (l h : ascii) : alt := fun s =>
  match s with
  | String a rest =>
      if in_range l h a then Some (digit_val a, rest) else None
  | _ => None
  end.

(** The alternative [ [1-9]]: a space, then one digit. *)
Definition space_digit : alt := fun s =>
  match s with
  | String " " rest => one_char "1" "9" rest
  | _ => None
  end.

(** An alternative that must be followed by the literal [-]. *)
Definition then_dash (a : alt) : alt := fun s =>
  match a s with
  | Some (v, String "-" rest) => Some (v, rest)
  | _ => None
  end.

(** [%Y] is [\d\d\d\d]. *)
Definition re_Y : alt := fun s =>
  match s with
  | String a (String b (String c (String d rest))) =>
      if is_digit a && is_digit b && is_digit c && is_digit d
      then Some (1000 * digit_val a + 100 * digit_val b
                 + 10 * digit_val c + digit_val d, rest)
      else None
  | _ => None
  end.

(** [%m] is [1[0-2]|0[1-9]|[1-9]]; each alternative is tried with the
    dash that follows it, as the backtracking matcher does. *)
Definition re_m_dash : alt :=
  first_alt [then_dash (two_chars "1" "1" "0" "2");
             then_dash (two_chars "0" "0" "1" "9");
             then_dash (one_char "1" "9")].

(** [%d] is [3[01]|[12]\d|0[1-9]|[1-9]| [1-9]]; it ends the pattern, so the
    first alternative that matches is taken. *)
Definition re_d : alt :=
  first_alt [two_chars "3" "3" "0" "1";
             two_chars "1" "2" "0" "9";
             two_chars "0" "0" "1" "9";
             one_char "1" "9";
             space_digit].

Definition is_leap (y : Z) : bool :=
  (y mod 4 =? 0) && (negb (y mod 100 =? 0) || (y mod 400 =? 0)).

Definition days_in_month (y m : Z) : Z :=
  if m =? 2 then (if is_leap y then 29 else 28)
  else if (m =? 4) || (m =? 6) || (m =? 9) || (m =? 11) then 30
  else 31.

(** The [datetime] constructor's range check. *)
Definition valid_date (d : date) : bool :=
  (1 <=? year d) && (year d <=? 9999)
  && (1 <=? month d) && (month d <=? 12)
  && (1 <=? day d) && (day d <=? days_in_month (year d) (month d)).

(** [datetime.strptime(s, "%Y-%m-%d")] *)
Definition strptime (s : string) : res date :=
  match then_dash re_Y s with
  | None => Raise (Exn ValueError "time data does not match format")
  | Some (y, s1) =>
      match re_m_dash s1 with
      | None => Raise (Exn ValueError "time data does not match format")
      | Some (m, s2) =>
          match re_d s2 with
          | None => Raise (Exn ValueError "time data does not match format")
          | Some (d, EmptyString) =>
              let dt := {| year := y; month := m; day := d |} in
              if valid_date dt then Ok dt
              else Raise (Exn ValueError "day is out of range for month")
          | Some (_, String _ _) =>
              Raise (Exn ValueError "unconverted data remains")
          end
      end
  end.

(** Decimal rendering of a non-negative number, zero-padded to [width]. *)
Fixpoint zeros (n : nat) : string :=
  match n with
  | O => EmptyString
  | S k => String "0" (zeros k)
  end.

Definition zero_pad (width : nat) (z : Z) : string :=
  let ds := digits_of_N (Z.to_N z) in
  zeros (width - String.length ds) +:+ ds.

(** [str(n)] for an [int]. *)
Definition py_str_int (z : Z) : string :=
  if z <? 0 then String "-" (digits_of_N (Z.to_N (- z)))
  else digits_of_N (Z.to_N z).

(** [%B] in the C locale. *)
Definition month_name (m : Z) : string :=
  nth (Z.to_nat (m - 1))
    ["January"; "February"; "March"; "April"; "May"; "June"; "July";
     "August"; "September"; "October"; "November"; "December"] "".

(** [d.strftime("%Y-%m-%d")], with [%Y] rendered on four digits. *)
Definition strftime_ymd (d : date) : string :=
  zero_pad 4 (year d) +:+ "-" +:+ zero_pad 2 (month d) +:+ "-"
  +:+ zero_pad 2 (day d).

(** [f"{d.day} {d.strftime('%B %Y')}"] *)
Definition day_month_year (d : date) : string :=
  py_str_int (day d) +:+ " " +:+ month_name (month d) +:+ " "
  +:+ zero_pad 4 (year d).

(** [int(round(x))]: ties go to the even neighbour. *)
Definition py_round (x : Q) : Z :=
  let f := Qfloor x in
  match Qcompare (x - inject_Z f) (1 # 2) with
  | Lt => f
  | Gt => f + 1
  | Eq => if Z.even f then f else f + 1
  end.

(** ** Paths and the file system *)

Definition ends_with_slash (s : string) : bool :=
  match String.rev s with
  | String "/" _ => true
  | _ => false
  end.

(** [os.path.join(a, b)] on POSIX. *)
Definition path_join (a b : string) : string :=
  match b with
  | String "/" _ => b
  | _ =>
      if String.eqb a "" || ends_with_slash a then a +:+ b
      else a +:+ "/" +:+ b
  end.

(** A directory, a readable text file, or a file whose content cannot be
    read as UTF-8 text (permissions, encoding). *)
Inductive fnode : Type :=
| Dir
| File (text : string)
| Unreadable.

Abbreviation disk_t := (gmap string fnode).

(** [os.path.exists] *)
Definition path_exists (d : disk_t) (p : string) : bool :=
  match d !! p with Some _ => true | None => false end.

(** [open(p, "r", encoding="utf-8").read()] *)
Definition read_text (d : disk_t) (p : string) : res string :=
  match d !! p with
  | Some (File text) => Ok text
  | Some Dir => Raise (Exn OSError "Is a directory")
  | Some Unreadable => Raise (Exn OSError "cannot read file")
  | None => Raise (Exn OSError "No such file or directory")
  end.

(** ** The remote service *)

Record tool : Type := {
  tool_type : string;
  server_label : string;
  server_url : string;
  require_approval : string
}.

(** Keyword arguments of [client.responses.create]; [req_reasoning] is the
    effort of the optional [reasoning] argument. *)
Record request : Type := {
  req_model : string;
  req_reasoning : option string;
  req_instructions : string;
  req_tools : list tool;
  req_input : string
}.

(** [output_text] is [None] when the attribute is missing or [None]. *)
Record response : Type := {
  output_text : option string;
  usage : usage_t
}.

Definition mcp_tool : tool :=
  {| tool_type := "mcp";
     server_label := "MicrosoftLearn";
     server_url := "https://learn.microsoft.com/api/mcp";
     require_approval := "never" |}.

(** [s.lower()] on ASCII text. *)
Definition lower_ascii (c : ascii) : ascii :=
  if in_range "A" "Z" c then ascii_of_nat (nat_of_ascii c + 32) else c.

Fixpoint lower (s : string) : string :=
  match s with
  | EmptyString => EmptyString
  | String c rest => String (lower_ascii c) (lower rest)
  end.

(** [azure_model.lower() == "gpt-5"] *)
Definition is_reasoning_model (azure_model : string) : bool :=
  String.eqb (lower azure_model) "gpt-5".

Definition build_request (azure_model ndjson_content : string) : request :=
  {| req_model := azure_model;
     req_reasoning :=
       if is_reasoning_model azure_model then Some reasoning_effort else None;
     req_instructions := system_message;
     req_tools := [mcp_tool];
     req_input := ndjson_content |}.

(** ** The document renderer (lines 206-221) *)

Definition reasoning_effort_text (azure_model : string) : string :=
  if is_reasoning_model azure_model
  then " with " +:+ reasoning_effort +:+ " reasoning effort"
  else "".

(** [s or default] *)
Definition str_or (s default : string) : string :=
  if String.eqb s "" then default else s.

(** The fixed accuracy caveat of the disclaimer; a line break ends it. *)
Definition caveat_text : string :=
  ".<br>It may contain mistakes, or outdated pricing data. "
  +:+ "Always use the Azure Retail Prices API for live pricing. The existence of a price meter does not always imply model/service availability. Prices vary depending on different factors, including region.".

Definition caveat : string := caveat_text +:+ "<br>".

Definition disclaimer_head (api_call_seconds : Q) (current_date_uk : string)
    (azure_model : string) : string :=
  "_This summary was AI-generated in "
  +:+ py_str_int (py_round api_call_seconds)
  +:+ " seconds on " +:+ current_date_uk +:+ " using "
  +:+ str_or azure_model "an Azure model"
  +:+ reasoning_effort_text azure_model
  +:+ caveat.

Definition disclaimer (api_call_seconds : Q) (current_date_uk : string)
    (azure_model : string) (m : UsageMetrics) : res string :=
  (footer <- token_footer m ;;;
   Ok (disclaimer_head api_call_seconds current_date_uk azure_model
       +:+ footer))%res.

Definition full_date_title (parsed_date : date) : string :=
  "# " +:+ day_month_year parsed_date +:+ nl +:+ nl.

Definition final_markdown (parsed_date : date) (content : option string)
    (disclaimer : string) : string :=
  full_date_title parsed_date +:+ default "" content +:+ nl +:+ nl
  +:+ disclaimer.

(** ** The process: its inputs, its effects *)

(** Everything a run depends on: the command line, the three settings read
    by [os.getenv] at import, the script's directory, the clock, the disk,
    the remote service with the time its call takes, and the faults the
    operating system may raise while creating the directory or writing the
    document.  A write fault leaves the output path untouched ([None]) or
    holding partial text. *)
Record World : Type := {
  arg_date : option string;
  arg_force : bool;
  azure_key : option string;
  azure_endpoint : option string;
  azure_model : option string;
  base_dir : string;
  now : date;
  disk0 : disk_t;
  service : request -> res response;
  api_call_seconds : Q;
  makedirs_fault : option pyexn;
  write_fault : option (pyexn * option string)
}.

Inductive event : Type :=
| Print (line : string)
| PrintResponse (r : response)
| RemoteCall (req : request)
| Makedirs (path : string)
| WriteFile (path text : string).

Record state : Type := { st_disk : disk_t; st_trace : list event }.

(** How a computation ends: normally, by [sys.exit(code)], or by an
    exception nobody caught. *)
Inductive outcome (A : Type) : Type :=
| Done (a : A)
| SysExit (code : Z)
| Uncaught (e : pyexn).
Arguments Done {A} a.
Arguments SysExit {A} code.
Arguments Uncaught {A} e.

Definition M (A : Type) : Type := state -> outcome A * state.

Definition ret {A} (a : A) : M A := fun st => (Done a, st).

Definition bind {A B} (m : M A) (k : A -> M B) : M B := fun st =>
  match m st with
  | (Done a, st') => k a st'
  | (SysExit c, st') => (SysExit c, st')
  | (Uncaught e, st') => (Uncaught e, st')
  end.

Declare Scope pipe_scope.
Delimit Scope pipe_scope with pipe.
Notation "x <- m ;; k" := (bind m (fun x => k))
  (at level 100, m at next level, right associativity) : pipe_scope.
Notation "m ;; k" := (bind m (fun _ => k))
  (at level 100, right associativity) : pipe_scope.

Definition sys_exit {A} (code : Z) : M A := fun st => (SysExit code, st).

Definition raise {A} (e : pyexn) : M A := fun st => (Uncaught e, st).

Definition lift_res {A} (r : res A) : M A :=
  match r with
  | Ok a => ret a
  | Raise e => raise e
  end.

Definition emit (ev : event) : M unit := fun st =>
  (Done tt, {| st_disk := st_disk st; st_trace := st_trace st ++ [ev] |}).

Definition print (line : string) : M unit := emit (Print line).

Definition get_disk : M disk_t := fun st => (Done (st_disk st), st).

Definition set_disk (d : disk_t) : M unit := fun st =>
  (Done tt, {| st_disk := d; st_trace := st_trace st |}).

(** [try: body except <classes> as e: handler(e)]; [sys.exit] raises
    [SystemExit], which is not an [Exception] and passes through. *)
Definition try_except {A} (body : M A) (catches : pyexn -> bool)
    (handler : pyexn -> M A) : M A := fun st =>
  match body st with
  | (Uncaught e, st') =>
      if catches e then handler e st' else (Uncaught e, st')
  | r => r
  end.

Definition any_exception (e : pyexn) : bool := true.

Definition value_error (e : pyexn) : bool :=
  match exn_class e with ValueError => true | _ => false end.

(** [client.responses.create(...)] *)
Definition remote_call (w : World) (req : request) : M response :=
  (emit (RemoteCall req) ;; lift_res (service w req))%pipe.

(** [os.makedirs(p, exist_ok=True)]; the parent directory exists already. *)
Definition makedirs (w : World) (p : string) : M unit :=
  (emit (Makedirs p) ;;
   match makedirs_fault w with
   | Some e => raise e
   | None =>
       d <- get_disk ;;
       match d !! p with
       | Some Dir => ret tt
       | Some _ => raise (Exn OSError "File exists")
       | None => set_disk (<[p := Dir]> d)
       end
   end)%pipe.

(** [with open(p, "w", encoding="utf-8") as f: f.write(text)] *)
Definition write_file (w : World) (p text : string) : M unit :=
  (emit (WriteFile p text) ;;
   d <- get_disk ;;
   match d !! p with
   | Some Dir => raise (Exn OSError "Is a directory")
   | _ =>
       match write_fault w with
       | None => set_disk (<[p := File text]> d)
       | Some (e, None) => raise e
       | Some (e, Some partial) =>
           set_disk (<[p := File partial]> d) ;; raise e
       end
   end)%pipe.

Definition input_path_of (w : World) (date_str : string) : string :=
  path_join (path_join (path_join (base_dir w) "monthly") "partial")
            (date_str +:+ ".ndjson").

Definition output_dir_of (w : World) : string :=
  path_join (path_join (base_dir w) "monthly") "aisummary".

Definition output_path_of (w : World) (date_str : string) : string :=
  path_join (output_dir_of w) (date_str +:+ ".md").

(** The body of the last [try] (lines 219-223): create the directory, then
    write the document. *)
Definition persist (w : World) (parsed_date : date) (final_markdown : string)
  : M unit :=
  (makedirs w (output_dir_of w) ;;
   write_file w (output_path_of w (strftime_ymd parsed_date)) final_markdown)%pipe.

(** [current_date_uk] (lines 54-55) *)
Definition current_date_uk (w : World) : string := day_month_year (now w).

(** ** [main] (lines 97-226) *)

(** The lines [main] prints. *)
Definition msg_tip : string :=
  "Tip: run with --date YYYY-MM-DD. Example: python ai-summary.py --date 2025-08-01 [--force]".

Definition msg_bad_date : string :=
  "Error: --date must be in YYYY-MM-DD format (e.g., 2025-08-01).".

Definition msg_not_found (input_path : string) : string :=
  "Error: input file not found: " +:+ input_path.

Definition msg_skip (date_str output_path : string) : string :=
  "Info: summary already exists for " +:+ date_str +:+ ", skipping: "
  +:+ output_path.

Definition msg_force (output_path : string) : string :=
  "Info: --force set; overwriting existing summary: " +:+ output_path.

Definition msg_read_error (e : pyexn) : string :=
  "Error reading input file: " +:+ exn_msg e.

Definition msg_missing_env : string :=
  "Error: Missing Azure OpenAI environment variables. Set AZURE_OPENAI_API_KEY, AZURE_OPENAI_V1_API_ENDPOINT, and AZURE_OPENAI_API_MODEL.".

Definition msg_using (model filename : string) : string :=
  "Using " +:+ model +:+ " with " +:+ reasoning_effort
  +:+ " reasoning effort on " +:+ filename +:+ ".".

Definition msg_api_error (e : pyexn) : string :=
  "Error from model API: " +:+ exn_msg e.

Definition msg_time (api_call_seconds : Q) : string :=
  "Time taken: " +:+ py_str_int (py_round api_call_seconds) +:+ "s".

Definition msg_write_error (e : pyexn) : string :=
  "Error writing output file: " +:+ exn_msg e.

(** [not azure_key or not azure_endpoint or not azure_model] *)
Definition config_missing (w : World) : bool :=
  negb (truthy_key (azure_key w)) || negb (truthy_key (azure_endpoint w))
  || negb (truthy_key (azure_model w)).

Definition main (w : World) : M unit :=
  (if negb (truthy_key (arg_date w)) then
     print msg_tip ;;
     sys_exit 1
   else
   parsed_date <-
     try_except (lift_res (strptime (default "" (arg_date w)))) value_error
       (fun _ => print msg_bad_date ;; sys_exit 2) ;;
   let date_str := strftime_ymd parsed_date in
   let input_path := input_path_of w date_str in
   let output_path := output_path_of w date_str in
   d <- get_disk ;;
   if negb (path_exists d input_path) then
     print (msg_not_found input_path) ;;
     sys_exit 3
   else
   (if path_exists d output_path && negb (arg_force w) then
      print (msg_skip date_str output_path) ;;
      sys_exit 0
    else if path_exists d output_path && arg_force w then
      print (msg_force output_path)
    else ret tt) ;;
   ndjson_content <-
     try_except (lift_res (read_text d input_path)) any_exception
       (fun e => print (msg_read_error e) ;; sys_exit 4) ;;
   if config_missing w then
     print msg_missing_env ;;
     sys_exit 7
   else
   let model := default "" (azure_model w) in
   print (msg_using model (date_str +:+ ".ndjson")) ;;
   response <-
     try_except (remote_call w (build_request model ndjson_content))
       any_exception
       (fun e => print (msg_api_error e) ;; sys_exit 5) ;;
   let content := output_text response in
   emit (PrintResponse response) ;;
   metrics <- lift_res (extract_usage (usage response)) ;;
   i <- lift_res (render_count (input_tokens metrics)) ;;
   print ("Input tokens: " +:+ i) ;;
   o <- lift_res (render_count (output_tokens metrics)) ;;
   print ("Output tokens: " +:+ o) ;;
   t <- lift_res (render_count (total_tokens metrics)) ;;
   print ("Total tokens: " +:+ t) ;;
   print (msg_time (api_call_seconds w)) ;;
   disclaimer <-
     lift_res (disclaimer (api_call_seconds w) (current_date_uk w) model
                 metrics) ;;
   try_except
     (persist w parsed_date (final_markdown parsed_date content disclaimer))
     any_exception
     (fun e => print (msg_write_error e) ;; sys_exit 6))%pipe.

Definition init_state (w : World) : state :=
  {| st_disk := disk0 w; st_trace := [] |}.

Definition run (w : World) : outcome unit * state := main w (init_state w).

(** How [parser.parse_known_args()] (line 102) ends.  [argparse] rejects a
    command line, such as [--date] without a value, a value given to
    [--force] or an ambiguous abbreviation, by printing a usage message on
    standard error and leaving with status 2; otherwise it returns the
    arguments [arg_date] and [arg_force] of the world. *)
Inductive parse_outcome : Type :=
| ArgsRejected
| ArgsParsed.

(** The script from the command line on: the arguments are parsed, then
    [main] goes on with them. *)
Definition script (po : parse_outcome) (w : World) : outcome unit * state :=
  match po with
  | ArgsRejected => (SysExit 2, init_state w)
  | ArgsParsed => run w
  end.

(** The status the process ends with: [0] on normal return, the argument of
    [sys.exit], or [1] after a traceback. *)
Definition exit_status (o : outcome unit) : Z :=
  match o with
  | Done _ => 0
  | SysExit c => c
  | Uncaught _ => 1
  end.

Definition remote_calls (tr : list event) : list request :=
  omap (fun ev => match ev with RemoteCall r => Some r | _ => None end) tr.

Definition writes (tr : list event) : list (string * string) :=
  omap (fun ev => match ev with WriteFile p t => Some (p, t) | _ => None end)
       tr.

(** ** The token-accounting collaborator ([count_tokens.py]) *)

(** [[\d,]] *)
Definition is_digit_or_comma (c : ascii) : bool :=
  is_digit c || Ascii.eqb c ",".

(** A literal of the pattern, matched under [re.IGNORECASE]. *)
Fixpoint lit_ci (p s : string) : option string :=
  match p with
  | EmptyString => Some s
  | String pc p' =>
      match s with
      | String c s' =>
          if Ascii.eqb (lower_ascii c) (lower_ascii pc) then lit_ci p' s'
          else None
      | EmptyString => None
      end
  end.

(** The longest prefix of [[\d,]] characters, and what follows it. *)
Fixpoint span_count (s : string) : string * string :=
  match s with
  | String c s' =>
      if is_digit_or_comma c
      then let (g, r) := span_count s' in (String c g, r)
      else (EmptyString, s)
  | EmptyString => (EmptyString, s)
  end.

(** [([\d,]+)], greedy. *)
Definition group_count (s : string) : option (string * string) :=
  match span_count s with
  | (EmptyString, _) => None
  | (g, r) => Some (g, r)
  end.

(** [TOKEN_LINE_RE] anchored at the start of [s].  Each greedy repetition is
    followed by something none of its characters can start, so the longest
    repetition is the only one a backtracking matcher can succeed with. *)
Definition token_line_match (s : string) : option (string * string * string) :=
  s ← lit_ci "Input tokens:" s;
  '(g1, s) ← group_count (skip_spaces s);
  s ← lit_ci "|" (skip_spaces s);
  s ← lit_ci "Output tokens:" (skip_spaces s);
  '(g2, s) ← group_count (skip_spaces s);
  s ← lit_ci "|" (skip_spaces s);
  s ← lit_ci "Total tokens:" (skip_spaces s);
  '(g3, _) ← group_count (skip_spaces s);
  Some (g1, g2, g3).

(** [TOKEN_LINE_RE.search(text)]: the leftmost position that matches. *)
Fixpoint token_line_search (text : string) : option (string * string * string) :=
  match token_line_match text with
  | Some g => Some g
  | None =>
      match text with
      | String _ rest => token_line_search rest
      | EmptyString => None
      end
  end.

(** [s.replace(",", "")] *)
Fixpoint remove_commas (s : string) : string :=
  match s with
  | String c s' =>
      if Ascii.eqb c "," then remove_commas s' else String c (remove_commas s')
  | EmptyString => EmptyString
  end.

(** [s.rstrip()]: trailing white space goes. *)
Fixpoint strip_right (s : string) : string :=
  match s with
  | String c s' =>
      match strip_right s' with
      | EmptyString => if is_space c then EmptyString else String c EmptyString
      | kept => String c kept
      end
  | EmptyString => EmptyString
  end.

(** [s.strip()] *)
Definition py_strip (s : string) : string := strip_right (skip_spaces s).

(** [int(s)] for the strings [to_int] can pass it: decimal digits only (the
    group is [[\d,]+] with its commas removed), empty or not. *)
Definition py_int_str (s : string) : res Z :=
  match s with
  | EmptyString =>
      Raise (Exn ValueError "invalid literal for int() with base 10")
  | _ =>
      match NilEmpty.uint_of_string s with
      | Some u => Ok (Z.of_N (N.of_uint u))
      | None => Raise (Exn ValueError "invalid literal for int() with base 10")
      end
  end.

Definition to_int (s : string) : res Z :=
  py_int_str (py_strip (remove_commas s)).

Definition parse_token_line (text : string) : res (option (Z * Z * Z)) :=
  match token_line_search text with
  | None => Ok None
  | Some (g1, g2, g3) =>
      (a <- to_int g1 ;;;
       b <- to_int g2 ;;;
       c <- to_int g3 ;;;
       Ok (Some (a, b, c)))%res
  end.

(** [human(n)] *)
Definition human (n : Z) : string := format_comma n.

(** ** The scanner of [count_tokens.py] *)

Module CountTokens.

(** A line sent to standard output or to standard error. *)
Inductive out_line : Type :=
| Stdout (line : string)
| Stderr (line : string).

(** The variables of the loop of [main], and what it printed. *)
Record tally : Type := {
  total_in : Z;
  total_out : Z;
  total_all : Z;
  parsed : Z;
  missing : list string;
  printed : list out_line
}.

Definition start : tally :=
  {| total_in := 0; total_out := 0; total_all := 0; parsed := 0;
     missing := []; printed := [] |}.

(** One round of the loop, for the file [name] whose reading gave [read].
    Only the read is guarded: an exception of [parse_token_line] leaves
    the loop. *)
Definition scan_file (acc : tally) (name : string) (read : res string)
  : res tally :=
  match read with
  | Raise e =>
      Ok {| total_in := total_in acc; total_out := total_out acc;
            total_all := total_all acc; parsed := parsed acc;
            missing := missing acc;
            printed := printed acc
                       ++ [Stderr ("WARN: Could not read " +:+ name +:+ ": "
                                   +:+ exn_msg e)] |}
  | Ok text =>
      (found <- parse_token_line text ;;;
       match found with
       | None =>
           Ok {| total_in := total_in acc; total_out := total_out acc;
                 total_all := total_all acc; parsed := parsed acc;
                 missing := missing acc ++ [name];
                 printed := printed acc |}
       | Some (ipt, opt, tot) =>
           Ok {| total_in := total_in acc + ipt;
                 total_out := total_out acc + opt;
                 total_all := total_all acc + tot;
                 parsed := parsed acc + 1;
                 missing := missing acc;
                 printed := printed acc |}
       end)%res
  end.

(** The loop over [md_files]. *)
Fixpoint scan (md_files : list (string * res string)) (acc : tally)
  : res tally :=
  match md_files with
  | [] => Ok acc
  | (name, read) :: rest =>
      (acc' <- scan_file acc name read ;;; scan rest acc')%res
  end.

(** The report printed after the loop. *)
Definition report (base : string) (found : nat) (acc : tally)
  : list out_line :=
  [Stdout ("Scanned folder: " +:+ base);
   Stdout ("Files found: " +:+ py_str_int (Z.of_nat found)
           +:+ " | Parsed: " +:+ py_str_int (parsed acc)
           +:+ " | Missing footer: "
           +:+ py_str_int (Z.of_nat (length (missing acc))))]
  ++ (match missing acc with
      | [] => []
      | _ =>
          [Stdout ("Missing in: "
                   +:+ String.concat ", " (take 10 (missing acc))
                   +:+ (if (10 <? length (missing acc))%nat
                        then " (+"
                             +:+ py_str_int
                                   (Z.of_nat (length (missing acc)) - 10)
                             +:+ " more)"
                        else ""))]
      end)
  ++ [Stdout "";
      Stdout "Totals across parsed files:";
      Stdout ("- Input tokens:  " +:+ human (total_in acc));
      Stdout ("- Output tokens: " +:+ human (total_out acc));
      Stdout ("- Total tokens:  " +:+ human (total_all acc))].

(** [main(argv)], for the folder [base] to scan.  [listing] is [None]
    when [base] does not exist or is no directory; otherwise it holds, in
    the order of [sorted(base.glob("*.md"))], the name of every file with
    what reading it gives.  The result is the return value with the lines
    printed, or the exception that ended the scan. *)
Definition main (base : string)
    (listing : option (list (string * res string)))
  : res (Z * list out_line) :=
  match listing with
  | None =>
      Ok (2, [Stderr ("Folder not found or not a directory: " +:+ base)])
  | Some [] => Ok (0, [Stdout ("No markdown files found in: " +:+ base)])
  | Some md_files =>
      (acc <- scan md_files start ;;;
       Ok (0, (printed acc ++ report base (length md_files) acc)%list))%res
  end.

End CountTokens.

(** ** The paths through [main]

    [ends w o st] lists, branch by branch, how a run can end: with which
    outcome, on which disk and after which events.  [run_ends] shows that
    every run ends in one of these ways. *)

Definition is_print (ev : event) : bool :=
  match ev with Print _ => true | _ => false end.

(** The note printed when an existing summary is about to be overwritten. *)
Definition force_note (w : World) (output_path : string) : list event :=
  if path_exists (disk0 w) output_path && arg_force w
  then [Print (msg_force output_path)] else [].

(** The date argument is present and well-formed. *)
Definition date_ok (w : World) (d : date) : Prop :=
  truthy_key (arg_date w) = true
  /\ strptime (default "" (arg_date w)) = Ok d.

(** The run gets past the existence checks of lines 121-129. *)
Definition proceeds (w : World) (d : date) : Prop :=
  date_ok w d
  /\ path_exists (disk0 w) (input_path_of w (strftime_ymd d)) = true
  /\ path_exists (disk0 w) (output_path_of w (strftime_ymd d))
     && negb (arg_force w) = false.

(** The run reaches the remote call and the service answers [resp]. *)
Definition answered (w : World) (d : date) (ndjson : string) (resp : response)
  : Prop :=
  proceeds w d
  /\ read_text (disk0 w) (input_path_of w (strftime_ymd d)) = Ok ndjson
  /\ config_missing w = false
  /\ service w (build_request (default "" (azure_model w)) ndjson) = Ok resp.

(** Events up to and including the printed response. *)
Definition call_events (w : World) (d : date) (ndjson : string)
    (resp : response) : list event :=
  force_note w (output_path_of w (strftime_ymd d))
  ++ [Print (msg_using (default "" (azure_model w))
                       (strftime_ymd d +:+ ".ndjson"));
      RemoteCall (build_request (default "" (azure_model w)) ndjson);
      PrintResponse resp].

(** The four lines printed once the three counts have rendered. *)
Definition count_events (w : World) (i o t : string) : list event :=
  [Print ("Input tokens: " +:+ i); Print ("Output tokens: " +:+ o);
   Print ("Total tokens: " +:+ t); Print (msg_time (api_call_seconds w))].

(** The text handed to the write step. *)
Definition document (w : World) (d : date) (resp : response) (footer : string)
  : string :=
  final_markdown d (output_text resp)
    (disclaimer_head (api_call_seconds w) (current_date_uk w)
       (default "" (azure_model w)) +:+ footer).

(** The document up to the words that name the model. *)
Definition document_intro (w : World) (d : date) (resp : response) : string :=
  full_date_title d +:+ default "" (output_text resp) +:+ nl +:+ nl
  +:+ "_This summary was AI-generated in "
  +:+ py_str_int (py_round (api_call_seconds w))
  +:+ " seconds on " +:+ current_date_uk w.

(** The document up to its footer. *)
Definition document_head (w : World) (d : date) (resp : response) : string :=
  document w d resp "".

Inductive ends (w : World) : outcome unit -> state -> Prop :=
| E_no_date :
    truthy_key (arg_date w) = false ->
    ends w (SysExit 1) {| st_disk := disk0 w; st_trace := [Print msg_tip] |}
| E_bad_date e :
    truthy_key (arg_date w) = true ->
    strptime (default "" (arg_date w)) = Raise e ->
    ends w (SysExit 2)
      {| st_disk := disk0 w; st_trace := [Print msg_bad_date] |}
| E_not_found d :
    date_ok w d ->
    path_exists (disk0 w) (input_path_of w (strftime_ymd d)) = false ->
    ends w (SysExit 3)
      {| st_disk := disk0 w;
         st_trace := [Print (msg_not_found (input_path_of w (strftime_ymd d)))] |}
| E_skip d :
    date_ok w d ->
    path_exists (disk0 w) (input_path_of w (strftime_ymd d)) = true ->
    path_exists (disk0 w) (output_path_of w (strftime_ymd d)) = true ->
    arg_force w = false ->
    ends w (SysExit 0)
      {| st_disk := disk0 w;
         st_trace := [Print (msg_skip (strftime_ymd d)
                               (output_path_of w (strftime_ymd d)))] |}
| E_read_error d e :
    proceeds w d ->
    read_text (disk0 w) (input_path_of w (strftime_ymd d)) = Raise e ->
    ends w (SysExit 4)
      {| st_disk := disk0 w;
         st_trace := force_note w (output_path_of w (strftime_ymd d))
                     ++ [Print (msg_read_error e)] |}
| E_config d ndjson :
    proceeds w d ->
    read_text (disk0 w) (input_path_of w (strftime_ymd d)) = Ok ndjson ->
    config_missing w = true ->
    ends w (SysExit 7)
      {| st_disk := disk0 w;
         st_trace := force_note w (output_path_of w (strftime_ymd d))
                     ++ [Print msg_missing_env] |}
| E_remote_error d ndjson e :
    proceeds w d ->
    read_text (disk0 w) (input_path_of w (strftime_ymd d)) = Ok ndjson ->
    config_missing w = false ->
    service w (build_request (default "" (azure_model w)) ndjson) = Raise e ->
    ends w (SysExit 5)
      {| st_disk := disk0 w;
         st_trace :=
           force_note w (output_path_of w (strftime_ymd d))
           ++ [Print (msg_using (default "" (azure_model w))
                                (strftime_ymd d +:+ ".ndjson"));
               RemoteCall (build_request (default "" (azure_model w)) ndjson);
               Print (msg_api_error e)] |}
| E_render_error d ndjson resp e prints :
    answered w d ndjson resp ->
    usage_footer (usage resp) = Raise e ->
    forallb is_print prints = true ->
    ends w (Uncaught e)
      {| st_disk := disk0 w;
         st_trace := call_events w d ndjson resp ++ prints |}
| E_write_error d ndjson resp m i o t e st :
    answered w d ndjson resp ->
    extract_usage (usage resp) = Ok m ->
    render_count (input_tokens m) = Ok i ->
    render_count (output_tokens m) = Ok o ->
    render_count (total_tokens m) = Ok t ->
    persist w d
      (document w d resp (footer_line i o t))
      {| st_disk := disk0 w;
         st_trace := call_events w d ndjson resp ++ count_events w i o t |}
    = (Uncaught e, st) ->
    ends w (SysExit 6)
      {| st_disk := st_disk st;
         st_trace := st_trace st ++ [Print (msg_write_error e)] |}
| E_written d ndjson resp m i o t st :
    answered w d ndjson resp ->
    extract_usage (usage resp) = Ok m ->
    render_count (input_tokens m) = Ok i ->
    render_count (output_tokens m) = Ok o ->
    render_count (total_tokens m) = Ok t ->
    persist w d
      (document w d resp (footer_line i o t))
      {| st_disk := disk0 w;
         st_trace := call_events w d ndjson resp ++ count_events w i o t |}
    = (Done tt, st) ->
    ends w (Done tt) st.

(** Whether the write step raises: a fault while creating the directory, a
    file in the directory's place, a directory in the document's place, or a
    fault while writing. *)
Definition write_raises (w : World) (d : date) : bool :=
  match makedirs_fault w with Some _ => true | None => false end
  || match disk0 w !! output_dir_of w with
     | Some Dir | None => false
     | Some _ => true
     end
  || match disk0 w !! output_path_of w (strftime_ymd d) with
     | Some Dir => true
     | _ => false
     end
  || match write_fault w with Some _ => true | None => false end.

(** The disk once the directory exists. *)
Definition with_output_dir (w : World) : disk_t :=
  match disk0 w !! output_dir_of w with
  | None => <[output_dir_of w := Dir]> (disk0 w)
  | Some _ => disk0 w
  end.

(** ** The terminal outcomes of section 6 of the specification, as
       conditions on the world *)

Definition missing_date (w : World) : Prop :=
  truthy_key (arg_date w) = false.

Definition malformed_date (w : World) : Prop :=
  truthy_key (arg_date w) = true
  /\ exists e, strptime (default "" (arg_date w)) = Raise e.

Definition input_not_found (w : World) : Prop :=
  exists d,
    date_ok w d
    /\ path_exists (disk0 w) (input_path_of w (strftime_ymd d)) = false.

Definition already_exists (w : World) : Prop :=
  exists d,
    date_ok w d
    /\ path_exists (disk0 w) (input_path_of w (strftime_ymd d)) = true
    /\ path_exists (disk0 w) (output_path_of w (strftime_ymd d)) = true
    /\ arg_force w = false.

Definition read_error (w : World) : Prop :=
  exists d e,
    proceeds w d
    /\ read_text (disk0 w) (input_path_of w (strftime_ymd d)) = Raise e.

Definition missing_configuration (w : World) : Prop :=
  exists d ndjson,
    proceeds w d
    /\ read_text (disk0 w) (input_path_of w (strftime_ymd d)) = Ok ndjson
    /\ config_missing w = true.

Definition remote_call_error (w : World) : Prop :=
  exists d ndjson e,
    proceeds w d
    /\ read_text (disk0 w) (input_path_of w (strftime_ymd d)) = Ok ndjson
    /\ config_missing w = false
    /\ service w (build_request (default "" (azure_model w)) ndjson) = Raise e.

(** The service answered and the three counts rendered. *)
Definition rendered (w : World) (d : date) (resp : response) (footer : string)
  : Prop :=
  exists ndjson,
    answered w d ndjson resp
    /\ usage_footer (usage resp) = Ok footer.

Definition write_error (w : World) : Prop :=
  exists d resp footer, rendered w d resp footer /\ write_raises w d = true.

Definition success (w : World) : Prop :=
  exists d resp footer, rendered w d resp footer /\ write_raises w d = false.

(** The failure class that owns each non-zero exit signal. *)
Definition failure_class (w : World) (signal : Z) : Prop :=
  match signal with
  | 1 => missing_date w
  | 2 => malformed_date w
  | 3 => input_not_found w
  | 4 => read_error w
  | 5 => remote_call_error w
  | 6 => write_error w
  | 7 => missing_configuration w
  | _ => False
  end.

(** ** Predicates on text *)

(** Every character of [s] satisfies [P]. *)
Fixpoint all_chars (P : ascii -> bool) (s : string) : bool :=
  match s with
  | String c s' => P c && all_chars P s'
  | EmptyString => true
  end.

(** Some character of [s] satisfies [P]. *)
Fixpoint some_char (P : ascii -> bool) (s : string) : bool :=
  match s with
  | String c s' => P c || some_char P s'
  | EmptyString => false
  end.

(** A character no part of [TOKEN_LINE_RE] can match: not a letter, not
    white space, not a digit, not one of [:], [,], [|]. *)
Definition is_angle (c : ascii) : bool := Ascii.eqb c "<".

(** [s] holds such a character. *)
Abbreviation blocked s := (some_char is_angle s = true).

(** ** Usage objects the service can send *)

(** The names under which [main] looks the counts up. *)
Definition token_keys : list string :=
  ["input_tokens"; "prompt_tokens"; "output_tokens"; "completion_tokens";
   "total_tokens"].

(** A token field holds an integer or is missing. *)
Definition int_or_none (v : pyval) : bool :=
  match v with VNone | VInt _ => true | _ => false end.

(** Every token field of the (normalized) usage object is an integer or is
    missing. *)
Definition token_fields_typed (raw : usage_t) : bool :=
  forallb (fun k => int_or_none (usage_lookup (normalize_usage raw) k))
          token_keys.

(** The counts the service supplies, if any. *)
Definition supplied_input (raw : usage_t) : pyval :=
  _uget (normalize_usage raw) "input_tokens" (Some "prompt_tokens").

Definition supplied_output (raw : usage_t) : pyval :=
  _uget (normalize_usage raw) "output_tokens" (Some "completion_tokens").

Definition supplied_total (raw : usage_t) : pyval :=
  _uget (normalize_usage raw) "total_tokens" None.

Definition is_float (v : pyval) : bool :=
  match v with VFloat _ => true | _ => false end.

(** [int(sum(parts))] *)
Definition int_sum (parts : list pyval) : res Z :=
  (s <- py_sum parts ;;; py_int s)%res.

(** The reconstruction rule as the specification words it: the sum when both
    operands are numeric, unknown otherwise. *)
Definition spec_reconstructed_total (input output : pyval) : pyval :=
  if is_numeric input && is_numeric output
  then VInt (numeric_value input + numeric_value output)
  else VNone.

(** Input count only. *)
Definition usage_input_only : usage_t :=
  UMapping (<["input_tokens" := VInt 5]> ∅).

(** A total that is not the sum of the other two. *)
Definition usage_disagreeing : usage_t :=
  UMapping (<["input_tokens" := VInt 5]>
              (<["output_tokens" := VInt 7]>
                 (<["total_tokens" := VInt 100]> ∅))).

(** The older field names, on an object whose [model_dump] fails. *)
Definition usage_legacy_object : usage_t :=
  UObject (<["prompt_tokens" := VInt 1200]>
             (<["completion_tokens" := VInt 34]> ∅)) DumpRaises.

(** ** Counts as a document holds them *)

(** A count as the footer shows it: an integer grouped by thousands, or
    the marker of an unknown count. *)
Definition show_count (c : option Z) : string :=
  match c with
  | Some z => format_comma z
  | None => "n/a"
  end.

(** The integer a supplied value is shown as; none for [None]. *)
Definition count_of (v : pyval) : res (option Z) :=
  if is_none v then Ok None else (z <- py_int v ;;; Ok (Some z))%res.

(** An [int] or a [bool]. *)
Definition is_integer (v : pyval) : bool :=
  match v with VBool _ | VInt _ => true | _ => false end.

(** A float that is not below zero. *)
Definition float_nonneg (f : spec_float) : bool :=
  match f with
  | S754_zero _ => true
  | S754_infinity s | S754_finite s _ _ => negb s
  | S754_nan => false
  end.

(** A supplied value that is not below zero; text counts by the integer it
    spells. *)
Definition non_negative (v : pyval) : bool :=
  match v with
  | VInt z => 0 <=? z
  | VFloat f => float_nonneg f
  | VStr s => match int_of_text s with Ok z => 0 <=? z | Raise _ => true end
  | VNone | VBool _ | VOpaque => true
  end.

(** A negative input count. *)
Definition usage_negative : usage_t :=
  UMapping (<["input_tokens" := VInt (-5)]>
              (<["output_tokens" := VInt 7]> ∅)).

(** The floats 1200.7 and 34.6. *)
Definition usage_fractional : usage_t :=
  UMapping (<["input_tokens" :=
                VFloat (S754_finite false 5280734445882573 (-42))]>
              (<["output_tokens" :=
                   VFloat (S754_finite false 4869517097094349 (-47))]> ∅)).

(** An input count that is a list. *)
Definition usage_list_field : usage_t :=
  UMapping (<["input_tokens" := VOpaque]>
              (<["output_tokens" := VInt 34]> ∅)).

(** ** Sample runs *)

Definition demo_usage : usage_t :=
  UMapping (<["input_tokens" := VInt 1200]>
              (<["output_tokens" := VInt 34]> ∅)).

Definition demo_response : response :=
  {| output_text := Some "### OpenAI"; usage := demo_usage |}.

Definition demo_date : date := {| year := 2025; month := 8; day := 1 |}.

Definition demo_input : string := "/repo/monthly/partial/2025-08-01.ndjson".
Definition demo_output : string := "/repo/monthly/aisummary/2025-08-01.md".

(** The input dataset is there, no summary yet. *)
Definition disk_fresh : disk_t :=
  <[demo_input := File "{}"]> (<["/repo/monthly/partial" := Dir]> ∅).

(** The summary of the day exists already. *)
Definition disk_done : disk_t :=
  <[demo_output := File "# 1 August 2025"]>
    (<["/repo/monthly/aisummary" := Dir]> disk_fresh).

(** The input dataset cannot be read. *)
Definition disk_unreadable : disk_t :=
  <[demo_input := Unreadable]> (<["/repo/monthly/partial" := Dir]> ∅).

(** A run of [ai-summary.py --date <date>] in [/repo], on 2 August 2025,
    with the three settings taken from [cfg] and a service that answers
    [answer] after two and a half seconds. *)
Definition demo_run (date_arg : option string) (force : bool)
    (cfg : option string * option string * option string) (disk : disk_t)
    (answer : res response) (fault : option (pyexn * option string)) : World :=
  {| arg_date := date_arg;
     arg_force := force;
     azure_key := cfg.1.1;
     azure_endpoint := cfg.1.2;
     azure_model := cfg.2;
     base_dir := "/repo";
     now := {| year := 2025; month := 8; day := 2 |};
     disk0 := disk;
     service := fun _ => answer;
     api_call_seconds := 5 # 2;
     makedirs_fault := None;
     write_fault := fault |}.

Definition cfg_full : option string * option string * option string :=
  (Some "secret", Some "https://example.openai.azure.com/openai/v1/", Some "GPT-5").

Definition cfg_none : option string * option string * option string :=
  (None, None, None).

(** The same run on another day. *)
Definition on_day (today : date) (w : World) : World :=
  {| arg_date := arg_date w;
     arg_force := arg_force w;
     azure_key := azure_key w;
     azure_endpoint := azure_endpoint w;
     azure_model := azure_model w;
     base_dir := base_dir w;
     now := today;
     disk0 := disk0 w;
     service := service w;
     api_call_seconds := api_call_seconds w;
     makedirs_fault := makedirs_fault w;
     write_fault := write_fault w |}.

(** The last character of a text. *)
Fixpoint last_char (s : string) : option ascii :=
  match s with
  | EmptyString => None
  | String c EmptyString => Some c
  | String _ rest => last_char rest
  end.

(** A character that cannot start a match of [TOKEN_LINE_RE]. *)
Definition not_i (c : ascii) : bool := negb (Ascii.eqb (lower_ascii c) "i").

(** A count the footer pattern cannot read: unknown, or negative. *)
Definition uncountable (v : pyval) : bool :=
  match v with
  | VNone => true
  | _ => match py_int v with
         | Ok z => z <? 0
         | Raise _ => false
         end
  end.

(** A text whose first character is neither white space, nor a digit, nor a
    comma. *)
Definition starts_off (s : string) : bool :=
  match s with
  | String c _ => negb (is_space c) && negb (is_digit_or_comma c)
  | EmptyString => false
  end.

(** ** The environment at import time (lines 11-52 of [ai-summary.py]) *)

Definition REQUIRED_ENV_VARS : list string :=
  ["AZURE_OPENAI_API_KEY"; "AZURE_OPENAI_V1_API_ENDPOINT";
   "AZURE_OPENAI_API_MODEL"].

(** [os.environ] *)
Abbreviation environ := (gmap string string).

(** [os.getenv(v)] *)
Definition getenv (env : environ) (v : string) : option string := env !! v.

Definition _have_all_required_env_vars (env : environ) : bool :=
  forallb (fun v => truthy_key (getenv env v)) REQUIRED_ENV_VARS.

(** [load_dotenv(override=False)]: the variables of the [.env] file that was
    found, if any, are set unless the environment has them already. *)
Definition load_dotenv (dotenv : option environ) (env : environ) : environ :=
  match dotenv with
  | Some file => env ∪ file
  | None => env
  end.

(** [_initialize_env()]: the environment it leaves, and the three globals
    [azure_key], [azure_endpoint], [azure_model].  The test of line 39
    guards [pass] only. *)
Definition _initialize_env (dotenv : option environ) (env : environ)
  : environ * (option string * option string * option string) :=
  let env := load_dotenv dotenv env in
  let _ := if negb (_have_all_required_env_vars env) then tt else tt in
  (env,
   (getenv env "AZURE_OPENAI_API_KEY",
    getenv env "AZURE_OPENAI_V1_API_ENDPOINT",
    getenv env "AZURE_OPENAI_API_MODEL")).

(** The globals a run of [main] sees. *)
Definition module_globals (w : World)
  : option string * option string * option string :=
  (azure_key w, azure_endpoint w, azure_model w).

(** The value of [v] that counts: the environment's if it has one, else the
    one of the [.env] file. *)
Definition effective (dotenv : option environ) (env : environ) (v : string)
  : option string :=
  match env !! v with
  | Some s => Some s
  | None => match dotenv with Some file => file !! v | None => None end
  end.

Definition dotenv_full : environ :=
  {[ "AZURE_OPENAI_API_KEY" := "secret";
     "AZURE_OPENAI_V1_API_ENDPOINT" := "https://example.openai.azure.com/openai/v1/";
     "AZURE_OPENAI_API_MODEL" := "GPT-5" ]}.

(** ** The HTTP handlers under [api/] *)

(** A parsed JSON value; numbers are integers here. *)
#[warnings="-register-all"]
Inductive json : Type :=
| JNull
| JBool (b : bool)
| JNum (z : Z)
| JStr (s : string)
| JArr (items : list json)
| JObj (members : list (string * json)).

(** [func.HttpResponse(body, mimetype=..., status_code=...)]; [mimetype] is
    [None] where the handler gives none. *)
Record HttpResponse : Type := {
  body : string;
  mimetype : option string;
  status_code : Z
}.

(** [s.rstrip('/')] *)
Fixpoint rstrip_slash (s : string) : string :=
  match s with
  | String c s' =>
      match rstrip_slash s' with
      | EmptyString =>
          if Ascii.eqb c "/" then EmptyString else String c EmptyString
      | kept => String c kept
      end
  | EmptyString => EmptyString
  end.

(** [n] slashes. *)
Fixpoint slashes (n : nat) : string :=
  match n with
  | O => EmptyString
  | S k => String "/" (slashes k)
  end.

Module CreateSession.

(** What [requests.post] gives back: [status_code] and [text]. *)
Record upstream : Type := { up_status : Z; up_text : string }.

Inductive event : Type :=
| LogInfo (line : string)
| LogError (line : string)
| Post (url : string) (headers : list (string * string)) (payload : json).

(** The body of the outer [try] (lines 21-56): the answer with the events,
    or the exception that reaches the outer handler with the events before
    it. *)
Definition forward (api_key endpoint : string) (get_json : res json)
    (post : string -> list (string * string) -> json -> res upstream)
  : res HttpResponse * list event :=
  let base_url := rstrip_slash endpoint in
  let session_url := base_url +:+ "/chatkit/sessions" in
  let headers := [("Authorization", "Bearer " +:+ api_key);
                  ("Content-Type", "application/json")] in
  match
    match get_json with
    | Ok j => Ok j
    | Raise (Exn ValueError _) => Ok (JObj [])
    | Raise e => Raise e
    end
  with
  | Raise e => (Raise e, [])
  | Ok req_body =>
      match post session_url headers req_body with
      | Raise e => (Raise e, [Post session_url headers req_body])
      | Ok response =>
          if negb (up_status response =? 200) then
            (Ok {| body := "Upstream error: " +:+ up_text response;
                   mimetype := None;
                   status_code := up_status response |},
             [Post session_url headers req_body;
              LogError ("Upstream error: "
                        +:+ py_str_int (up_status response) +:+ " - "
                        +:+ up_text response)])
          else
            (Ok {| body := up_text response;
                   mimetype := Some "application/json";
                   status_code := 200 |},
             [Post session_url headers req_body])
      end
  end.

(** [main(req)], with the two environment variables, what [req.get_json()]
    gives and the upstream service. *)
Definition main (api_key endpoint : option string) (get_json : res json)
    (post : string -> list (string * string) -> json -> res upstream)
  : HttpResponse * list event :=
  if negb (truthy_key api_key) || negb (truthy_key endpoint) then
    ({| body := "Missing configuration: AZURE_OPENAI_API_KEY or AZURE_OPENAI_V1_API_ENDPOINT";
        mimetype := None;
        status_code := 500 |},
     [LogInfo "Creating ChatKit session."])
  else
    match forward (default "" api_key) (default "" endpoint) get_json post with
    | (Ok response, events) =>
        (response, LogInfo "Creating ChatKit session." :: events)
    | (Raise e, events) =>
        ({| body := "Internal error: " +:+ exn_msg e;
            mimetype := None;
            status_code := 500 |},
         LogInfo "Creating ChatKit session."
         :: (events ++ [LogError ("Error creating session: " +:+ exn_msg e)])%list)
    end.

(** The requests sent upstream. *)
Definition posts (events : list event)
  : list (string * list (string * string) * json) :=
  omap (fun ev => match ev with
                  | Post url headers payload => Some (url, headers, payload)
                  | _ => None
                  end) events.

End CreateSession.

Definition upper_ascii (c : ascii) : ascii :=
  if in_range "a" "z" c then ascii_of_nat (nat_of_ascii c - 32) else c.

(** [s.capitalize()] on ASCII text. *)
Definition capitalize (s : string) : string :=
  match s with
  | EmptyString => EmptyString
  | String c rest => String (upper_ascii c) (lower rest)
  end.

(** [bool(v)] for a parsed JSON value. *)
Definition json_truthy (v : json) : bool :=
  match v with
  | JNull => false
  | JBool b => b
  | JNum z => negb (z =? 0)
  | JStr s => negb (String.eqb s "")
  | JArr items => match items with [] => false | _ => true end
  | JObj members => match members with [] => false | _ => true end
  end.

(** [d.get(key)] on the members of a parsed object (its keys are
    distinct). *)
Fixpoint member (key : string) (members : list (string * json)) : option json :=
  match members with
  | [] => None
  | (k, v) :: rest => if String.eqb k key then Some v else member key rest
  end.

Definition quoted (s : string) : string := dquote +:+ s +:+ dquote.

Module Chat.

(** An exception no handler of [main] catches. *)
Inductive raised : Type :=
| AttributeError
| NotIterable
| Escaped (e : pyexn).

Record chat_tool : Type := {
  tool_type : string;
  server_label : string;
  server_description : string;
  server_url : string;
  require_approval : string
}.

(** The client's [base_url] and the keyword arguments of
    [client.responses.create]. *)
Record request : Type := {
  base_url : string;
  model : json;
  tools : list chat_tool;
  input : string;
  stream : bool
}.

(** An event of the stream: its [type] if it has one, and what dumping it
    ([model_dump_json()], else [json.dumps]) gives. *)
Record stream_event : Type := {
  ev_type : option string;
  ev_dump : res string
}.

Inductive event : Type :=
| LogInfo (line : string)
| LogError (line : string)
| Create (r : request).

Inductive outcome : Type :=
| Responded (r : HttpResponse)
| Raised (x : raised).

Definition system_prompt : string :=
  String.concat nl
    ["You are an AI assistant specialized in Microsoft Products and Services. ";
     "Do not answer questions unrelated to Microsoft.";
     "You can render rich widgets.";
     "When listing models or products, ALWAYS use this JSON format wrapped in a markdown code block:";
     "```json";
     "{";
     "  " +:+ quoted "type" +:+ ": " +:+ quoted "model-card" +:+ ",";
     "  " +:+ quoted "title" +:+ ": " +:+ quoted "Recommended Models" +:+ ",";
     "  " +:+ quoted "models" +:+ ": [";
     "    { ";
     "      " +:+ quoted "id" +:+ ": " +:+ quoted "model-id" +:+ ", ";
     "      " +:+ quoted "name" +:+ ": " +:+ quoted "Model Name" +:+ ", ";
     "      " +:+ quoted "price" +:+ ": " +:+ quoted "$0.00/1k" +:+ ", ";
     "      " +:+ quoted "provider" +:+ ": " +:+ quoted "Provider" +:+ ", ";
     "      " +:+ quoted "features" +:+ ": [" +:+ quoted "Feature1" +:+ ", "
       +:+ quoted "Feature2" +:+ "] ";
     "    }";
     "  ]";
     "}";
     "```";
     "Ensure the JSON is valid and complete.";
     ""].

Definition learn_tool : chat_tool :=
  {| tool_type := "mcp";
     server_label := "microsoft_learn";
     server_description := "Microsoft Learn MCP server for searching and fetching Microsoft documentation.";
     server_url := "https://apim-yiaefkyinmgwy.azure-api.net/msdocs";
     require_approval := "never" |}.

(** [str(v)] as an f-string renders it; [repr] stands for the rendering of
    lists and objects. *)
Definition format_value (repr : json -> string) (v : json) : string :=
  match v with
  | JStr s => s
  | JNull => "None"
  | JBool true => "True"
  | JBool false => "False"
  | JNum z => py_str_int z
  | _ => repr v
  end.

(** What [for msg in messages] goes through. *)
Definition iterate (messages : json) : raised + list json :=
  match messages with
  | JArr items => inr items
  | JStr s => inr (map (fun c => JStr (String c EmptyString)) (list_ascii_of_string s))
  | JObj members => inr (map (fun m => JStr m.1) members)
  | _ => inl NotIterable
  end.

(** One round of the loop: the line added for [msg]. *)
Definition line_of (repr : json -> string) (msg : json) : raised + string :=
  match msg with
  | JObj members =>
      match default (JStr "user") (member "role" members) with
      | JStr role =>
          inr (capitalize role +:+ ": "
               +:+ format_value repr
                     (default (JStr "") (member "content" members))
               +:+ nl)
      | _ => inl AttributeError
      end
  | _ => inl AttributeError
  end.

Fixpoint add_lines (repr : json -> string) (msgs : list json)
    (conversation_text : string) : raised + string :=
  match msgs with
  | [] => inr conversation_text
  | msg :: rest =>
      match line_of repr msg with
      | inl x => inl x
      | inr line => add_lines repr rest (conversation_text +:+ line)
      end
  end.

(** [hasattr(event, 'type') and event.type == 'response.output_text.delta'] *)
Definition is_delta (ev : stream_event) : bool :=
  match ev_type ev with
  | Some t => String.eqb t "response.output_text.delta"
  | None => false
  end.

(** The chunks kept from a stream that yields [events] and then ends, or
    raises [failure]: the dumps of the text deltas. *)
Fixpoint collect (events : list stream_event) (failure : option pyexn)
  : res (list string) :=
  match events with
  | [] => match failure with Some e => Raise e | None => Ok [] end
  | ev :: rest =>
      if is_delta ev
      then (chunk <- ev_dump ev ;;; chunks <- collect rest failure ;;;
            Ok (chunk :: chunks))%res
      else collect rest failure
  end.

(** [main(req)], with the two environment variables, what
    [req.get_json()] gives, and the service, which stands for the token
    provider, the client and the call: it raises, or returns a stream. *)
Definition main (endpoint default_model : option string)
    (get_json : res json) (repr : json -> string)
    (service : request -> res (list stream_event * option pyexn))
  : outcome * list event :=
  let started := [LogInfo "Processing chat request."] in
  if negb (truthy_key endpoint) || negb (truthy_key default_model) then
    (Responded
       {| body := "Missing configuration: AZURE_OPENAI_V1_API_ENDPOINT or AZURE_OPENAI_API_MODEL";
          mimetype := None; status_code := 500 |},
     started)
  else
    match get_json with
    | Raise (Exn ValueError _) =>
        (Responded {| body := "Invalid JSON body"; mimetype := None;
                      status_code := 400 |},
         started)
    | Raise e => (Raised (Escaped e), started)
    | Ok (JObj members) =>
        let messages := default (JArr []) (member "messages" members) in
        let model :=
          default (JStr (default "" default_model)) (member "model" members) in
        if negb (json_truthy messages) then
          (Responded {| body := "No messages provided"; mimetype := None;
                        status_code := 400 |},
           started)
        else
          match iterate messages with
          | inl x => (Raised x, started)
          | inr msgs =>
              match add_lines repr msgs
                      ("System: " +:+ system_prompt +:+ nl) with
              | inl x => (Raised x, started)
              | inr conversation_text =>
                  let r := {| base_url := default "" endpoint;
                              model := model;
                              tools := [learn_tool];
                              input := conversation_text;
                              stream := true |} in
                  match (s <- service r ;;; collect s.1 s.2)%res with
                  | Ok response_chunks =>
                      (Responded
                         {| body := String.concat nl response_chunks;
                            mimetype := Some "application/x-ndjson";
                            status_code := 200 |},
                       (started ++ [Create r])%list)
                  | Raise e =>
                      (Responded
                         {| body := "Error calling Azure OpenAI: "
                                    +:+ exn_msg e;
                            mimetype := None; status_code := 500 |},
                       (started
                        ++ [Create r;
                            LogError ("Error calling Azure OpenAI: "
                                      +:+ exn_msg e)])%list)
                  end
              end
          end
    | Ok _ => (Raised AttributeError, started)
    end.

(** The calls made to the service. *)
Definition creates (events : list event) : list request :=
  omap (fun ev => match ev with Create r => Some r | _ => None end) events.

End Chat.

(** ** Request bodies the chat handler can work with *)

Definition is_message (msg : json) : bool :=
  match msg with
  | JObj members =>
      match default (JStr "user") (member "role" members) with
      | JStr _ => true
      | _ => false
      end
  | _ => false
  end.

(** An object whose [messages], if they count as given, are a list of
    objects with a string for [role] where they have one. *)
Definition well_shaped (body : json) : bool :=
  match body with
  | JObj members =>
      match default (JArr []) (member "messages" members) with
      | JArr items => forallb is_message items
      | messages => negb (json_truthy messages)
      end
  | _ => false
  end.

(** The dumps of the text deltas among [events], in order. *)
Definition delta_dumps (events : list Chat.stream_event) : list string :=
  omap (fun ev => if Chat.is_delta ev
                  then match Chat.ev_dump ev with
                       | Ok chunk => Some chunk
                       | Raise _ => None
                       end
                  else None) events.

(** ** The same invocation with another [--date] *)

Definition with_date (w : World) (date_arg : option string) : World :=
  {| arg_date := date_arg;
     arg_force := arg_force w;
     azure_key := azure_key w;
     azure_endpoint := azure_endpoint w;
     azure_model := azure_model w;
     base_dir := base_dir w;
     now := now w;
     disk0 := disk0 w;
     service := service w;
     api_call_seconds := api_call_seconds w;
     makedirs_fault := makedirs_fault w;
     write_fault := write_fault w |}.

(** [%Y] reads back the four digits [y] is rendered on. *)
Definition reads_year (y : Z) : bool :=
  match re_Y (zero_pad 4 y) with
  | Some (v, EmptyString) => v =? y
  | _ => false
  end.

(** [%d] reads back the two digits [d] is rendered on. *)
Definition reads_day (d : Z) : bool :=
  match re_d (zero_pad 2 d) with
  | Some (v, EmptyString) => v =? d
  | _ => false
  end.

(** ** What a scan should report *)

Definition sum_Z (l : list Z) : Z := foldr Z.add 0 l.

(** The counts in the footer of a file, if it can be read and has one. *)
Definition footer_of (read : res string) : option (Z * Z * Z) :=
  match read with
  | Ok text =>
      match parse_token_line text with
      | Ok (Some counts) => Some counts
      | _ => None
      end
  | Raise _ => None
  end.

(** The footers of the files that have one, in the order of the listing. *)
Definition counted (files : list (string * res string)) : list (Z * Z * Z) :=
  omap (fun f => footer_of f.2) files.

(** The names of the files that were read and hold no footer. *)
Fixpoint footless (files : list (string * res string)) : list string :=
  match files with
  | [] => []
  | (name, Ok text) :: rest =>
      match parse_token_line text with
      | Ok None => name :: footless rest
      | _ => footless rest
      end
  | (_, Raise _) :: rest => footless rest
  end.

(** The files that could not be read. *)
Definition unreadable (files : list (string * res string))
  : list (string * res string) :=
  List.filter (fun f => negb (is_ok f.2)) files.

Definition is_comma (c : ascii) : bool := Ascii.eqb c ",".

(** A folder of three summaries: one with a footer, one without, and one
    that cannot be read. *)
Definition demo_folder : list (string * res string) :=
  [("2025-07-01.md",
    Ok "# 1 July 2025<br>Input tokens: 1,200 | Output tokens: 34 | Total tokens: 1,234._");
   ("2025-08-01.md", Ok "# 1 August 2025");
   ("2025-09-01.md", Raise (Exn OSError "Permission denied"))].

(** ** Summaries left by the pipeline, as the scanner finds them *)

(** A finished run: its world, the date it was asked for, the dataset it
    read, the answer of the service and the three counts of that answer. *)
Record finished : Type := {
  of_world : World;
  of_date : date;
  of_dataset : string;
  of_answer : response;
  of_counts : Z * Z * Z
}.

(** The run got an answer with three non-negative integer counts and wrote
    its document, and nothing before the footer looks like one. *)
Definition well_finished (r : finished) : Prop :=
  answered (of_world r) (of_date r) (of_dataset r) (of_answer r)
  /\ write_raises (of_world r) (of_date r) = false
  /\ extract_usage (usage (of_answer r))
     = Ok {| input_tokens := VInt (of_counts r).1.1;
             output_tokens := VInt (of_counts r).1.2;
             total_tokens := VInt (of_counts r).2 |}
  /\ 0 <= (of_counts r).1.1 /\ 0 <= (of_counts r).1.2 /\ 0 <= (of_counts r).2
  /\ parse_token_line
       (document_head (of_world r) (of_date r) (of_answer r)) = Ok None.

(** The folder of the summaries. *)
Definition summaries_dir (base : string) : string :=
  path_join (path_join base "monthly") "aisummary".

(** A name without path separator. *)
Fixpoint no_slash (s : string) : bool :=
  match s with
  | EmptyString => true
  | String c rest => negb (Ascii.eqb c "/") && no_slash rest
  end.

Fixpoint ends_md (s : string) : bool :=
  match s with
  | EmptyString => false
  | String _ rest => String.eqb s ".md" || ends_md rest
  end.

(** The names the pattern [*.md] matches. *)
Definition md_name (name : string) : bool := no_slash name && ends_md name.

(** [name] is among [dir.glob("*.md")] on [disk]. *)
Definition md_entry (disk : disk_t) (dir name : string) : bool :=
  md_name name && path_exists disk (path_join dir name).

(** Between two runs the summaries stay as they are, whatever else changes
    on the disk (a new dataset arrives). *)
Definition summaries_kept (base : string) (before after : disk_t) : Prop :=
  forall name,
    md_name name = true ->
    after !! path_join (summaries_dir base) name
    = before !! path_join (summaries_dir base) name.

(** The runs take place one after the other in the repository at [base]:
    each finds the summaries as the one before left them. *)
Fixpoint in_sequence (base : string) (disk : disk_t) (runs : list finished)
  : Prop :=
  match runs with
  | [] => True
  | r :: rest =>
      base_dir (of_world r) = base
      /\ summaries_kept base disk (disk0 (of_world r))
      /\ in_sequence base (st_disk (run (of_world r)).2) rest
  end.

(** The disk after the last of them. *)
Fixpoint final_disk (disk : disk_t) (runs : list finished) : disk_t :=
  match runs with
  | [] => disk
  | r :: rest => final_disk (st_disk (run (of_world r)).2) rest
  end.

(** The name of the summary of a run, and the summary itself. *)
Definition summary_name (r : finished) : string :=
  strftime_ymd (of_date r) +:+ ".md".

Definition summary_of (r : finished) : string :=
  document (of_world r) (of_date r) (of_answer r)
    (footer_line (format_comma (of_counts r).1.1)
       (format_comma (of_counts r).1.2) (format_comma (of_counts r).2)).

(** What the scanner finds in the folder [dir] of [disk] when the pattern
    gives [names]: each name with what reading the file gives. *)
Definition listing_of (disk : disk_t) (dir : string) (names : list string)
  : list (string * res string) :=
  map (fun name => (name, read_text disk (path_join dir name))) names.

(** A first run for 1 August 2025 and, on the disk it left and once the
    dataset of 1 July 2025 has arrived, a second one for that day. *)
Definition demo_first : finished :=
  {| of_world := demo_run (Some "2025-08-01") false cfg_full disk_fresh
                   (Ok demo_response) None;
     of_date := demo_date;
     of_dataset := "{}";
     of_answer := demo_response;
     of_counts := (1200, 34, 1234) |}.

Definition demo_answer_july : response :=
  {| output_text := Some "### Meta";
     usage := UMapping (<["input_tokens" := VInt 800]>
                          (<["output_tokens" := VInt 66]>
                             (<["total_tokens" := VInt 866]> ∅))) |}.

Definition demo_second : finished :=
  {| of_world :=
       demo_run (Some "2025-07-01") false cfg_full
         (<["/repo/monthly/partial/2025-07-01.ndjson" := File "{}"]>
            (st_disk (run (of_world demo_first)).2))
         (Ok demo_answer_july) None;
     of_date := {| year := 2025; month := 7; day := 1 |};
     of_dataset := "{}";
     of_answer := demo_answer_july;
     of_counts := (800, 66, 866) |}.

(** ** The spellings of the reasoning-capable model name *)

(** The strings equal to [gpt-5] when the case of letters is ignored. *)
Definition gpt5_spellings : list string :=
  ["gpt-5"; "gpT-5"; "gPt-5"; "gPT-5"; "Gpt-5"; "GpT-5"; "GPt-5"; "GPT-5"].

(** * Properties *)

Lemma strptime_value_error s e : strptime s = Raise e -> value_error e = true.
Proof.
  unfold strptime. intros H.
  repeat match type of H with
         | context [match ?x with _ => _ end] => destruct x
         end; inversion H; reflexivity.
Qed.

Ltac run_monad :=
  cbv beta iota zeta delta
    [run main init_state bind ret raise sys_exit lift_res try_except print
     emit get_disk set_disk remote_call any_exception st_disk st_trace
     fst snd negb].

Ltac run_io :=
  cbv beta iota zeta delta
    [persist makedirs write_file bind ret raise emit get_disk set_disk
     st_disk st_trace].

Lemma persist_no_exit w d text st c st' :
  persist w d text st <> (SysExit c, st').
Proof.
  destruct st as [dk tr]. run_io.
  destruct (makedirs_fault w); [congruence|].
  destruct (dk !! output_dir_of w) as [[]|]; run_io; try congruence.
  all: match goal with
       | |- context [match ?m !! ?k with _ => _ end] =>
           destruct (m !! k) as [[]|]
       end; run_io; try congruence.
  all: destruct (write_fault w) as [[e [p|]]|]; run_io; congruence.
Qed.

Lemma token_footer_ok m i o t :
  render_count (input_tokens m) = Ok i ->
  render_count (output_tokens m) = Ok o ->
  render_count (total_tokens m) = Ok t ->
  token_footer m = Ok (footer_line i o t).
Proof. unfold token_footer. intros -> -> ->. reflexivity. Qed.

Lemma token_footer_raise_i m e :
  render_count (input_tokens m) = Raise e -> token_footer m = Raise e.
Proof. unfold token_footer. intros ->. reflexivity. Qed.

Lemma token_footer_raise_o m i e :
  render_count (input_tokens m) = Ok i ->
  render_count (output_tokens m) = Raise e -> token_footer m = Raise e.
Proof. unfold token_footer. intros -> ->. reflexivity. Qed.

Lemma token_footer_raise_t m i o e :
  render_count (input_tokens m) = Ok i ->
  render_count (output_tokens m) = Ok o ->
  render_count (total_tokens m) = Raise e -> token_footer m = Raise e.
Proof. unfold token_footer. intros -> -> ->. reflexivity. Qed.

Lemma usage_footer_extract raw e :
  extract_usage raw = Raise e -> usage_footer raw = Raise e.
Proof. unfold usage_footer. intros ->. reflexivity. Qed.

Lemma usage_footer_of raw m :
  extract_usage raw = Ok m -> usage_footer raw = token_footer m.
Proof. unfold usage_footer. intros ->. reflexivity. Qed.

Lemma usage_footer_ok raw m i o t :
  extract_usage raw = Ok m ->
  render_count (input_tokens m) = Ok i ->
  render_count (output_tokens m) = Ok o ->
  render_count (total_tokens m) = Ok t ->
  usage_footer raw = Ok (footer_line i o t).
Proof.
  intros Hm Hi Ho Ht. rewrite (usage_footer_of raw m Hm).
  exact (token_footer_ok m i o t Hi Ho Ht).
Qed.

Lemma usage_footer_raise_i raw m e :
  extract_usage raw = Ok m ->
  render_count (input_tokens m) = Raise e -> usage_footer raw = Raise e.
Proof.
  intros Hm Hi. rewrite (usage_footer_of raw m Hm).
  exact (token_footer_raise_i m e Hi).
Qed.

Lemma usage_footer_raise_o raw m i e :
  extract_usage raw = Ok m ->
  render_count (input_tokens m) = Ok i ->
  render_count (output_tokens m) = Raise e -> usage_footer raw = Raise e.
Proof.
  intros Hm Hi Ho. rewrite (usage_footer_of raw m Hm).
  exact (token_footer_raise_o m i e Hi Ho).
Qed.

Lemma usage_footer_raise_t raw m i o e :
  extract_usage raw = Ok m ->
  render_count (input_tokens m) = Ok i ->
  render_count (output_tokens m) = Ok o ->
  render_count (total_tokens m) = Raise e -> usage_footer raw = Raise e.
Proof.
  intros Hm Hi Ho Ht. rewrite (usage_footer_of raw m Hm).
  exact (token_footer_raise_t m i o e Hi Ho Ht).
Qed.

Ltac close_with H :=
  let K := fresh "K" in
  pose proof H as K;
  unfold call_events, force_note in K;
  match goal with
  | Hout : path_exists _ (output_path_of _ _) = _, Hforce : arg_force _ = _ |- _ =>
      rewrite Hout, Hforce in K
  end;
  apply K;
  solve [ reflexivity
        | eauto using usage_footer_extract, usage_footer_raise_i,
            usage_footer_raise_o, usage_footer_raise_t ].

Lemma run_ends w : ends w (run w).1 (run w).2.
Proof.
  run_monad.
  destruct (truthy_key (arg_date w)) eqn:Hdate; run_monad.
  2: { apply E_no_date; assumption. }
  destruct (strptime (default "" (arg_date w))) as [d|e] eqn:Hparse; run_monad.
  2: { rewrite (strptime_value_error _ _ Hparse). eapply E_bad_date; eassumption. }
  assert (Hok : date_ok w d) by (split; assumption).
  destruct (path_exists (disk0 w) (input_path_of w (strftime_ymd d))) eqn:Hin;
    run_monad.
  2: { apply E_not_found; assumption. }
  destruct (path_exists (disk0 w) (output_path_of w (strftime_ymd d))) eqn:Hout;
    destruct (arg_force w) eqn:Hforce; cbn [andb]; run_monad.
  2: { apply E_skip; assumption. }
  all: assert (Hpro : proceeds w d)
    by (repeat split; try apply Hok; try assumption; rewrite Hout, Hforce; reflexivity).
  all: destruct (read_text (disk0 w) (input_path_of w (strftime_ymd d)))
         as [ndjson|e] eqn:Hread; run_monad.
  all: try (eapply (E_read_error w d e) in Hread; [ | exact Hpro ];
            unfold force_note in Hread; rewrite Hout, Hforce in Hread;
            exact Hread).
  all: destruct (config_missing w) eqn:Hcfg; run_monad.
  all: try (eapply (E_config w d ndjson) in Hcfg; [ | exact Hpro | exact Hread ];
            unfold force_note in Hcfg; rewrite Hout, Hforce in Hcfg;
            exact Hcfg).
  all: destruct (service w (build_request (default "" (azure_model w)) ndjson))
         as [resp|e] eqn:Hsvc; run_monad.
  all: try (eapply (E_remote_error w d ndjson e) in Hsvc;
            [ | exact Hpro | exact Hread | exact Hcfg ];
            unfold force_note in Hsvc; rewrite Hout, Hforce in Hsvc;
            exact Hsvc).
  all: assert (Hans : answered w d ndjson resp) by (repeat split; try apply Hpro; assumption).
  all: destruct (extract_usage (usage resp)) as [m|e] eqn:Hm; run_monad;
       [ | close_with (E_render_error w d ndjson resp e [] Hans) ].
  all: destruct (render_count (input_tokens m))
         as [i|e] eqn:Hi; run_monad;
       [ | close_with (E_render_error w d ndjson resp e [] Hans) ].
  all: destruct (render_count (output_tokens m))
         as [o|e] eqn:Ho; run_monad;
       [ | close_with (E_render_error w d ndjson resp e
                         [Print ("Input tokens: " +:+ i)] Hans) ].
  all: destruct (render_count (total_tokens m))
         as [t|e] eqn:Ht; run_monad;
       [ | close_with (E_render_error w d ndjson resp e
                         [Print ("Input tokens: " +:+ i);
                          Print ("Output tokens: " +:+ o)] Hans) ].
  all: unfold disclaimer; rewrite (token_footer_ok _ i o t Hi Ho Ht);
       cbn [res_bind]; run_monad.
  all: pose proof (E_write_error w d ndjson resp m i o t) as Hwerr;
       pose proof (E_written w d ndjson resp m i o t) as Hdone;
       specialize (fun e st => Hwerr e st Hans Hm Hi Ho Ht);
       specialize (fun st => Hdone st Hans Hm Hi Ho Ht);
       unfold call_events, force_note, document, count_events in Hwerr, Hdone;
       rewrite Hout, Hforce in Hwerr, Hdone.
  all: match goal with
       | |- context [persist ?w0 ?d0 ?text ?st] =>
           destruct (persist w0 d0 text st) as [[[]|c|e] st1] eqn:Hp
       end.
  all: run_monad.
  all: try (apply Hdone; exact Hp).
  all: try (apply (Hwerr e st1); exact Hp).
  all: exfalso; exact (persist_no_exit _ _ _ _ _ _ Hp).
Qed.


Local Arguments String.append !s1 s2 : simpl nomatch.

(** ** The write step *)

Lemma digits_of_N_head n :
  exists c s, digits_of_N n = String c s /\ c <> "/"%char.
Proof.
  unfold digits_of_N, NilZero.string_of_uint.
  destruct (N.to_uint n); simpl; eexists _, _; (split; [reflexivity|discriminate]).
Qed.

Lemma zero_pad_head k z :
  exists c s, zero_pad k z = String c s /\ c <> "/"%char.
Proof.
  unfold zero_pad.
  destruct (digits_of_N_head (Z.to_N z)) as (c & s & -> & Hc).
  destruct (k - String.length (String c s))%nat; simpl;
    eexists _, _; (split; [reflexivity|]); [exact Hc|discriminate].
Qed.

Lemma length_append (a b : string) :
  String.length (a +:+ b) = (String.length a + String.length b)%nat.
Proof. induction a; simpl; congruence. Qed.

Lemma output_path_fresh w d : output_path_of w (strftime_ymd d) <> output_dir_of w.
Proof.
  unfold output_path_of, strftime_ymd.
  destruct (zero_pad_head 4 (year d)) as (c & s & -> & Hc).
  intros H. apply (f_equal String.length) in H. revert H.
  unfold path_join at 1. cbn [append].
  destruct c as [[] [] [] [] [] [] [] []]; try (exfalso; apply Hc; reflexivity).
  all: destruct (_ || _); rewrite ?length_append; cbn [String.length]; lia.
Qed.

Lemma persist_ok w d text tr :
  write_raises w d = false ->
  persist w d text {| st_disk := disk0 w; st_trace := tr |}
  = (Done tt,
     {| st_disk := <[output_path_of w (strftime_ymd d) := File text]>
                     (with_output_dir w);
        st_trace := tr ++ [Makedirs (output_dir_of w);
                           WriteFile (output_path_of w (strftime_ymd d)) text] |}).
Proof.
  unfold write_raises, with_output_dir. intros H.
  apply orb_false_elim in H as [H Hw].
  apply orb_false_elim in H as [H Hp].
  apply orb_false_elim in H as [Hm Hd].
  run_io.
  destruct (makedirs_fault w); [discriminate|].
  destruct (write_fault w); [discriminate|].
  destruct (disk0 w !! output_dir_of w) as [[]|] eqn:Hdir; try discriminate; run_io.
  - destruct (disk0 w !! output_path_of w (strftime_ymd d)) as [[]|];
      try discriminate; rewrite <- app_assoc; reflexivity.
  - rewrite lookup_insert_ne by (apply not_eq_sym, output_path_fresh).
    destruct (disk0 w !! output_path_of w (strftime_ymd d)) as [[]|];
      try discriminate; rewrite <- app_assoc; reflexivity.
Qed.

Lemma persist_raises w d text tr :
  write_raises w d = true ->
  exists e st, persist w d text {| st_disk := disk0 w; st_trace := tr |}
               = (Uncaught e, st).
Proof.
  unfold write_raises. intros H. run_io.
  destruct (makedirs_fault w); [eauto|].
  destruct (disk0 w !! output_dir_of w) as [[]|] eqn:Hdir; run_io; eauto.
  - destruct (disk0 w !! output_path_of w (strftime_ymd d)) as [[]|]; eauto;
      destruct (write_fault w) as [[e [p|]]|]; run_io; eauto; discriminate.
  - rewrite lookup_insert_ne by (apply not_eq_sym, output_path_fresh).
    destruct (disk0 w !! output_path_of w (strftime_ymd d)) as [[]|]; eauto;
      destruct (write_fault w) as [[e [p|]]|]; run_io; eauto; discriminate.
Qed.

(** Whatever the write step does, it adds the directory creation and at most
    one write of the text it was given. *)
Lemma persist_trace w d text st o st' :
  persist w d text st = (o, st') ->
  st_trace st' = (st_trace st ++ [Makedirs (output_dir_of w)])%list
  \/ st_trace st'
     = (st_trace st ++ [Makedirs (output_dir_of w);
                        WriteFile (output_path_of w (strftime_ymd d)) text])%list.
Proof.
  destruct st as [dk tr]. run_io.
  destruct (makedirs_fault w); [intros [= <- <-]; left; reflexivity|].
  destruct (dk !! output_dir_of w) as [[]|]; run_io.
  2,3: intros [= <- <-]; left; reflexivity.
  all: match goal with
       | |- context [match ?m !! ?k with _ => _ end] =>
           destruct (m !! k) as [[]|]
       end; run_io.
  all: destruct (write_fault w) as [[e [p|]]|]; run_io.
  all: intros [= <- <-]; right; rewrite <- app_assoc; reflexivity.
Qed.

(** ** Reading off how a run ended *)

Ltac unpack :=
  repeat match goal with
         | H : answered _ _ _ _ |- _ => destruct H as (? & ? & ? & ?)
         | H : proceeds _ _ |- _ => destruct H as (? & ? & ?)
         | H : date_ok _ _ |- _ => destruct H as (? & ?)
         end.

(** Case analysis on the way the run of [w] ended. *)
Ltac ends_cases w :=
  let He := fresh "He" in
  let Hrun := fresh "Hrun" in
  pose proof (run_ends w) as He;
  destruct (run w) as [? ?] eqn:Hrun; cbn [fst snd] in *;
  inversion He; subst; clear He; cbn [st_trace st_disk]; unpack.

(** Cases whose premises contradict what is known are closed. *)
Ltac absurd_case :=
  solve [ congruence
        | match goal with
          | H1 : path_exists ?d ?p = true, H2 : arg_force ?w = false,
            H3 : path_exists ?d ?p && negb (arg_force ?w) = false |- _ =>
              rewrite H1, H2 in H3; discriminate H3
          | H1 : strptime ?s = Ok ?d1, H2 : strptime ?s = Ok ?d2 |- _ =>
              assert (d1 = d2) by congruence; subst;
              first [ congruence
                    | match goal with
                      | H1 : path_exists ?d ?p = true, H2 : arg_force ?w = false,
                        H3 : path_exists ?d ?p && negb (arg_force ?w) = false |- _ =>
                          rewrite H1, H2 in H3; discriminate H3
                      end ]
          end ].

Lemma remote_calls_app tr1 tr2 :
  remote_calls (tr1 ++ tr2) = (remote_calls tr1 ++ remote_calls tr2)%list.
Proof. apply omap_app. Qed.

Lemma writes_app tr1 tr2 : writes (tr1 ++ tr2) = (writes tr1 ++ writes tr2)%list.
Proof. apply omap_app. Qed.

Lemma remote_calls_prints tr : forallb is_print tr = true -> remote_calls tr = [].
Proof.
  induction tr as [|[] tr IH]; simpl; intros H; try discriminate; auto.
Qed.

Lemma writes_prints tr : forallb is_print tr = true -> writes tr = [].
Proof.
  induction tr as [|[] tr IH]; simpl; intros H; try discriminate; auto.
Qed.

Lemma force_note_prints w p : forallb is_print (force_note w p) = true.
Proof. unfold force_note. destruct (_ && _); reflexivity. Qed.

Lemma skip_run w d :
  date_ok w d ->
  path_exists (disk0 w) (input_path_of w (strftime_ymd d)) = true ->
  path_exists (disk0 w) (output_path_of w (strftime_ymd d)) = true ->
  arg_force w = false ->
  run w = (SysExit 0,
           {| st_disk := disk0 w;
              st_trace := [Print (msg_skip (strftime_ymd d)
                                    (output_path_of w (strftime_ymd d)))] |}).
Proof.
  intros [Hd Hp] Hin Hout Hforce.
  ends_cases w; absurd_case.
Qed.

Lemma not_found_run w d :
  date_ok w d ->
  path_exists (disk0 w) (input_path_of w (strftime_ymd d)) = false ->
  run w = (SysExit 3,
           {| st_disk := disk0 w;
              st_trace := [Print (msg_not_found
                                    (input_path_of w (strftime_ymd d)))] |}).
Proof.
  intros [Hd Hp] Hin.
  ends_cases w; absurd_case.
Qed.

Lemma no_date_run w :
  truthy_key (arg_date w) = false ->
  run w = (SysExit 1, {| st_disk := disk0 w; st_trace := [Print msg_tip] |}).
Proof. intros Hd. ends_cases w; absurd_case. Qed.

Lemma bad_date_run w e :
  truthy_key (arg_date w) = true ->
  strptime (default "" (arg_date w)) = Raise e ->
  run w = (SysExit 2,
           {| st_disk := disk0 w; st_trace := [Print msg_bad_date] |}).
Proof. intros Hd Hp. ends_cases w; absurd_case. Qed.

Lemma read_error_run w d e :
  proceeds w d ->
  read_text (disk0 w) (input_path_of w (strftime_ymd d)) = Raise e ->
  run w = (SysExit 4,
           {| st_disk := disk0 w;
              st_trace := force_note w (output_path_of w (strftime_ymd d))
                          ++ [Print (msg_read_error e)] |}).
Proof. intros Hp Hr. unpack. ends_cases w; absurd_case. Qed.

Lemma config_run w d ndjson :
  proceeds w d ->
  read_text (disk0 w) (input_path_of w (strftime_ymd d)) = Ok ndjson ->
  config_missing w = true ->
  run w = (SysExit 7,
           {| st_disk := disk0 w;
              st_trace := force_note w (output_path_of w (strftime_ymd d))
                          ++ [Print msg_missing_env] |}).
Proof. intros Hp Hr Hc. unpack. ends_cases w; absurd_case. Qed.

Lemma remote_error_run w d ndjson e :
  proceeds w d ->
  read_text (disk0 w) (input_path_of w (strftime_ymd d)) = Ok ndjson ->
  config_missing w = false ->
  service w (build_request (default "" (azure_model w)) ndjson) = Raise e ->
  run w = (SysExit 5,
           {| st_disk := disk0 w;
              st_trace :=
                force_note w (output_path_of w (strftime_ymd d))
                ++ [Print (msg_using (default "" (azure_model w))
                                     (strftime_ymd d +:+ ".ndjson"));
                    RemoteCall (build_request (default "" (azure_model w))
                                              ndjson);
                    Print (msg_api_error e)] |}).
Proof. intros Hp Hr Hc Hs. unpack. ends_cases w; absurd_case. Qed.

(** Two successful evaluations of the same expression agree. *)
Ltac same_results :=
  repeat match goal with
         | H1 : ?f = Ok ?a, H2 : ?f = Ok ?b |- _ =>
             first [ constr_eq a b; clear H2
                   | assert (b = a) by congruence; subst b ]
         end.

Lemma written_run w d ndjson resp m i o t :
  answered w d ndjson resp ->
  extract_usage (usage resp) = Ok m ->
  render_count (input_tokens m) = Ok i ->
  render_count (output_tokens m) = Ok o ->
  render_count (total_tokens m) = Ok t ->
  write_raises w d = false ->
  run w = (Done tt,
           {| st_disk :=
                <[output_path_of w (strftime_ymd d) :=
                    File (document w d resp (footer_line i o t))]>
                  (with_output_dir w);
              st_trace :=
                (call_events w d ndjson resp ++ count_events w i o t)
                ++ [Makedirs (output_dir_of w);
                    WriteFile (output_path_of w (strftime_ymd d))
                      (document w d resp (footer_line i o t))] |}).
Proof.
  intros Ha Hm Hi Ho Ht Hw. unpack.
  ends_cases w; try absurd_case; same_results.
  - pose proof (usage_footer_ok _ _ _ _ _ Hm Hi Ho Ht). congruence.
  - rewrite persist_ok in * by assumption. congruence.
  - rewrite persist_ok in * by assumption. congruence.
Qed.

Lemma write_error_run w d ndjson resp m i o t :
  answered w d ndjson resp ->
  extract_usage (usage resp) = Ok m ->
  render_count (input_tokens m) = Ok i ->
  render_count (output_tokens m) = Ok o ->
  render_count (total_tokens m) = Ok t ->
  write_raises w d = true ->
  (run w).1 = SysExit 6.
Proof.
  intros Ha Hm Hi Ho Ht Hw. unpack.
  ends_cases w; try absurd_case; same_results.
  - pose proof (usage_footer_ok _ _ _ _ _ Hm Hi Ho Ht). congruence.
  - destruct (persist_raises w d (document w d resp (footer_line i o t))
                (call_events w d ndjson resp ++ count_events w i o t) Hw)
      as (e & st' & He).
    congruence.
Qed.

Lemma render_error_run w d ndjson resp e :
  answered w d ndjson resp ->
  usage_footer (usage resp) = Raise e ->
  (run w).1 = Uncaught e /\ st_disk (run w).2 = disk0 w
  /\ writes (st_trace (run w).2) = [].
Proof.
  intros Ha Hf. unpack.
  ends_cases w; try absurd_case; same_results.
  - assert (e0 = e) by congruence; subst.
    repeat split. rewrite writes_app, (writes_prints prints) by assumption.
    unfold call_events. rewrite writes_app, (writes_prints (force_note _ _)).
    + reflexivity.
    + apply force_note_prints.
  - match goal with
    | Hm : extract_usage _ = Ok ?m,
      Hi : render_count (input_tokens ?m) = Ok _,
      Ho : render_count (output_tokens ?m) = Ok _,
      Ht : render_count (total_tokens ?m) = Ok _ |- _ =>
        pose proof (usage_footer_ok _ _ _ _ _ Hm Hi Ho Ht); congruence
    end.
  - match goal with
    | Hm : extract_usage _ = Ok ?m,
      Hi : render_count (input_tokens ?m) = Ok _,
      Ho : render_count (output_tokens ?m) = Ok _,
      Ht : render_count (total_tokens ?m) = Ok _ |- _ =>
        pose proof (usage_footer_ok _ _ _ _ _ Hm Hi Ho Ht); congruence
    end.
Qed.

(** ** The idempotency check (C4) *)

(** C4.  When the date is well-formed, the input dataset exists, the output
    document exists and [--force] is not given, the process ends with status
    [0], calls the service not once, writes nothing, and leaves the disk,
    the existing document included, as it was. *)
Theorem C4_skip_leaves_everything w d :
  date_ok w d ->
  path_exists (disk0 w) (input_path_of w (strftime_ymd d)) = true ->
  path_exists (disk0 w) (output_path_of w (strftime_ymd d)) = true ->
  arg_force w = false ->
  exit_status (run w).1 = 0
  /\ remote_calls (st_trace (run w).2) = []
  /\ writes (st_trace (run w).2) = []
  /\ st_disk (run w).2 = disk0 w
  /\ st_disk (run w).2 !! output_path_of w (strftime_ymd d)
     = disk0 w !! output_path_of w (strftime_ymd d).
Proof.
  intros Hd Hin Hout Hforce.
  rewrite (skip_run w d Hd Hin Hout Hforce). repeat split.
Qed.

Lemma C4_skip_witness :
  let w := demo_run (Some "2025-08-01") false cfg_full disk_done
             (Ok demo_response) None in
  exit_status (run w).1 = 0
  /\ remote_calls (st_trace (run w).2) = []
  /\ writes (st_trace (run w).2) = []
  /\ st_disk (run w).2 = disk0 w
  /\ st_disk (run w).2 !! output_path_of w (strftime_ymd demo_date)
     = disk0 w !! output_path_of w (strftime_ymd demo_date).
Proof.
  apply (C4_skip_leaves_everything
           (demo_run (Some "2025-08-01") false cfg_full disk_done
              (Ok demo_response) None) demo_date).
  - split; vm_compute; reflexivity.
  - vm_compute; reflexivity.
  - vm_compute; reflexivity.
  - reflexivity.
Defined.

(** ** Order of the checks (C10) *)

Lemma exit_seven w :
  exit_status (run w).1 = 7 ->
  exists d ndjson,
    proceeds w d
    /\ read_text (disk0 w) (input_path_of w (strftime_ymd d)) = Ok ndjson
    /\ config_missing w = true.
Proof.
  ends_cases w; cbn [exit_status]; intros Hs; try discriminate Hs.
  exists d, ndjson. repeat split; assumption.
Qed.

(** C10.  The input-existence check and the already-exists check come before
    the configuration check: whatever the three settings are (all absent
    included), a missing input ends the run with status [3], and an existing
    output without [--force] ends it with status [0] and no remote call.
    Status [7] is only reached once the input has been located and read. *)
Theorem C10_existence_checks_precede_config w :
  (forall d,
      date_ok w d ->
      path_exists (disk0 w) (input_path_of w (strftime_ymd d)) = false ->
      exit_status (run w).1 = 3)
  /\ (forall d,
         date_ok w d ->
         path_exists (disk0 w) (input_path_of w (strftime_ymd d)) = true ->
         path_exists (disk0 w) (output_path_of w (strftime_ymd d)) = true ->
         arg_force w = false ->
         exit_status (run w).1 = 0 /\ remote_calls (st_trace (run w).2) = [])
  /\ (exit_status (run w).1 = 7 ->
      exists d ndjson,
        date_ok w d
        /\ path_exists (disk0 w) (input_path_of w (strftime_ymd d)) = true
        /\ read_text (disk0 w) (input_path_of w (strftime_ymd d)) = Ok ndjson
        /\ config_missing w = true).
Proof.
  split; [|split].
  - intros d Hd Hin. rewrite (not_found_run w d Hd Hin). reflexivity.
  - intros d Hd Hin Hout Hforce.
    rewrite (skip_run w d Hd Hin Hout Hforce). split; reflexivity.
  - intros Hs. destruct (exit_seven w Hs) as (d & ndjson & Hp & Hr & Hc).
    exists d, ndjson. destruct Hp as (Hd & Hin & _). repeat split; try assumption; apply Hd.
Qed.

(** With none of the three settings present: status [3] without the input,
    status [0] and no call with the summary in place, status [7] with the
    input readable and no summary yet. *)
Lemma C10_no_config_witness :
  config_missing (demo_run (Some "2025-08-01") false cfg_none ∅
                    (Ok demo_response) None) = true
  /\ exit_status (run (demo_run (Some "2025-08-01") false cfg_none ∅
                         (Ok demo_response) None)).1 = 3
  /\ exit_status (run (demo_run (Some "2025-08-01") false cfg_none disk_done
                         (Ok demo_response) None)).1 = 0
  /\ remote_calls (st_trace (run (demo_run (Some "2025-08-01") false cfg_none
                                    disk_done (Ok demo_response) None)).2) = []
  /\ exit_status (run (demo_run (Some "2025-08-01") false cfg_none disk_fresh
                         (Ok demo_response) None)).1 = 7.
Proof.
  split; [reflexivity|].
  split.
  - apply (proj1 (C10_existence_checks_precede_config
                    (demo_run (Some "2025-08-01") false cfg_none ∅
                       (Ok demo_response) None)) demo_date).
    + split; vm_compute; reflexivity.
    + vm_compute; reflexivity.
  - split; [|split].
    + apply (proj1 (proj2 (C10_existence_checks_precede_config
                             (demo_run (Some "2025-08-01") false cfg_none disk_done
                                (Ok demo_response) None))) demo_date);
        try (split; vm_compute; reflexivity); vm_compute; reflexivity.
    + apply (proj1 (proj2 (C10_existence_checks_precede_config
                             (demo_run (Some "2025-08-01") false cfg_none disk_done
                                (Ok demo_response) None))) demo_date);
        try (split; vm_compute; reflexivity); vm_compute; reflexivity.
    + vm_compute; reflexivity.
Defined.

(** ** Exit signals (C5) *)

Lemma token_footer_inv m footer :
  token_footer m = Ok footer ->
  exists i o t,
    render_count (input_tokens m) = Ok i
    /\ render_count (output_tokens m) = Ok o
    /\ render_count (total_tokens m) = Ok t
    /\ footer = footer_line i o t.
Proof.
  unfold token_footer.
  destruct (render_count (input_tokens m)) as [i|]; [|discriminate].
  destruct (render_count (output_tokens m)) as [o|]; [|discriminate].
  destruct (render_count (total_tokens m)) as [t|]; [|discriminate].
  cbn [res_bind]. intros [= <-]. exists i, o, t. repeat split.
Qed.

Lemma usage_footer_inv raw footer :
  usage_footer raw = Ok footer ->
  exists m i o t,
    extract_usage raw = Ok m
    /\ render_count (input_tokens m) = Ok i
    /\ render_count (output_tokens m) = Ok o
    /\ render_count (total_tokens m) = Ok t
    /\ footer = footer_line i o t.
Proof.
  unfold usage_footer. destruct (extract_usage raw) as [m|]; [|discriminate].
  cbn [res_bind]. intros Hf.
  destruct (token_footer_inv m footer Hf) as (i & o & t & H).
  exists m, i, o, t. split; [reflexivity|exact H].
Qed.

Lemma failure_signal w c : failure_class w c -> exit_status (run w).1 = c.
Proof.
  destruct c as [|[[[]|[]|]|[[]|[]|]|]|]; cbn [failure_class]; try contradiction.
  - intros (d & ndjson & Hp & Hr & Hc).
    rewrite (config_run w d ndjson Hp Hr Hc). reflexivity.
  - intros (d & ndjson & e & Hp & Hr & Hc & Hs).
    rewrite (remote_error_run w d ndjson e Hp Hr Hc Hs). reflexivity.
  - intros (d & Hd & Hin). rewrite (not_found_run w d Hd Hin). reflexivity.
  - intros (d & resp & footer & (ndjson & Ha & Hf) & Hw).
    destruct (usage_footer_inv _ _ Hf) as (m & i & o & t & Hm & Hi & Ho & Ht & _).
    rewrite (write_error_run w d ndjson resp m i o t Ha Hm Hi Ho Ht Hw). reflexivity.
  - intros (d & e & Hp & Hr). rewrite (read_error_run w d e Hp Hr). reflexivity.
  - intros (Hd & e & Hp). rewrite (bad_date_run w e Hd Hp). reflexivity.
  - intros Hd. rewrite (no_date_run w Hd). reflexivity.
Qed.

Lemma signal_failure w c :
  (run w).1 = SysExit c -> c <> 0 -> failure_class w c.
Proof.
  ends_cases w; intros [= <-] Hc; cbn [failure_class]; try congruence.
  all: unfold missing_date, malformed_date, input_not_found, read_error,
         missing_configuration, remote_call_error, write_error, rendered,
         answered, proceeds, date_ok.
  all: try solve [eauto 12].
  exists d, resp, (footer_line i o0 t). split.
  - exists ndjson. split; [repeat split; assumption|].
    eapply usage_footer_ok; eassumption.
  - destruct (write_raises w d) eqn:Hw; [reflexivity|].
    rewrite persist_ok in * by assumption. congruence.
Qed.

(** An exception no handler catches ends the run after the request. *)
Lemma uncaught_run w e :
  (run w).1 = Uncaught e ->
  exists d ndjson resp,
    answered w d ndjson resp /\ usage_footer (usage resp) = Raise e.
Proof.
  ends_cases w; intros [= <-]. exists d, ndjson, resp.
  split; [repeat split; try assumption|]; assumption.
Qed.

(** C5, as the code has it.  A failure of the class that owns signal [c]
    ends the process with status [c] ([1] no date, [2] malformed date, [3]
    input not found, [4] read error, [5] remote call error, [6] write
    error, [7] missing configuration); the skip of an existing summary and
    a successful write end it with status [0].  Conversely a non-zero
    status [c] comes from a failure of class [c], with two exceptions:
    status [2] is also the one the argument parser leaves with when it
    rejects the command line, and status [1] is also the one of a run that
    ends, after the request, in an exception no handler catches. *)
Theorem C5_exit_signals w :
  (forall c, failure_class w c -> exit_status (script ArgsParsed w).1 = c)
  /\ (already_exists w -> exit_status (script ArgsParsed w).1 = 0)
  /\ (success w -> exit_status (script ArgsParsed w).1 = 0)
  /\ (forall po c,
         exit_status (script po w).1 = c -> c <> 0 ->
         (po = ArgsParsed /\ failure_class w c)
         \/ (po = ArgsRejected /\ c = 2)
         \/ (po = ArgsParsed /\ c = 1
             /\ exists d ndjson resp e,
                  answered w d ndjson resp
                  /\ usage_footer (usage resp) = Raise e
                  /\ (run w).1 = Uncaught e)).
Proof.
  cbn [script].
  split; [exact (failure_signal w)|].
  split; [|split].
  - intros (d & Hd & Hin & Hout & Hforce).
    rewrite (skip_run w d Hd Hin Hout Hforce). reflexivity.
  - intros (d & resp & footer & (ndjson & Ha & Hf) & Hw).
    destruct (usage_footer_inv _ _ Hf) as (m & i & o & t & Hm & Hi & Ho & Ht & _).
    rewrite (written_run w d ndjson resp m i o t Ha Hm Hi Ho Ht Hw). reflexivity.
  - intros [|] c; cbn [script fst exit_status].
    + intros <- _. right. left. split; reflexivity.
    + destruct (run w).1 as [[]|c'|e] eqn:Hrun; cbn [exit_status];
        intros <- Hc.
      * congruence.
      * left. split; [reflexivity|]. exact (signal_failure w c' Hrun Hc).
      * right. right. split; [reflexivity|]. split; [reflexivity|].
        destruct (uncaught_run w e Hrun) as (d & ndjson & resp & Ha & Hf).
        exists d, ndjson, resp, e.
        split; [exact Ha|]. split; [exact Hf|reflexivity].
Qed.

Ltac by_running := repeat split; vm_compute; reflexivity.

(** One sample run for each signal. *)
Lemma C5_signals_witness :
  exit_status (script ArgsParsed
                 (demo_run None false cfg_full disk_fresh
                    (Ok demo_response) None)).1 = 1
  /\ exit_status (script ArgsParsed
                    (demo_run (Some "2025/08/01") false cfg_full disk_fresh
                       (Ok demo_response) None)).1 = 2
  /\ exit_status (script ArgsParsed
                    (demo_run (Some "2025-08-01") false cfg_full ∅
                       (Ok demo_response) None)).1 = 3
  /\ exit_status (script ArgsParsed
                    (demo_run (Some "2025-08-01") false cfg_full
                       disk_unreadable (Ok demo_response) None)).1 = 4
  /\ exit_status (script ArgsParsed
                    (demo_run (Some "2025-08-01") false cfg_full disk_fresh
                       (Raise (Exn RemoteError "timed out")) None)).1 = 5
  /\ exit_status (script ArgsParsed
                    (demo_run (Some "2025-08-01") false cfg_full disk_fresh
                       (Ok demo_response)
                       (Some (Exn OSError "No space left on device",
                              Some "# 1 Aug")))).1 = 6
  /\ exit_status (script ArgsParsed
                    (demo_run (Some "2025-08-01") false cfg_none disk_fresh
                       (Ok demo_response) None)).1 = 7
  /\ exit_status (script ArgsParsed
                    (demo_run (Some "2025-08-01") false cfg_full disk_done
                       (Ok demo_response) None)).1 = 0
  /\ exit_status (script ArgsParsed
                    (demo_run (Some "2025-08-01") false cfg_full disk_fresh
                       (Ok demo_response) None)).1 = 0.
Proof.
  repeat apply conj.
  - apply (proj1 (C5_exit_signals _) 1). reflexivity.
  - apply (proj1 (C5_exit_signals _) 2).
    split; [reflexivity|]. eexists. vm_compute. reflexivity.
  - apply (proj1 (C5_exit_signals _) 3). exists demo_date. by_running.
  - apply (proj1 (C5_exit_signals _) 4).
    exists demo_date, (Exn OSError "cannot read file"). by_running.
  - apply (proj1 (C5_exit_signals _) 5).
    exists demo_date, "{}", (Exn RemoteError "timed out"). by_running.
  - apply (proj1 (C5_exit_signals _) 6).
    exists demo_date, demo_response,
      (footer_line "1,200" "34" "1,234").
    split; [exists "{}"|]; by_running.
  - apply (proj1 (C5_exit_signals _) 7). exists demo_date, "{}". by_running.
  - apply (proj1 (proj2 (C5_exit_signals _))). exists demo_date. by_running.
  - apply (proj1 (proj2 (proj2 (C5_exit_signals _)))).
    exists demo_date, demo_response, (footer_line "1,200" "34" "1,234").
    split; [exists "{}"|]; by_running.
Defined.

(** The sentence of the specification fails as stated: two failures leave
    with the signal of another class.  A command line the argument parser
    rejects ([--date] given without a value, so that no date is parsed)
    ends with status 2, the signal of a malformed date.  And a run whose
    date is present and well formed, but whose response carries a list as
    input count, ends after the request with status 1, the signal of a
    missing date. *)
Lemma C5_shared_signal_counterexample :
  let w0 := demo_run None false cfg_full disk_fresh
              (Ok demo_response) None in
  let w1 := demo_run (Some "2025-08-01") false cfg_full disk_fresh
              (Ok {| output_text := Some "### OpenAI";
                     usage := usage_list_field |}) None in
  (exit_status (script ArgsRejected w0).1 = 2
   /\ ~ failure_class w0 2)
  /\ (exit_status (script ArgsParsed w1).1 = 1
      /\ ~ failure_class w1 1
      /\ remote_calls (st_trace (script ArgsParsed w1).2)
         = [build_request "GPT-5" "{}"]).
Proof.
  cbv zeta. split; split.
  - reflexivity.
  - cbn [failure_class]. intros [Hd _]. discriminate Hd.
  - vm_compute. reflexivity.
  - split.
    + cbn [failure_class]. unfold missing_date. discriminate.
    + vm_compute. reflexivity.
Qed.

(** ** No partial artifact (C8) *)

Lemma writes_In p text tr :
  In (WriteFile p text) tr -> In (p, text) (writes tr).
Proof.
  induction tr as [|ev tr IH]; [intros []|].
  intros [->|Hin]; [left; reflexivity|].
  destruct ev; cbn; auto.
Qed.

Lemma call_events_writes w d ndjson resp : writes (call_events w d ndjson resp) = [].
Proof.
  unfold call_events.
  rewrite writes_app, (writes_prints (force_note _ _)) by apply force_note_prints.
  reflexivity.
Qed.

Ltac no_writes :=
  rewrite ?writes_app, ?call_events_writes,
    ?(writes_prints (force_note _ _)) by apply force_note_prints;
  try reflexivity.

(** The write step leaves at most one write in the trace: the text given. *)
Lemma persist_writes w d text tr o st :
  writes tr = [] ->
  persist w d text {| st_disk := disk0 w; st_trace := tr |} = (o, st) ->
  writes (st_trace st) = []
  \/ writes (st_trace st) = [(output_path_of w (strftime_ymd d), text)].
Proof.
  intros Htr Hp. apply persist_trace in Hp. cbn [st_trace] in Hp.
  destruct Hp as [-> | ->]; rewrite writes_app, Htr; [left|right]; reflexivity.
Qed.

(** Signals [1], [2], [3], [4], [5], [7]: nothing was written. *)
Lemma failure_leaves_disk w :
  In (exit_status (run w).1) [1; 2; 3; 4; 5; 7] ->
  st_disk (run w).2 = disk0 w /\ writes (st_trace (run w).2) = [].
Proof.
  ends_cases w; cbn [exit_status In]; intros Hs;
    try (split; [reflexivity|]; no_writes).
  - apply writes_prints; assumption.
  - exfalso; lia.
  - exfalso; lia.
Qed.

(** A write, when there is one, is the only one: at the output path, of the
    complete document, after the footer rendered. *)
Lemma write_is_complete w p text :
  In (WriteFile p text) (st_trace (run w).2) ->
  exists d resp footer,
    rendered w d resp footer
    /\ p = output_path_of w (strftime_ymd d)
    /\ text = document w d resp footer
    /\ writes (st_trace (run w).2) = [(p, text)].
Proof.
  intros Hin. apply writes_In in Hin. revert Hin.
  ends_cases w; try (no_writes; intros []).
  - no_writes. rewrite (writes_prints prints) by assumption. intros [].
  - rewrite writes_app. cbn [writes omap]. rewrite app_nil_r.
    match goal with
    | Hp : persist _ _ _ _ = _ |- _ =>
        apply persist_writes in Hp;
        [ destruct Hp as [-> | ->]
        | rewrite writes_app, call_events_writes; reflexivity ]
    end; [intros []|].
    intros [[= <- <-]|[]].
    exists d, resp, (footer_line i o0 t).
    split; [|repeat split; cbn; rewrite ?app_nil_r; reflexivity].
    exists ndjson. split; [repeat split; assumption|].
    eapply usage_footer_ok; eassumption.
  - match goal with
    | Hp : persist _ _ _ _ = _ |- _ =>
        apply persist_writes in Hp;
        [ destruct Hp as [-> | ->]
        | rewrite writes_app, call_events_writes; reflexivity ]
    end; [intros []|].
    intros [[= <- <-]|[]].
    exists d, resp, (footer_line i o0 t).
    split; [|repeat split; cbn; rewrite ?app_nil_r; reflexivity].
    exists ndjson. split; [repeat split; assumption|].
    eapply usage_footer_ok; eassumption.
Qed.

(** C8.  A run that ends with one of the signals [1], [2], [3], [4], [5],
    [7] has written nothing: the disk is the one it started on, so no
    document was created and an existing one is unchanged.  And whenever a
    write is attempted, it is the only one, at the output path, of the
    complete document, built from a footer that rendered in full. *)
Theorem C8_no_partial_artifact w :
  (In (exit_status (run w).1) [1; 2; 3; 4; 5; 7] ->
   st_disk (run w).2 = disk0 w /\ writes (st_trace (run w).2) = [])
  /\ (forall p text,
         In (WriteFile p text) (st_trace (run w).2) ->
         exists d resp footer,
           rendered w d resp footer
           /\ p = output_path_of w (strftime_ymd d)
           /\ text = document w d resp footer
           /\ writes (st_trace (run w).2) = [(p, text)]).
Proof.
  split; [exact (failure_leaves_disk w) | exact (write_is_complete w)].
Qed.

(** A remote failure on a disk that already holds the summary (with
    [--force]): signal [5], the old summary still in place. *)
Lemma C8_remote_failure_witness :
  let w := demo_run (Some "2025-08-01") true cfg_full disk_done
             (Raise (Exn RemoteError "timed out")) None in
  exit_status (run w).1 = 5
  /\ st_disk (run w).2 = disk0 w
  /\ writes (st_trace (run w).2) = [].
Proof.
  split; [vm_compute; reflexivity|].
  apply (proj1 (C8_no_partial_artifact
                  (demo_run (Some "2025-08-01") true cfg_full disk_done
                     (Raise (Exn RemoteError "timed out")) None))).
  vm_compute. tauto.
Defined.

(** ** Reconstruction of the total (C1) *)

Lemma extract_total_unsupplied raw :
  supplied_total raw = VNone ->
  extract_usage raw
  = (t <- reconstruct_total (supplied_input raw) (supplied_output raw) ;;;
     Ok {| input_tokens := supplied_input raw;
           output_tokens := supplied_output raw;
           total_tokens := t |})%res.
Proof.
  unfold supplied_total, supplied_input, supplied_output, extract_usage.
  intros ->. reflexivity.
Qed.

Lemma extract_total_supplied raw :
  supplied_total raw <> VNone ->
  extract_usage raw
  = Ok {| input_tokens := supplied_input raw;
          output_tokens := supplied_output raw;
          total_tokens := supplied_total raw |}.
Proof.
  unfold supplied_total, supplied_input, supplied_output, extract_usage.
  destruct (_uget (normalize_usage raw) "total_tokens" None); cbn; congruence.
Qed.

(** What extraction returns holds the supplied input and output counts. *)
Lemma extract_fields raw m :
  extract_usage raw = Ok m ->
  input_tokens m = supplied_input raw /\ output_tokens m = supplied_output raw.
Proof.
  unfold supplied_input, supplied_output, extract_usage.
  destruct (if is_none _ then _ else _); cbn [res_bind]; [|discriminate].
  intros [= <-]. split; reflexivity.
Qed.

Lemma reconstruct_total_operands i o :
  reconstruct_total i o
  = (if is_numeric i
     then if is_numeric o
          then z <- int_sum [i; o] ;;; Ok (VInt z)
          else z <- int_sum [i] ;;; Ok (VInt z)
     else if is_numeric o
          then z <- int_sum [o] ;;; Ok (VInt z)
          else Ok VNone)%res.
Proof.
  unfold reconstruct_total, numeric_parts, int_sum. cbn [List.filter].
  destruct (is_numeric i), (is_numeric o); cbn [res_bind];
    try reflexivity;
    match goal with
    | |- context [py_sum ?l] => destruct (py_sum l); reflexivity
    end.
Qed.

(** Without floats the sum is the sum of integers. *)
Lemma int_sum_pair i o :
  is_numeric i = true -> is_float i = false ->
  is_numeric o = true -> is_float o = false ->
  int_sum [i; o] = Ok (numeric_value i + numeric_value o).
Proof.
  destruct i as [|bi|zi|fi|si|], o as [|bo|zo|fo|so|]; try discriminate;
    intros _ _ _ _; try destruct bi; try destruct bo; reflexivity.
Qed.

Lemma int_sum_one v :
  is_numeric v = true -> is_float v = false ->
  int_sum [v] = Ok (numeric_value v).
Proof. destruct v; try discriminate; intros _ _; reflexivity. Qed.

Lemma total_of_known_operands raw :
  supplied_total raw = VNone ->
  is_float (supplied_input raw) = false ->
  is_float (supplied_output raw) = false ->
  exists m,
    extract_usage raw = Ok m
    /\ total_tokens m
       = (if is_numeric (input_tokens m)
          then if is_numeric (output_tokens m)
               then VInt (numeric_value (input_tokens m)
                          + numeric_value (output_tokens m))
               else VInt (numeric_value (input_tokens m))
          else if is_numeric (output_tokens m)
               then VInt (numeric_value (output_tokens m))
               else VNone).
Proof.
  intros Hs Hi Ho.
  rewrite (extract_total_unsupplied raw Hs), reconstruct_total_operands.
  destruct (is_numeric (supplied_input raw)) eqn:Hni,
    (is_numeric (supplied_output raw)) eqn:Hno.
  - rewrite (int_sum_pair _ _ Hni Hi Hno Ho). eexists. split; [reflexivity|].
    cbn [total_tokens input_tokens output_tokens]. rewrite Hni, Hno. reflexivity.
  - rewrite (int_sum_one _ Hni Hi). eexists. split; [reflexivity|].
    cbn [total_tokens input_tokens output_tokens]. rewrite Hni, Hno. reflexivity.
  - rewrite (int_sum_one _ Hno Ho). eexists. split; [reflexivity|].
    cbn [total_tokens input_tokens output_tokens]. rewrite Hni, Hno. reflexivity.
  - eexists. split; [reflexivity|].
    cbn [total_tokens input_tokens output_tokens]. rewrite Hni, Hno. reflexivity.
Qed.

(** C1, as the code has it.  When the service supplies no total, the total
    is the sum, converted by [int], of those of input and output that are
    numeric: both when both are, the one that is known when only one is;
    it is left unknown, and rendered as n/a, only when neither is numeric.
    When neither operand is a float the sum is the sum of integers, and
    extraction returns. *)
Theorem C1_total_sums_known_operands raw :
  supplied_total raw = VNone ->
  let i := supplied_input raw in
  let o := supplied_output raw in
  extract_usage raw
  = (t <- (if is_numeric i
           then if is_numeric o
                then z <- int_sum [i; o] ;;; Ok (VInt z)
                else z <- int_sum [i] ;;; Ok (VInt z)
           else if is_numeric o
                then z <- int_sum [o] ;;; Ok (VInt z)
                else Ok VNone) ;;;
     Ok {| input_tokens := i; output_tokens := o; total_tokens := t |})%res
  /\ (is_float i = false -> is_float o = false ->
      exists m,
        extract_usage raw = Ok m
        /\ total_tokens m
           = (if is_numeric (input_tokens m)
              then if is_numeric (output_tokens m)
                   then VInt (numeric_value (input_tokens m)
                              + numeric_value (output_tokens m))
                   else VInt (numeric_value (input_tokens m))
              else if is_numeric (output_tokens m)
                   then VInt (numeric_value (output_tokens m))
                   else VNone)
        /\ (is_numeric (input_tokens m) = false ->
            is_numeric (output_tokens m) = false ->
            render_count (total_tokens m) = Ok "n/a")).
Proof.
  intros Hs i o. subst i o. split.
  - rewrite (extract_total_unsupplied raw Hs), reconstruct_total_operands.
    reflexivity.
  - intros Hi Ho.
    destruct (total_of_known_operands raw Hs Hi Ho) as (m & Hm & Ht).
    exists m. split; [exact Hm|]. split; [exact Ht|].
    intros Hni Hno. rewrite Ht, Hni, Hno. reflexivity.
Qed.

Lemma C1_sum_witness :
  exists m,
    extract_usage demo_usage = Ok m
    /\ total_tokens m = VInt (1200 + 34).
Proof.
  destruct (proj2 (C1_total_sums_known_operands demo_usage eq_refl)
              eq_refl eq_refl) as (m & Hm & Ht & _).
  exists m. split; [exact Hm|].
  rewrite Ht. destruct (extract_fields _ _ Hm) as [-> ->]. reflexivity.
Defined.

(** The sentence of the specification fails as stated: with the input count known and the output
    count missing, no total supplied, the total is the input count, not
    unknown. *)
Lemma C1_one_operand_counterexample :
  supplied_total usage_input_only = VNone
  /\ extract_usage usage_input_only
     = Ok {| input_tokens := VInt 5; output_tokens := VNone;
             total_tokens := VInt 5 |}
  /\ spec_reconstructed_total (VInt 5) VNone = VNone
  /\ render_count (VInt 5) = Ok "5".
Proof. repeat split; vm_compute; reflexivity. Qed.

(** ** Persisted token counts (C2) *)

(** The document a successful run leaves at the output path. *)
Lemma persisted_document w d ndjson resp m i o t :
  answered w d ndjson resp ->
  extract_usage (usage resp) = Ok m ->
  render_count (input_tokens m) = Ok i ->
  render_count (output_tokens m) = Ok o ->
  render_count (total_tokens m) = Ok t ->
  write_raises w d = false ->
  st_disk (run w).2 !! output_path_of w (strftime_ymd d)
  = Some (File (document w d resp (footer_line i o t))).
Proof.
  intros Ha Hm Hi Ho Ht Hw.
  rewrite (written_run w d ndjson resp m i o t Ha Hm Hi Ho Ht Hw).
  cbn [snd st_disk]. apply lookup_insert_eq.
Qed.

Lemma shr_1_nonneg mrs : 0 <= shr_m mrs -> 0 <= shr_m (shr_1 mrs).
Proof.
  destruct mrs as [[|[p|p|]|p] r s]; cbn; intros H; try lia.
Qed.

Lemma iter_shr_1_nonneg p mrs :
  0 <= shr_m mrs -> 0 <= shr_m (SpecFloat.iter_pos shr_1 p mrs).
Proof.
  revert mrs. induction p as [p IH|p IH|]; intros mrs H; cbn [SpecFloat.iter_pos].
  - apply IH, IH, shr_1_nonneg, H.
  - apply IH, IH, H.
  - apply shr_1_nonneg, H.
Qed.

Lemma shr_nonneg mrs e n : 0 <= shr_m mrs -> 0 <= shr_m (shr mrs e n).1.
Proof.
  intros H. destruct n; cbn [shr fst]; try exact H.
  apply iter_shr_1_nonneg, H.
Qed.

Lemma shr_fexp_nonneg prec emax m e l :
  0 <= m -> 0 <= shr_m (shr_fexp prec emax m e l).1.
Proof.
  intros H. unfold shr_fexp. apply shr_nonneg.
  destruct l as [|[]]; exact H.
Qed.

Lemma round_nearest_even_nonneg m l : 0 <= m -> 0 <= round_nearest_even m l.
Proof.
  intros H. destruct l as [|[]]; cbn [round_nearest_even]; try lia.
  destruct (Z.even m); lia.
Qed.

Lemma binary_round_aux_nonneg prec emax m e l :
  0 <= m -> float_nonneg (binary_round_aux prec emax false m e l) = true.
Proof.
  intros H. unfold binary_round_aux.
  pose proof (shr_fexp_nonneg prec emax m e l H) as H1.
  destruct (shr_fexp prec emax m e l) as [mrs' e'] eqn:E1. cbn [fst] in H1.
  pose proof (shr_fexp_nonneg prec emax
                (round_nearest_even (shr_m mrs') (loc_of_shr_record mrs'))
                e' loc_Exact (round_nearest_even_nonneg _ _ H1)) as H2.
  destruct (shr_fexp prec emax (round_nearest_even _ _) e' loc_Exact)
    as [mrs'' e''] eqn:E2. cbn [fst] in H2.
  destruct (shr_m mrs'') as [|p|p]; [reflexivity| |lia].
  destruct (_ <=? _); reflexivity.
Qed.

Lemma binary_round_nonneg prec emax m e :
  float_nonneg (binary_round prec emax false m e) = true.
Proof.
  unfold binary_round. destruct (shl_align _ _ _) as [mz ez].
  apply binary_round_aux_nonneg. lia.
Qed.

Lemma binary_normalize_nonneg prec emax m e :
  0 <= m -> float_nonneg (binary_normalize prec emax m e false) = true.
Proof.
  intros H. destruct m as [|p|p]; cbn [binary_normalize]; [reflexivity| |lia].
  apply binary_round_nonneg.
Qed.

Lemma float_add_nonneg a b :
  float_nonneg a = true -> float_nonneg b = true ->
  float_nonneg (float_add a b) = true.
Proof.
  unfold float_add.
  destruct a as [sa|sa| |sa ma ea], b as [sb|sb| |sb mb eb];
    cbn [float_nonneg SFadd]; try discriminate; intros Ha Hb;
    try (apply negb_true_iff in Ha; subst sa);
    try (apply negb_true_iff in Hb; subst sb);
    try reflexivity; try (destruct sa; reflexivity);
    try (destruct sb; reflexivity); try (destruct sa, sb; reflexivity).
  apply binary_normalize_nonneg. cbn [cond_Zopp]. lia.
Qed.

Lemma float_of_int_nonneg z f :
  float_of_int z = Ok f -> 0 <= z -> float_nonneg f = true.
Proof.
  unfold float_of_int. intros Hf Hz.
  pose proof (binary_normalize_nonneg 53 1024 z 0 Hz) as Hn.
  destruct (binary_normalize 53 1024 z 0 false); try discriminate;
    injection Hf as <-; exact Hn.
Qed.

Lemma int_of_float_nonneg f z :
  int_of_float f = Ok z -> float_nonneg f = true -> 0 <= z.
Proof.
  destruct f as [s|s| |s m e]; cbn [int_of_float float_nonneg];
    try discriminate.
  - intros [= <-] _. lia.
  - intros [= <-] Hs. apply negb_true_iff in Hs. subst s.
    destruct (Z.leb_spec 0 e).
    + apply Z.mul_nonneg_nonneg; [lia|]. apply Z.pow_nonneg. lia.
    + apply Z.div_pos; [lia|]. apply Z.pow_pos_nonneg; lia.
Qed.

Lemma render_count_of v :
  render_count v = (c <- count_of v ;;; Ok (show_count c))%res.
Proof.
  unfold render_count, count_of. destruct (is_none v); [reflexivity|].
  destruct (py_int v); reflexivity.
Qed.

Lemma render_count_inv v s :
  render_count v = Ok s -> exists c, count_of v = Ok c /\ s = show_count c.
Proof.
  rewrite render_count_of. destruct (count_of v) as [c|]; [|discriminate].
  intros [= <-]. exists c. split; reflexivity.
Qed.

Lemma count_of_integer v : is_integer v = true -> count_of v = Ok (Some (numeric_value v)).
Proof. destruct v as [|[]| | | |]; try discriminate; reflexivity. Qed.

Lemma count_of_nonneg v z :
  non_negative v = true -> count_of v = Ok (Some z) -> 0 <= z.
Proof.
  destruct v as [|b|n|f|s|]; unfold count_of; cbn [is_none py_int non_negative];
    try discriminate.
  - destruct b; intros _ [= <-]; lia.
  - intros H [= <-]. apply Z.leb_le, H.
  - destruct (int_of_float f) as [n|] eqn:Hf; [|discriminate].
    intros H [= <-]. exact (int_of_float_nonneg f n Hf H).
  - destruct (int_of_text s) as [n|]; [|discriminate].
    intros H [= <-]. apply Z.leb_le, H.
Qed.

(** Adding numbers that are not below zero gives one that is not. *)
Lemma py_add_nonneg x y r :
  is_numeric x = true -> is_numeric y = true ->
  non_negative x = true -> non_negative y = true ->
  py_add x y = Ok r ->
  is_numeric r = true /\ non_negative r = true.
Proof.
  assert (Hnv : forall v, is_numeric v = true -> non_negative v = true ->
                          0 <= numeric_value v).
  { intros [|[]|n| | |]; cbn; try discriminate; intros _ H; lia. }
  intros Hx Hy Hpx Hpy.
  destruct x as [|[]|zx|fx|sx|], y as [|[]|zy|fy|sy|]; try discriminate;
    cbn [py_add];
    try (intros [= <-]; split; [reflexivity|];
         cbn [non_negative numeric_value] in *; lia).
  all: try match goal with
           | |- context [float_of_int ?n] =>
               destruct (float_of_int n) as [g|] eqn:Hg; [|discriminate];
               cbn [res_bind]
           end.
  all: intros [= <-]; split; [reflexivity|]; cbn [non_negative] in *;
    apply float_add_nonneg; try assumption.
  all: eapply float_of_int_nonneg; [eassumption|].
  all: first [ exact (Hnv _ Hx Hpx) | exact (Hnv _ Hy Hpy) ].
Qed.

Lemma int_sum_nonneg parts z :
  forallb is_numeric parts = true ->
  forallb non_negative parts = true ->
  int_sum parts = Ok z -> 0 <= z.
Proof.
  unfold int_sum, py_sum.
  assert (H : forall acc,
             is_numeric acc = true -> non_negative acc = true ->
             forallb is_numeric parts = true ->
             forallb non_negative parts = true ->
             forall r,
               fold_left (fun acc v => (a <- acc ;;; py_add a v)%res) parts
                 (Ok acc) = Ok r ->
               is_numeric r = true /\ non_negative r = true).
  { induction parts as [|v parts IH]; intros acc Ha Hpa Hn Hp r.
    - cbn. intros [= <-]. split; assumption.
    - cbn [forallb fold_left res_bind] in *.
      apply andb_true_iff in Hn as [Hv Hn]. apply andb_true_iff in Hp as [Hpv Hp].
      destruct (py_add acc v) as [s|e] eqn:Hs.
      + destruct (py_add_nonneg acc v s Ha Hv Hpa Hpv Hs) as [Hs1 Hs2].
        apply IH; assumption.
      + intros Hf. exfalso. clear -Hf.
        induction parts as [|u parts IHp]; cbn in Hf; [discriminate|auto]. }
  intros Hn Hp.
  destruct (fold_left _ parts (Ok (VInt 0))) as [s|] eqn:Hs; [|discriminate].
  cbn [res_bind]. intros Hz.
  destruct (H (VInt 0) eq_refl eq_refl Hn Hp s Hs) as [Hs1 Hs2].
  apply (count_of_nonneg s z Hs2). unfold count_of.
  destruct s; try discriminate; cbn [is_none]; rewrite Hz; reflexivity.
Qed.

Lemma reconstruct_total_nonneg i o z :
  non_negative i = true -> non_negative o = true ->
  reconstruct_total i o = Ok (VInt z) -> 0 <= z.
Proof.
  intros Hi Ho. rewrite reconstruct_total_operands.
  destruct (is_numeric i) eqn:Hni, (is_numeric o) eqn:Hno.
  - destruct (int_sum [i; o]) as [n|] eqn:Hs; [|discriminate].
    intros [= <-]. apply (int_sum_nonneg [i; o] n); cbn [forallb];
      rewrite ?Hni, ?Hno, ?Hi, ?Ho; try reflexivity. exact Hs.
  - destruct (int_sum [i]) as [n|] eqn:Hs; [|discriminate].
    intros [= <-]. apply (int_sum_nonneg [i] n); cbn [forallb];
      rewrite ?Hni, ?Hi; try reflexivity. exact Hs.
  - destruct (int_sum [o]) as [n|] eqn:Hs; [|discriminate].
    intros [= <-]. apply (int_sum_nonneg [o] n); cbn [forallb];
      rewrite ?Hno, ?Ho; try reflexivity. exact Hs.
  - discriminate.
Qed.

(** How a run that returns normally ended. *)
Lemma done_run w :
  (run w).1 = Done tt ->
  exists d ndjson resp m i o t,
    answered w d ndjson resp
    /\ extract_usage (usage resp) = Ok m
    /\ render_count (input_tokens m) = Ok i
    /\ render_count (output_tokens m) = Ok o
    /\ render_count (total_tokens m) = Ok t
    /\ write_raises w d = false.
Proof.
  ends_cases w; intros [=].
  exists d, ndjson, resp, m, i, o0, t.
  repeat split; try assumption.
  destruct (write_raises w d) eqn:Hw; [|reflexivity].
  match goal with
  | Hp : persist _ _ ?text {| st_disk := _; st_trace := ?tr |} = _ |- _ =>
      destruct (persist_raises w d text tr Hw) as (e & st' & He); congruence
  end.
Qed.

(** C2, as the code has it.  Every document a run persists shows each of
    its three counts as an integer grouped by thousands, namely the
    supplied value converted by [int], or as n/a when it is unknown.  A
    total the service supplied is shown as supplied, whatever its relation
    to input and output.  When the service supplied no total and supplied
    input and output as integers, all three counts are present and the
    total is input + output.  A count is not below zero when the supplied
    value it comes from is not (for the reconstructed total: when neither
    input nor output is). *)
Theorem C2_persisted_counts w :
  (run w).1 = Done tt ->
  exists d ndjson resp ci co ct,
    answered w d ndjson resp
    /\ st_disk (run w).2 !! output_path_of w (strftime_ymd d)
       = Some (File (document w d resp
                       (footer_line (show_count ci) (show_count co)
                          (show_count ct))))
    /\ count_of (supplied_input (usage resp)) = Ok ci
    /\ count_of (supplied_output (usage resp)) = Ok co
    /\ (supplied_total (usage resp) <> VNone ->
        count_of (supplied_total (usage resp)) = Ok ct)
    /\ (supplied_total (usage resp) = VNone ->
        is_integer (supplied_input (usage resp)) = true ->
        is_integer (supplied_output (usage resp)) = true ->
        exists a b, ci = Some a /\ co = Some b /\ ct = Some (a + b))
    /\ (non_negative (supplied_input (usage resp)) = true ->
        forall z, ci = Some z -> 0 <= z)
    /\ (non_negative (supplied_output (usage resp)) = true ->
        forall z, co = Some z -> 0 <= z)
    /\ (non_negative (supplied_input (usage resp)) = true ->
        non_negative (supplied_output (usage resp)) = true ->
        non_negative (supplied_total (usage resp)) = true ->
        forall z, ct = Some z -> 0 <= z).
Proof.
  intros Hdone.
  destruct (done_run w Hdone)
    as (d & ndjson & resp & m & i & o & t & Ha & Hm & Hi & Ho & Ht & Hw).
  destruct (extract_fields _ _ Hm) as [Hmi Hmo].
  destruct (render_count_inv _ _ Hi) as (ci & Hci & ->).
  destruct (render_count_inv _ _ Ho) as (co & Hco & ->).
  destruct (render_count_inv _ _ Ht) as (ct & Hct & ->).
  rewrite Hmi in Hci. rewrite Hmo in Hco.
  exists d, ndjson, resp, ci, co, ct.
  split; [exact Ha|].
  split; [exact (persisted_document w d ndjson resp m _ _ _ Ha Hm Hi Ho Ht Hw)|].
  split; [exact Hci|]. split; [exact Hco|].
  split; [|split; [|split; [|split]]].
  - intros Hs. rewrite (extract_total_supplied _ Hs) in Hm.
    injection Hm as <-. exact Hct.
  - intros Hs Hii Hio.
    rewrite (count_of_integer _ Hii) in Hci. rewrite (count_of_integer _ Hio) in Hco.
    injection Hci as <-. injection Hco as <-.
    exists (numeric_value (supplied_input (usage resp))),
           (numeric_value (supplied_output (usage resp))).
    split; [reflexivity|]. split; [reflexivity|].
    destruct (total_of_known_operands (usage resp) Hs) as (m' & Hm' & Ht').
    + destruct (supplied_input (usage resp)); try discriminate; reflexivity.
    + destruct (supplied_output (usage resp)); try discriminate; reflexivity.
    + assert (m' = m) by congruence. subst m'.
      rewrite Hmi, Hmo in Ht'.
      assert (Hni : is_numeric (supplied_input (usage resp)) = true)
        by (destruct (supplied_input (usage resp)); try discriminate;
            reflexivity).
      assert (Hno : is_numeric (supplied_output (usage resp)) = true)
        by (destruct (supplied_output (usage resp)); try discriminate;
            reflexivity).
      rewrite Hni, Hno in Ht'. rewrite Ht' in Hct.
      unfold count_of in Hct. cbn [is_none py_int res_bind] in Hct.
      injection Hct as <-. reflexivity.
  - intros Hn z ->. exact (count_of_nonneg _ z Hn Hci).
  - intros Hn z ->. exact (count_of_nonneg _ z Hn Hco).
  - intros Hni Hno Hnt z ->.
    destruct (supplied_total (usage resp)) eqn:Hs.
    + rewrite (extract_total_unsupplied _ Hs) in Hm.
      destruct (reconstruct_total _ _) as [tv|] eqn:Hr; [|discriminate].
      injection Hm as <-. cbn [total_tokens] in Hct.
      assert (tv = VInt z).
      { revert Hr Hct. unfold reconstruct_total.
        destruct (numeric_parts _); [intros [= <-]; discriminate|].
        destruct (py_sum _); [|discriminate]. cbn [res_bind].
        destruct (py_int _); [|discriminate]. cbn [res_bind].
        intros [= <-]. unfold count_of. cbn. congruence. }
      subst tv. exact (reconstruct_total_nonneg _ _ z Hni Hno Hr).
    + rewrite extract_total_supplied in Hm by (rewrite Hs; discriminate).
      injection Hm as <-. cbn [total_tokens] in Hct. rewrite Hs in Hct.
      refine (count_of_nonneg _ z _ Hct). exact Hnt.
    + rewrite extract_total_supplied in Hm by (rewrite Hs; discriminate).
      injection Hm as <-. cbn [total_tokens] in Hct. rewrite Hs in Hct.
      refine (count_of_nonneg _ z _ Hct). exact Hnt.
    + rewrite extract_total_supplied in Hm by (rewrite Hs; discriminate).
      injection Hm as <-. cbn [total_tokens] in Hct. rewrite Hs in Hct.
      refine (count_of_nonneg _ z _ Hct). exact Hnt.
    + rewrite extract_total_supplied in Hm by (rewrite Hs; discriminate).
      injection Hm as <-. cbn [total_tokens] in Hct. rewrite Hs in Hct.
      refine (count_of_nonneg _ z _ Hct). exact Hnt.
    + rewrite extract_total_supplied in Hm by (rewrite Hs; discriminate).
      injection Hm as <-. cbn [total_tokens] in Hct. rewrite Hs in Hct.
      refine (count_of_nonneg _ z _ Hct). exact Hnt.
Qed.

Lemma C2_reconstructed_witness :
  let w := demo_run (Some "2025-08-01") false cfg_full disk_fresh
             (Ok demo_response) None in
  (run w).1 = Done tt
  /\ st_disk (run w).2 !! demo_output
     = Some (File (document w demo_date demo_response
                     (footer_line (show_count (Some 1200))
                        (show_count (Some 34))
                        (show_count (Some (1200 + 34)))))).
Proof.
  intros w.
  assert (Hdone : (run w).1 = Done tt) by (vm_compute; reflexivity).
  split; [exact Hdone|].
  destruct (C2_persisted_counts w Hdone)
    as (d & ndjson & resp & ci & co & ct
        & Ha & Hdoc & Hci & Hco & _ & Hsum & _).
  destruct Ha as (((_ & Hd) & _) & _ & _ & Hs).
  vm_compute in Hd. injection Hd as <-.
  cbn in Hs. injection Hs as <-.
  destruct (Hsum eq_refl eq_refl eq_refl) as (a & b & -> & -> & ->).
  vm_compute in Hci. injection Hci as <-.
  vm_compute in Hco. injection Hco as <-.
  exact Hdoc.
Defined.

(** The sentence of the specification fails as stated, in three ways.  The
    service reports 5 input, 7 output and 100 total tokens: the document
    carries the three counts as reported, although 5 + 7 is not 100.  The
    service reports -5 input and 7 output tokens: the document carries the
    negative count.  The service reports 1200.7 input and 34.6 output
    tokens and no total: the document carries 1,200, 34 and 1,235. *)
Lemma C2_supplied_counts_counterexample :
  let run_with := fun u =>
    run (demo_run (Some "2025-08-01") false cfg_full disk_fresh
           (Ok {| output_text := Some "### OpenAI"; usage := u |}) None) in
  ((run_with usage_disagreeing).1 = Done tt
   /\ exists text,
        st_disk (run_with usage_disagreeing).2 !! demo_output
        = Some (File text)
        /\ parse_token_line text = Ok (Some (5, 7, 100))
        /\ 5 + 7 <> 100)
  /\ ((run_with usage_negative).1 = Done tt
      /\ exists head,
           st_disk (run_with usage_negative).2 !! demo_output
           = Some (File (head +:+ "Input tokens: -5 | Output tokens: 7 | Total tokens: 2._"))
           /\ -5 < 0)
  /\ ((run_with usage_fractional).1 = Done tt
      /\ supplied_total usage_fractional = VNone
      /\ exists text,
           st_disk (run_with usage_fractional).2 !! demo_output
           = Some (File text)
           /\ parse_token_line text = Ok (Some (1200, 34, 1235))
           /\ 1200 + 34 <> 1235).
Proof.
  cbv zeta. split; [|split].
  - split; [vm_compute; reflexivity|].
    eexists. split; [vm_compute; reflexivity|].
    split; [vm_compute; reflexivity|]. discriminate.
  - split; [vm_compute; reflexivity|].
    exists (document_head
              (demo_run (Some "2025-08-01") false cfg_full disk_fresh
                 (Ok {| output_text := Some "### OpenAI";
                        usage := usage_negative |}) None)
              demo_date
              {| output_text := Some "### OpenAI"; usage := usage_negative |}).
    split; [vm_compute; reflexivity|reflexivity].
  - split; [vm_compute; reflexivity|]. split; [reflexivity|].
    eexists. split; [vm_compute; reflexivity|].
    split; [vm_compute; reflexivity|]. discriminate.
Qed.

(** ** Totality of usage extraction (C7) *)

Lemma render_typed v :
  int_or_none v = true -> exists s, render_count v = Ok s.
Proof. destruct v; try discriminate; intros _; eexists; reflexivity. Qed.

Lemma uget_typed u primary fallback :
  int_or_none (usage_lookup u primary) = true ->
  int_or_none (usage_lookup u fallback) = true ->
  int_or_none (_uget u primary (Some fallback)) = true.
Proof.
  unfold _uget. intros Hp Hf.
  destruct (is_none (usage_lookup u primary) && truthy_key (Some fallback));
    assumption.
Qed.

Lemma uget_missing u primary fallback :
  usage_lookup u primary = VNone ->
  usage_lookup u fallback = VNone ->
  _uget u primary (Some fallback) = VNone.
Proof.
  unfold _uget. intros -> Hf.
  destruct (is_none VNone && truthy_key (Some fallback)); [exact Hf|reflexivity].
Qed.

Lemma uget_no_fallback u primary : _uget u primary None = usage_lookup u primary.
Proof.
  unfold _uget. cbn [truthy_key]. rewrite andb_false_r. reflexivity.
Qed.

Lemma typed_fields raw :
  token_fields_typed raw = true ->
  exists m,
    extract_usage raw = Ok m
    /\ int_or_none (input_tokens m) = true
    /\ int_or_none (output_tokens m) = true
    /\ int_or_none (total_tokens m) = true.
Proof.
  unfold token_fields_typed, token_keys. cbn [forallb].
  rewrite !andb_true_iff. intros (Hi & Hp & Ho & Hc & Ht & _).
  assert (Hin : int_or_none (supplied_input raw) = true)
    by (apply uget_typed; assumption).
  assert (Hout : int_or_none (supplied_output raw) = true)
    by (apply uget_typed; assumption).
  assert (Hs : supplied_total raw
               = usage_lookup (normalize_usage raw) "total_tokens")
    by apply uget_no_fallback.
  destruct (supplied_total raw) eqn:Hv.
  - rewrite (extract_total_unsupplied raw Hv).
    destruct (supplied_input raw); try discriminate;
      destruct (supplied_output raw); try discriminate;
      eexists; (split; [reflexivity|]); repeat split.
  - rewrite <- Hs in Ht. discriminate.
  - rewrite extract_total_supplied, Hv by congruence.
    eexists. split; [reflexivity|]. repeat split; assumption.
  - rewrite <- Hs in Ht. discriminate.
  - rewrite <- Hs in Ht. discriminate.
  - rewrite <- Hs in Ht. discriminate.
Qed.

(** Integer counts render.  On every usage input (absent, a mapping, an
    object with or without a working [model_dump]) whose token fields are
    each an integer or missing, extraction and rendering return; a missing
    input or output count is rendered as n/a; a missing total is rendered
    as n/a when input and output are missing too. *)
Lemma integer_usage_renders raw :
  token_fields_typed raw = true ->
  let u := normalize_usage raw in
  exists m,
    extract_usage raw = Ok m
    /\ (exists footer, token_footer m = Ok footer)
    /\ (usage_lookup u "input_tokens" = VNone ->
        usage_lookup u "prompt_tokens" = VNone ->
        render_count (input_tokens m) = Ok "n/a")
    /\ (usage_lookup u "output_tokens" = VNone ->
        usage_lookup u "completion_tokens" = VNone ->
        render_count (output_tokens m) = Ok "n/a")
    /\ (usage_lookup u "total_tokens" = VNone ->
        usage_lookup u "input_tokens" = VNone ->
        usage_lookup u "prompt_tokens" = VNone ->
        usage_lookup u "output_tokens" = VNone ->
        usage_lookup u "completion_tokens" = VNone ->
        render_count (total_tokens m) = Ok "n/a").
Proof.
  intros Hty u. subst u.
  destruct (typed_fields raw Hty) as (m & Hm & Hi & Ho & Ht).
  destruct (extract_fields raw m Hm) as [Hmi Hmo].
  exists m. split; [exact Hm|]. split; [|split; [|split]].
  - destruct (render_typed _ Hi) as [i Hri].
    destruct (render_typed _ Ho) as [o Hro].
    destruct (render_typed _ Ht) as [t Hrt].
    exists (footer_line i o t). apply token_footer_ok; assumption.
  - intros Hp Hf. rewrite Hmi. unfold supplied_input.
    rewrite (uget_missing _ _ _ Hp Hf). reflexivity.
  - intros Hp Hf. rewrite Hmo. unfold supplied_output.
    rewrite (uget_missing _ _ _ Hp Hf). reflexivity.
  - intros Htot Hp Hf Hp' Hf'.
    rewrite extract_total_unsupplied in Hm
      by (unfold supplied_total; rewrite uget_no_fallback; exact Htot).
    unfold supplied_input, supplied_output in Hm.
    rewrite (uget_missing _ _ _ Hp Hf), (uget_missing _ _ _ Hp' Hf') in Hm.
    injection Hm as <-. reflexivity.
Qed.

(** C7, on the code.  A usage mapping whose input count is a list, not a
    number: line 197 leaves it out of the sum, so extraction returns, with
    the output count as the total; line 200 then applies [int] to it
    outside any [try].  The run ends in an uncaught [TypeError] after the
    request was made, and nothing is written: the count is not rendered
    as n/a. *)
Theorem C7_non_numeric_field_raises :
  let w := demo_run (Some "2025-08-01") false cfg_full disk_fresh
             (Ok {| output_text := Some "### OpenAI";
                    usage := usage_list_field |}) None in
  numeric_parts [VOpaque; VInt 34] = [VInt 34]
  /\ extract_usage usage_list_field
     = Ok {| input_tokens := VOpaque; output_tokens := VInt 34;
             total_tokens := VInt 34 |}
  /\ (exists msg, render_count VOpaque = Raise (Exn TypeError msg))
  /\ (exists msg, (run w).1 = Uncaught (Exn TypeError msg))
  /\ remote_calls (st_trace (run w).2) = [build_request "GPT-5" "{}"]
  /\ writes (st_trace (run w).2) = []
  /\ st_disk (run w).2 = disk_fresh.
Proof.
  cbv zeta. split; [reflexivity|]. split; [vm_compute; reflexivity|].
  split; [eexists; reflexivity|].
  split; [eexists; vm_compute; reflexivity|].
  split; [vm_compute; reflexivity|].
  split; vm_compute; reflexivity.
Qed.

(** ** The reasoning-effort gate (C6) *)

Lemma append_assoc (a b c : string) : (a +:+ b) +:+ c = a +:+ (b +:+ c).
Proof. induction a; simpl; congruence. Qed.

Lemma is_reasoning_model_iff model :
  is_reasoning_model model = true <-> lower model = "gpt-5".
Proof. unfold is_reasoning_model. apply String.eqb_eq. Qed.

Lemma remote_calls_In req tr : In (RemoteCall req) tr -> In req (remote_calls tr).
Proof.
  induction tr as [|ev tr IH]; [intros []|].
  intros [->|Hin]; [left; reflexivity|].
  destruct ev; cbn; auto.
Qed.

Lemma call_events_remote_calls w d ndjson resp :
  remote_calls (call_events w d ndjson resp)
  = [build_request (default "" (azure_model w)) ndjson].
Proof.
  unfold call_events.
  rewrite remote_calls_app,
    (remote_calls_prints (force_note _ _)) by apply force_note_prints.
  reflexivity.
Qed.

Lemma persist_remote_calls w d text st o st' :
  persist w d text st = (o, st') ->
  remote_calls (st_trace st') = remote_calls (st_trace st).
Proof.
  intros Hp. apply persist_trace in Hp.
  destruct Hp as [-> | ->]; rewrite remote_calls_app; cbn; apply app_nil_r.
Qed.

(** Every request a run issues is the one [build_request] makes from the
    configured model. *)
Lemma issued_requests w req :
  In (RemoteCall req) (st_trace (run w).2) ->
  exists ndjson, req = build_request (default "" (azure_model w)) ndjson.
Proof.
  intros Hin. apply remote_calls_In in Hin. revert Hin.
  ends_cases w;
    try match goal with
        | Hp : persist _ _ _ _ = _ |- _ =>
            apply persist_remote_calls in Hp; cbn [st_trace] in Hp
        end;
    rewrite ?remote_calls_app;
    try match goal with Hp : remote_calls _ = _ |- _ => rewrite Hp end;
    rewrite ?remote_calls_app, ?call_events_remote_calls,
      ?(remote_calls_prints (force_note _ _)) by apply force_note_prints;
    try match goal with
        | Hp : forallb is_print ?l = true |- _ =>
            rewrite (remote_calls_prints l Hp)
        end;
    cbn [remote_calls omap app count_events]; try (intros []; fail);
    intros [<-|[]]; eexists; reflexivity.
Qed.

Lemma str_or_truthy s default : truthy_key (Some s) = true -> str_or s default = s.
Proof.
  unfold truthy_key, str_or. destruct (String.eqb s ""); [discriminate|reflexivity].
Qed.

Lemma configured_model w :
  config_missing w = false ->
  str_or (default "" (azure_model w)) "an Azure model"
  = default "" (azure_model w).
Proof.
  unfold config_missing. rewrite !orb_false_iff, !negb_false_iff.
  intros (_ & Hm). destruct (azure_model w) as [m|]; [|discriminate].
  apply str_or_truthy, Hm.
Qed.

(** The written document names the model, then carries the annotation. *)
Lemma document_names_model w d resp footer :
  config_missing w = false ->
  document w d resp footer
  = document_intro w d resp +:+ " using " +:+ default "" (azure_model w)
    +:+ reasoning_effort_text (default "" (azure_model w)) +:+ caveat
    +:+ footer.
Proof.
  intros Hc. unfold document, final_markdown, disclaimer_head, document_intro.
  rewrite (configured_model w Hc). rewrite !append_assoc. reflexivity.
Qed.

Lemma lower_ascii_g c : lower_ascii c = "g"%char -> c = "g"%char \/ c = "G"%char.
Proof.
  destruct c as [[] [] [] [] [] [] [] []]; vm_compute; intros H;
    try discriminate H; auto.
Qed.

Lemma lower_ascii_p c : lower_ascii c = "p"%char -> c = "p"%char \/ c = "P"%char.
Proof.
  destruct c as [[] [] [] [] [] [] [] []]; vm_compute; intros H;
    try discriminate H; auto.
Qed.

Lemma lower_ascii_t c : lower_ascii c = "t"%char -> c = "t"%char \/ c = "T"%char.
Proof.
  destruct c as [[] [] [] [] [] [] [] []]; vm_compute; intros H;
    try discriminate H; auto.
Qed.

Lemma lower_ascii_dash c : lower_ascii c = "-"%char -> c = "-"%char.
Proof.
  destruct c as [[] [] [] [] [] [] [] []]; vm_compute; intros H;
    try discriminate H; auto.
Qed.

Lemma lower_ascii_five c : lower_ascii c = "5"%char -> c = "5"%char.
Proof.
  destruct c as [[] [] [] [] [] [] [] []]; vm_compute; intros H;
    try discriminate H; auto.
Qed.

Lemma lower_gpt5 model : lower model = "gpt-5" <-> In model gpt5_spellings.
Proof.
  split.
  - destruct model as [|c1 [|c2 [|c3 [|c4 [|c5 [|c6 rest]]]]]];
      cbn [lower]; try discriminate.
    intros [= H1 H2 H3 H4 H5].
    apply lower_ascii_g in H1. apply lower_ascii_p in H2.
    apply lower_ascii_t in H3. apply lower_ascii_dash in H4.
    apply lower_ascii_five in H5. subst c4 c5.
    destruct H1 as [-> | ->], H2 as [-> | ->], H3 as [-> | ->];
      cbn; tauto.
  - intros H. repeat destruct H as [<-|H]; try reflexivity. destruct H.
Qed.

(** C6.  The request of a run carries the reasoning effort exactly when the
    configured model is gpt-5 in some mix of upper and lower case (one of
    the eight spellings from gpt-5 to GPT-5), and carries none for every
    other identifier; the written document has the reasoning-effort
    annotation after the model's name under the same condition, and
    nothing there otherwise. *)
Theorem C6_reasoning_effort_gate w :
  let model := default "" (azure_model w) in
  (forall req,
      In (RemoteCall req) (st_trace (run w).2) ->
      (req_reasoning req = Some reasoning_effort <-> In model gpt5_spellings)
      /\ (req_reasoning req = None <-> ~ In model gpt5_spellings))
  /\ (forall p text,
         In (WriteFile p text) (st_trace (run w).2) ->
         exists d resp footer,
           text = document_intro w d resp +:+ " using " +:+ model
                  +:+ reasoning_effort_text model +:+ caveat +:+ footer)
  /\ (reasoning_effort_text model = " with low reasoning effort"
      <-> In model gpt5_spellings)
  /\ (reasoning_effort_text model = "" <-> ~ In model gpt5_spellings).
Proof.
  intros model. subst model.
  pose proof (is_reasoning_model_iff (default "" (azure_model w))) as Hiff.
  rewrite lower_gpt5 in Hiff.
  split; [|split; [|split]].
  - intros req Hin. destruct (issued_requests w req Hin) as [ndjson ->].
    cbn [req_reasoning build_request].
    destruct (is_reasoning_model (default "" (azure_model w)));
      intuition (discriminate || congruence).
  - intros p text Hin.
    destruct (write_is_complete w p text Hin)
      as (d & resp & footer & (ndjson & Ha & _) & _ & -> & _).
    exists d, resp, footer. apply document_names_model.
    destruct Ha as (_ & _ & Hc & _). exact Hc.
  - unfold reasoning_effort_text.
    destruct (is_reasoning_model (default "" (azure_model w)));
      intuition (discriminate || congruence).
  - unfold reasoning_effort_text.
    destruct (is_reasoning_model (default "" (azure_model w)));
      intuition (discriminate || congruence).
Qed.

Lemma C6_upper_case_witness :
  let w := demo_run (Some "2025-08-01") false cfg_full disk_fresh
             (Ok demo_response) None in
  azure_model w = Some "GPT-5"
  /\ In (RemoteCall (build_request "GPT-5" "{}")) (st_trace (run w).2)
  /\ req_reasoning (build_request "GPT-5" "{}") = Some "low"
  /\ reasoning_effort_text "GPT-5" = " with low reasoning effort".
Proof.
  intros w.
  assert (Hin : In (RemoteCall (build_request "GPT-5" "{}"))
                  (st_trace (run w).2))
    by (vm_compute; auto).
  assert (Hs : In "GPT-5" gpt5_spellings) by (cbn; tauto).
  destruct (C6_reasoning_effort_gate w) as (Hreq & _ & Htext & _).
  destruct (Hreq _ Hin) as [[_ Hsome] _].
  split; [reflexivity|]. split; [exact Hin|].
  split; [exact (Hsome Hs)|apply Htext; exact Hs].
Defined.

Example reasoning_gate_examples :
  req_reasoning (build_request "GPT-5" "{}") = Some "low"
  /\ req_reasoning (build_request "gpt-5" "{}") = Some "low"
  /\ req_reasoning (build_request "gpt-5-mini" "{}") = None
  /\ req_reasoning (build_request "gpt-4o" "{}") = None
  /\ reasoning_effort_text "Gpt-5" = " with low reasoning effort"
  /\ reasoning_effort_text "gpt-4o" = "".
Proof. repeat split; reflexivity. Qed.

(** ** Determinism of the renderer (C3) *)

(** C3, as the code has it.  Two runs that agree on the date, the model
    output text, the usage metrics, the model identifier, the elapsed
    seconds (the reasoning-effort setting is a constant) and, besides, on
    the day they run, write byte-identical documents. *)
Theorem C3_same_inputs_same_day_same_text
    w1 w2 d resp1 resp2 footer1 footer2 p1 p2 text1 text2 :
  rendered w1 d resp1 footer1 ->
  rendered w2 d resp2 footer2 ->
  output_text resp1 = output_text resp2 ->
  extract_usage (usage resp1) = extract_usage (usage resp2) ->
  azure_model w1 = azure_model w2 ->
  api_call_seconds w1 = api_call_seconds w2 ->
  current_date_uk w1 = current_date_uk w2 ->
  In (WriteFile p1 text1) (st_trace (run w1).2) ->
  In (WriteFile p2 text2) (st_trace (run w2).2) ->
  text1 = text2.
Proof.
  intros (n1 & Ha1 & Hf1) (n2 & Ha2 & Hf2) Hout Hm Hmodel Hsec Hday Hin1 Hin2.
  destruct (write_is_complete w1 p1 text1 Hin1)
    as (d1 & r1 & f1 & (m1 & Hb1 & Hg1) & _ & -> & _).
  destruct (write_is_complete w2 p2 text2 Hin2)
    as (d2 & r2 & f2 & (m2 & Hb2 & Hg2) & _ & -> & _).
  unpack. same_results.
  unfold document, disclaimer_head.
  rewrite Hout, Hmodel, Hsec, Hday.
  assert (footer1 = footer2)
    by (unfold usage_footer in *; rewrite Hm in *; congruence).
  subst. reflexivity.
Qed.

Ltac find_write :=
  vm_compute; repeat first [left; reflexivity | right].

(** A first run and a forced re-run on the same day write the same text. *)
Lemma C3_rerun_witness :
  let w1 := demo_run (Some "2025-08-01") false cfg_full disk_fresh
              (Ok demo_response) None in
  let w2 := demo_run (Some "2025-8-1") true cfg_full disk_done
              (Ok demo_response) None in
  exists text1 text2,
    In (WriteFile demo_output text1) (st_trace (run w1).2)
    /\ In (WriteFile demo_output text2) (st_trace (run w2).2)
    /\ text1 = text2.
Proof.
  cbv zeta.
  eexists (document _ demo_date demo_response (footer_line "1,200" "34" "1,234")),
          (document _ demo_date demo_response (footer_line "1,200" "34" "1,234")).
  assert (H1 : In (WriteFile demo_output
                     (document (demo_run (Some "2025-08-01") false cfg_full
                                  disk_fresh (Ok demo_response) None)
                        demo_date demo_response
                        (footer_line "1,200" "34" "1,234")))
                 (st_trace (run (demo_run (Some "2025-08-01") false cfg_full
                                   disk_fresh (Ok demo_response) None)).2))
    by find_write.
  assert (H2 : In (WriteFile demo_output
                     (document (demo_run (Some "2025-8-1") true cfg_full
                                  disk_done (Ok demo_response) None)
                        demo_date demo_response
                        (footer_line "1,200" "34" "1,234")))
                 (st_trace (run (demo_run (Some "2025-8-1") true cfg_full
                                   disk_done (Ok demo_response) None)).2))
    by find_write.
  split; [exact H1|]. split; [exact H2|].
  apply (C3_same_inputs_same_day_same_text
           (demo_run (Some "2025-08-01") false cfg_full disk_fresh
              (Ok demo_response) None)
           (demo_run (Some "2025-8-1") true cfg_full disk_done
              (Ok demo_response) None)
           demo_date demo_response demo_response
           (footer_line "1,200" "34" "1,234")
           (footer_line "1,200" "34" "1,234")
           demo_output demo_output);
    try reflexivity; try assumption.
  - exists "{}". by_running.
  - exists "{}". by_running.
Defined.

(** The sentence of the specification fails as stated: the same run a day later, with the same
    date, model output, usage, model, elapsed seconds and effort, writes a
    different text, because the disclaimer states the day of generation. *)
Lemma C3_next_day_counterexample :
  let w1 := demo_run (Some "2025-08-01") false cfg_full disk_fresh
              (Ok demo_response) None in
  let w2 := on_day {| year := 2025; month := 8; day := 3 |} w1 in
  arg_date w1 = arg_date w2
  /\ service w1 = service w2
  /\ azure_model w1 = azure_model w2
  /\ api_call_seconds w1 = api_call_seconds w2
  /\ exists text1 text2,
       writes (st_trace (run w1).2) = [(demo_output, text1)]
       /\ writes (st_trace (run w2).2) = [(demo_output, text2)]
       /\ text1 <> text2.
Proof.
  cbv zeta. repeat (split; [reflexivity|]).
  eexists _, _. split; [vm_compute; reflexivity|].
  split; [vm_compute; reflexivity|]. discriminate.
Qed.

(** ** Round trip through the footer parser (C9) *)

(** *** Rendered counts are digits and commas *)

Lemma uint_digits d : all_chars is_digit (NilEmpty.string_of_uint d) = true.
Proof. induction d; simpl; auto. Qed.

Lemma to_uint_not_nil n : N.to_uint n <> Decimal.Nil.
Proof.
  destruct n as [|p]; [discriminate|]. simpl.
  intros H. apply (f_equal Pos.of_uint) in H.
  rewrite DecimalPos.Unsigned.of_to in H. discriminate.
Qed.

Lemma digits_of_N_nilempty n :
  digits_of_N n = NilEmpty.string_of_uint (N.to_uint n).
Proof.
  unfold digits_of_N, NilZero.string_of_uint.
  pose proof (to_uint_not_nil n). destruct (N.to_uint n); congruence.
Qed.

Lemma digits_of_N_digits n : all_chars is_digit (digits_of_N n) = true.
Proof. rewrite digits_of_N_nilempty. apply uint_digits. Qed.

Lemma digits_of_N_nonempty n : digits_of_N n <> "".
Proof.
  destruct (digits_of_N_head n) as (c & s & -> & _). discriminate.
Qed.

Lemma group_thousands_chars s :
  all_chars is_digit s = true ->
  all_chars is_digit_or_comma (group_thousands s) = true.
Proof.
  induction s as [|c s IH]; [reflexivity|].
  cbn [all_chars group_thousands]. intros [Hc Hs]%andb_true_iff.
  unfold is_digit_or_comma at 1. rewrite Hc. cbn [orb andb].
  destruct (negb _ && _); cbn [all_chars]; auto.
Qed.

Lemma group_thousands_nonempty s : s <> "" -> group_thousands s <> "".
Proof. destruct s; [congruence|discriminate]. Qed.

Lemma digit_not_comma c : is_digit c = true -> Ascii.eqb c "," = false.
Proof.
  destruct (Ascii.eqb_spec c ","); [subst; discriminate|reflexivity].
Qed.

Lemma remove_commas_group s :
  all_chars is_digit s = true -> remove_commas (group_thousands s) = s.
Proof.
  induction s as [|c s IH]; [reflexivity|].
  cbn [all_chars group_thousands remove_commas].
  intros [Hc Hs]%andb_true_iff. rewrite (digit_not_comma c Hc).
  destruct (negb _ && _); cbn [remove_commas Ascii.eqb]; rewrite ?IH by assumption;
    reflexivity.
Qed.

Lemma digit_not_space c : is_digit c = true -> is_space c = false.
Proof.
  unfold is_digit, is_space. intros H.
  apply andb_true_iff in H as [H1 H2].
  apply Z.leb_le in H1. apply Z.leb_le in H2.
  apply orb_false_iff. split; apply andb_false_iff.
  - right. apply Z.leb_gt. lia.
  - right. apply Z.leb_gt. lia.
Qed.

Lemma skip_spaces_digits s : all_chars is_digit s = true -> skip_spaces s = s.
Proof.
  destruct s as [|c s]; [reflexivity|]. cbn [all_chars skip_spaces].
  intros [Hc _]%andb_true_iff. rewrite (digit_not_space c Hc). reflexivity.
Qed.

Lemma strip_right_digits s : all_chars is_digit s = true -> strip_right s = s.
Proof.
  induction s as [|c s IH]; [reflexivity|]. cbn [all_chars strip_right].
  intros [Hc Hs]%andb_true_iff. rewrite (IH Hs), (digit_not_space c Hc).
  destruct s; reflexivity.
Qed.

Lemma py_int_str_digits n : py_int_str (digits_of_N n) = Ok (Z.of_N n).
Proof.
  unfold py_int_str. pose proof (digits_of_N_nonempty n) as Hne.
  destruct (digits_of_N n) eqn:Hd; [congruence|]. rewrite <- Hd.
  rewrite digits_of_N_nilempty, NilEmpty.usu, DecimalN.Unsigned.of_to.
  reflexivity.
Qed.

(** [to_int] reads back what [format(n, ',')] wrote. *)
Lemma to_int_format_comma a : 0 <= a -> to_int (format_comma a) = Ok a.
Proof.
  intros Ha. unfold to_int, format_comma, py_strip.
  destruct (Z.ltb_spec a 0); [lia|].
  rewrite remove_commas_group by apply digits_of_N_digits.
  rewrite skip_spaces_digits, strip_right_digits by apply digits_of_N_digits.
  rewrite py_int_str_digits, Z2N.id by assumption. reflexivity.
Qed.

Lemma format_comma_chars a :
  0 <= a -> all_chars is_digit_or_comma (format_comma a) = true.
Proof.
  intros Ha. unfold format_comma. destruct (Z.ltb_spec a 0); [lia|].
  apply group_thousands_chars, digits_of_N_digits.
Qed.

Lemma format_comma_nonempty a : 0 <= a -> format_comma a <> "".
Proof.
  intros Ha. unfold format_comma. destruct (Z.ltb_spec a 0); [lia|].
  apply group_thousands_nonempty, digits_of_N_nonempty.
Qed.

(** *** The pattern on the footer *)

Lemma span_count_app g rest :
  all_chars is_digit_or_comma g = true ->
  match rest with
  | String c _ => is_digit_or_comma c = false
  | EmptyString => True
  end ->
  span_count (g +:+ rest) = (g, rest).
Proof.
  intros Hg Hrest. induction g as [|c g IH].
  - cbn [append]. destruct rest as [|c r]; [reflexivity|].
    cbn [span_count]. rewrite Hrest. reflexivity.
  - cbn [all_chars] in Hg. apply andb_true_iff in Hg as [Hc Hg].
    cbn [append span_count]. rewrite Hc, (IH Hg). reflexivity.
Qed.

Lemma group_count_app g rest :
  g <> "" ->
  all_chars is_digit_or_comma g = true ->
  match rest with
  | String c _ => is_digit_or_comma c = false
  | EmptyString => True
  end ->
  group_count (g +:+ rest) = Some (g, rest).
Proof.
  intros Hne Hg Hrest. unfold group_count.
  rewrite (span_count_app g rest Hg Hrest). destruct g; [congruence|reflexivity].
Qed.

Lemma skip_spaces_count g rest :
  g <> "" ->
  all_chars is_digit_or_comma g = true ->
  skip_spaces (g +:+ rest) = g +:+ rest.
Proof.
  intros Hne Hg. destruct g as [|c g]; [congruence|].
  cbn [all_chars] in Hg. apply andb_true_iff in Hg as [Hc _].
  cbn [append skip_spaces].
  assert (is_space c = false) as ->; [|reflexivity].
  unfold is_digit_or_comma in Hc. apply orb_true_iff in Hc as [Hc|Hc].
  - apply digit_not_space, Hc.
  - apply Ascii.eqb_eq in Hc. subst. reflexivity.
Qed.

Lemma lit_ci_app p s : lit_ci p (p +:+ s) = Some s.
Proof.
  induction p as [|c p IH]; [reflexivity|].
  cbn [append lit_ci]. rewrite Ascii.eqb_refl. exact IH.
Qed.

Lemma skip_spaces_space s : skip_spaces (String " " s) = skip_spaces s.
Proof. reflexivity. Qed.

Lemma skip_spaces_nonspace p s :
  match p with String c _ => is_space c = false | EmptyString => False end ->
  skip_spaces (p +:+ s) = p +:+ s.
Proof.
  destruct p as [|c p]; [intros []|]. intros H.
  cbn [append skip_spaces]. rewrite H. reflexivity.
Qed.

(** The footer matches the pattern, and the groups are the rendered
    counts. *)
Lemma token_line_match_footer i o t :
  i <> "" -> o <> "" -> t <> "" ->
  all_chars is_digit_or_comma i = true ->
  all_chars is_digit_or_comma o = true ->
  all_chars is_digit_or_comma t = true ->
  token_line_match (footer_line i o t) = Some (i, o, t).
Proof.
  intros Hi Ho Ht Hci Hco Hct.
  unfold token_line_match, footer_line.
  change ("Input tokens: " +:+ i +:+ " | Output tokens: " +:+ o
          +:+ " | Total tokens: " +:+ t +:+ "._")
    with ("Input tokens:"
          +:+ String " " (i +:+ String " " ("|"
          +:+ String " " ("Output tokens:"
          +:+ String " " (o +:+ String " " ("|"
          +:+ String " " ("Total tokens:"
          +:+ String " " (t +:+ "._")))))))).
  rewrite lit_ci_app. cbn [mbind option_bind].
  rewrite skip_spaces_space, skip_spaces_count, group_count_app
    by (assumption || reflexivity).
  cbn [mbind option_bind].
  rewrite skip_spaces_space, skip_spaces_nonspace, lit_ci_app by reflexivity.
  cbn [mbind option_bind].
  rewrite skip_spaces_space, skip_spaces_nonspace, lit_ci_app by reflexivity.
  cbn [mbind option_bind].
  rewrite skip_spaces_space, skip_spaces_count, group_count_app
    by (assumption || reflexivity).
  cbn [mbind option_bind].
  rewrite skip_spaces_space, skip_spaces_nonspace, lit_ci_app by reflexivity.
  cbn [mbind option_bind].
  rewrite skip_spaces_space, skip_spaces_nonspace, lit_ci_app by reflexivity.
  cbn [mbind option_bind].
  rewrite skip_spaces_space, skip_spaces_count, group_count_app
    by (assumption || reflexivity).
  reflexivity.
Qed.

(** *** Text that holds an angle bracket

    No part of the pattern matches [<].  A match attempt on [s +:+ t] is
    therefore decided within [s] as soon as [s] holds one. *)

Lemma lower_angle c : lower_ascii c = "<"%char -> c = "<"%char.
Proof.
  destruct c as [[] [] [] [] [] [] [] []]; vm_compute; congruence.
Qed.

Lemma angle_not_space c : is_angle c = true -> is_space c = false.
Proof. intros ->%Ascii.eqb_eq. reflexivity. Qed.

Lemma angle_not_count c : is_angle c = true -> is_digit_or_comma c = false.
Proof. intros ->%Ascii.eqb_eq. reflexivity. Qed.

Lemma lit_ci_ext p s t :
  some_char is_angle p = false ->
  blocked s ->
  lit_ci p (s +:+ t) = (fun r => r +:+ t) <$> lit_ci p s.
Proof.
  revert s. induction p as [|pc p IH]; intros s Hp Hs; [reflexivity|].
  cbn [some_char] in Hp. apply orb_false_iff in Hp as [Hpc Hp].
  destruct s as [|c s]; [discriminate|].
  cbn [append lit_ci]. cbn [some_char] in Hs.
  destruct (Ascii.eqb (lower_ascii c) (lower_ascii pc)) eqn:Hc; [|reflexivity].
  apply IH; [exact Hp|].
  destruct (is_angle c) eqn:Ha; [|exact Hs].
  apply Ascii.eqb_eq in Ha. subst c. apply Ascii.eqb_eq in Hc.
  symmetry in Hc. apply lower_angle in Hc. subst pc. discriminate.
Qed.

Lemma lit_ci_blocked p s r :
  some_char is_angle p = false ->
  blocked s ->
  lit_ci p s = Some r -> blocked r.
Proof.
  revert s. induction p as [|pc p IH]; intros s Hp Hs; [intros [= <-]; exact Hs|].
  cbn [some_char] in Hp. apply orb_false_iff in Hp as [Hpc Hp].
  destruct s as [|c s]; [discriminate|].
  cbn [lit_ci]. cbn [some_char] in Hs.
  destruct (Ascii.eqb (lower_ascii c) (lower_ascii pc)) eqn:Hc; [|discriminate].
  apply IH; [exact Hp|].
  destruct (is_angle c) eqn:Ha; [|exact Hs].
  apply Ascii.eqb_eq in Ha. subst c. apply Ascii.eqb_eq in Hc.
  symmetry in Hc. apply lower_angle in Hc. subst pc. discriminate.
Qed.

Lemma skip_spaces_ext s t :
  blocked s -> skip_spaces (s +:+ t) = skip_spaces s +:+ t.
Proof.
  induction s as [|c s IH]; [discriminate|].
  cbn [some_char append skip_spaces]. intros Hs.
  destruct (is_space c) eqn:Hc; [|reflexivity].
  apply IH. destruct (is_angle c) eqn:Ha; [|exact Hs].
  rewrite (angle_not_space c Ha) in Hc. discriminate.
Qed.

Lemma skip_spaces_blocked s : blocked s -> blocked (skip_spaces s).
Proof.
  induction s as [|c s IH]; [discriminate|].
  cbn [some_char skip_spaces]. intros Hs.
  destruct (is_space c) eqn:Hc; [|exact Hs].
  apply IH. destruct (is_angle c) eqn:Ha; [|exact Hs].
  rewrite (angle_not_space c Ha) in Hc. discriminate.
Qed.

Lemma span_count_ext s t :
  blocked s ->
  span_count (s +:+ t) = ((span_count s).1, (span_count s).2 +:+ t).
Proof.
  induction s as [|c s IH]; [discriminate|].
  cbn [some_char append span_count]. intros Hs.
  destruct (is_digit_or_comma c) eqn:Hc; [|reflexivity].
  rewrite IH.
  - destruct (span_count s). reflexivity.
  - destruct (is_angle c) eqn:Ha; [|exact Hs].
    rewrite (angle_not_count c Ha) in Hc. discriminate.
Qed.

Lemma span_count_blocked s : blocked s -> blocked (span_count s).2.
Proof.
  induction s as [|c s IH]; [discriminate|].
  cbn [some_char span_count]. intros Hs.
  destruct (is_digit_or_comma c) eqn:Hc; [|exact Hs].
  destruct (span_count s) as [g r] eqn:Hsp. cbn [snd] in *.
  apply IH. destruct (is_angle c) eqn:Ha; [|exact Hs].
  rewrite (angle_not_count c Ha) in Hc. discriminate.
Qed.

Lemma group_count_ext s t :
  blocked s ->
  group_count (s +:+ t) = (fun gr => (gr.1, gr.2 +:+ t)) <$> group_count s.
Proof.
  intros Hs. unfold group_count. rewrite (span_count_ext s t Hs).
  destruct (span_count s) as [[|c g] r]; reflexivity.
Qed.

Lemma group_count_blocked s g r :
  blocked s -> group_count s = Some (g, r) -> blocked r.
Proof.
  intros Hs. unfold group_count. pose proof (span_count_blocked s Hs) as Hb.
  destruct (span_count s) as [[|c g'] r']; [discriminate|].
  intros [= <- <-]. exact Hb.
Qed.

(** One step of the pattern, on text that holds an angle bracket. *)
Ltac lit_step p :=
  match goal with
  | Hb : blocked ?s |- context [lit_ci p (?s +:+ ?t)] =>
      rewrite (lit_ci_ext p s t eq_refl Hb);
      let r := fresh "s" in
      let E := fresh "E" in
      destruct (lit_ci p s) as [r|] eqn:E;
      cbn [fmap option_fmap option_map mbind option_bind];
      [ apply (lit_ci_blocked p s r eq_refl Hb) in E; clear Hb | reflexivity ]
  end.

Ltac spaces_step :=
  match goal with
  | Hb : blocked ?s |- context [skip_spaces (?s +:+ ?t)] =>
      rewrite (skip_spaces_ext s t Hb);
      apply skip_spaces_blocked in Hb
  end.

Ltac group_step :=
  match goal with
  | Hb : blocked ?s |- context [group_count (?s +:+ ?t)] =>
      rewrite (group_count_ext s t Hb);
      let g := fresh "g" in
      let r := fresh "s" in
      let E := fresh "E" in
      destruct (group_count s) as [[g r]|] eqn:E;
      cbn [fmap option_fmap option_map mbind option_bind fst snd];
      [ apply (group_count_blocked s g r Hb) in E; clear Hb | reflexivity ]
  end.

Lemma token_line_match_ext s t :
  blocked s -> token_line_match (s +:+ t) = token_line_match s.
Proof.
  intros Hb. unfold token_line_match.
  lit_step "Input tokens:".
  spaces_step. group_step.
  spaces_step. lit_step "|".
  spaces_step. lit_step "Output tokens:".
  spaces_step. group_step.
  spaces_step. lit_step "|".
  spaces_step. lit_step "Total tokens:".
  spaces_step. group_step.
  reflexivity.
Qed.

(** *** Searching through the text before the footer *)

Lemma blocked_app s t : blocked t -> blocked (s +:+ t).
Proof.
  intros Ht. induction s as [|c s IH]; [exact Ht|].
  cbn [append some_char]. rewrite IH. apply orb_true_r.
Qed.

(** A search that finds nothing in text ending with [<br>] goes on in what
    follows that text. *)
Lemma token_line_search_app q t :
  token_line_search (q +:+ "<br>") = None ->
  token_line_search ((q +:+ "<br>") +:+ t) = token_line_search t.
Proof.
  induction q as [|c q IH].
  - intros _. cbn [append].
    destruct t as [|c t]; reflexivity.
  - cbn [append]. intros Hs.
    assert (Hb : blocked (String c (q +:+ "<br>")))
      by (apply (blocked_app (String c q)); reflexivity).
    cbn [token_line_search] in *.
    change (String c ((q +:+ "<br>") +:+ t))
      with (String c (q +:+ "<br>") +:+ t).
    rewrite (token_line_match_ext _ t Hb).
    destruct (token_line_match (String c (q +:+ "<br>"))); [discriminate|].
    apply IH, Hs.
Qed.

Lemma append_nil_r (s : string) : s +:+ "" = s.
Proof. induction s; simpl; congruence. Qed.

Lemma document_split w d resp footer :
  document w d resp footer = document_head w d resp +:+ footer.
Proof.
  unfold document_head, document, final_markdown.
  rewrite append_nil_r, !append_assoc. reflexivity.
Qed.

Lemma document_head_ends w d resp :
  exists q, document_head w d resp = q +:+ "<br>".
Proof.
  unfold document_head, document, final_markdown, disclaimer_head, caveat.
  rewrite append_nil_r.
  eexists. rewrite <- !append_assoc. reflexivity.
Qed.

(** The parser finds the footer of a document whose earlier text holds no
    match, and reads the three counts back. *)
Lemma parse_document w d resp a b c :
  0 <= a -> 0 <= b -> 0 <= c ->
  parse_token_line (document_head w d resp) = Ok None ->
  parse_token_line
    (document w d resp
       (footer_line (format_comma a) (format_comma b) (format_comma c)))
  = Ok (Some (a, b, c)).
Proof.
  intros Ha Hb Hc Hhead.
  assert (Hnone : token_line_search (document_head w d resp) = None).
  { unfold parse_token_line in Hhead.
    destruct (token_line_search (document_head w d resp)) as [[[g1 g2] g3]|];
      [|reflexivity].
    destruct (to_int g1); [|discriminate]. destruct (to_int g2); [|discriminate].
    destruct (to_int g3); discriminate. }
  destruct (document_head_ends w d resp) as [q Hq].
  unfold parse_token_line.
  rewrite document_split, Hq, token_line_search_app by (rewrite <- Hq; exact Hnone).
  assert (Hm : token_line_match
                 (footer_line (format_comma a) (format_comma b) (format_comma c))
               = Some (format_comma a, format_comma b, format_comma c))
    by (apply token_line_match_footer;
        auto using format_comma_nonempty, format_comma_chars).
  assert (Hs : token_line_search
                 (footer_line (format_comma a) (format_comma b) (format_comma c))
               = Some (format_comma a, format_comma b, format_comma c)).
  { unfold footer_line in *. cbn [append token_line_search] in *.
    rewrite Hm. reflexivity. }
  rewrite Hs, !to_int_format_comma by assumption. reflexivity.
Qed.

(** C9, as the code has it.  A persisted document whose three counts are
    the non-negative integers [a], [b], [c] ends with the footer
    [Input tokens: <a> | Output tokens: <b> | Total tokens: <c>._], the
    counts grouped by thousands; and provided the text before the footer
    (heading, model output, disclaimer) holds no match of the parser's
    pattern, [parse_token_line] applied to the document returns
    [(a, b, c)]. *)
Theorem C9_footer_round_trip w d ndjson resp m a b c :
  answered w d ndjson resp ->
  write_raises w d = false ->
  extract_usage (usage resp) = Ok m ->
  input_tokens m = VInt a ->
  output_tokens m = VInt b ->
  total_tokens m = VInt c ->
  0 <= a -> 0 <= b -> 0 <= c ->
  parse_token_line (document_head w d resp) = Ok None ->
  exists text,
    st_disk (run w).2 !! output_path_of w (strftime_ymd d) = Some (File text)
    /\ text = document_head w d resp
              +:+ "Input tokens: " +:+ format_comma a
              +:+ " | Output tokens: " +:+ format_comma b
              +:+ " | Total tokens: " +:+ format_comma c +:+ "._"
    /\ parse_token_line text = Ok (Some (a, b, c)).
Proof.
  intros Hans Hw Hm Hi Ho Ht Ha Hb Hc Hhead.
  exists (document w d resp
            (footer_line (format_comma a) (format_comma b) (format_comma c))).
  split; [|split].
  - apply (persisted_document w d ndjson resp m); try assumption.
    + rewrite Hi. reflexivity.
    + rewrite Ho. reflexivity.
    + rewrite Ht. reflexivity.
  - apply document_split.
  - apply parse_document; assumption.
Qed.

Lemma C9_round_trip_witness :
  let w := demo_run (Some "2025-08-01") false cfg_full disk_fresh
             (Ok demo_response) None in
  exists text,
    st_disk (run w).2 !! demo_output = Some (File text)
    /\ text = document_head w demo_date demo_response
              +:+ "Input tokens: 1,200 | Output tokens: 34 | Total tokens: 1,234._"
    /\ parse_token_line text = Ok (Some (1200, 34, 1234)).
Proof.
  apply (C9_footer_round_trip
           (demo_run (Some "2025-08-01") false cfg_full disk_fresh
              (Ok demo_response) None)
           demo_date "{}" demo_response
           {| input_tokens := VInt 1200; output_tokens := VInt 34;
              total_tokens := VInt 1234 |} 1200 34 1234);
    try reflexivity; try lia; by_running.
Defined.

(** The sentence of the specification fails as stated: the parser takes the leftmost match, so a
    footer-shaped line in the model output is read instead of the
    footer. *)
Lemma C9_decoy_counterexample :
  let w := demo_run (Some "2025-08-01") false cfg_full disk_fresh
             (Ok {| output_text :=
                      Some "Input tokens: 1 | Output tokens: 2 | Total tokens: 3";
                    usage := demo_usage |}) None in
  (run w).1 = Done tt
  /\ extract_usage demo_usage
     = Ok {| input_tokens := VInt 1200; output_tokens := VInt 34;
             total_tokens := VInt 1234 |}
  /\ exists text,
       st_disk (run w).2 !! demo_output = Some (File text)
       /\ parse_token_line text = Ok (Some (1, 2, 3))
       /\ (1, 2, 3) <> (1200, 34, 1234).
Proof.
  cbv zeta. split; [vm_compute; reflexivity|].
  split; [vm_compute; reflexivity|].
  eexists. split; [vm_compute; reflexivity|].
  split; [vm_compute; reflexivity|]. discriminate.
Qed.

(** * Further properties of the pipeline *)

(** ** Remote calls *)

(** The requests a run issued: none, or the single one built from the
    configured model and the dataset read. *)
Lemma run_remote_calls w :
  remote_calls (st_trace (run w).2) = []
  \/ exists d ndjson,
       proceeds w d
       /\ read_text (disk0 w) (input_path_of w (strftime_ymd d)) = Ok ndjson
       /\ config_missing w = false
       /\ remote_calls (st_trace (run w).2)
          = [build_request (default "" (azure_model w)) ndjson].
Proof.
  ends_cases w;
    try match goal with
        | Hp : persist _ _ _ _ = _ |- _ =>
            apply persist_remote_calls in Hp; cbn [st_trace] in Hp
        end;
    rewrite ?remote_calls_app;
    try match goal with Hp : remote_calls _ = _ |- _ => rewrite Hp end;
    rewrite ?remote_calls_app, ?call_events_remote_calls,
      ?(remote_calls_prints (force_note _ _)) by apply force_note_prints;
    try match goal with
        | Hp : forallb is_print ?l = true |- _ =>
            rewrite (remote_calls_prints l Hp)
        end;
    cbn [remote_calls omap app count_events];
    first [ left; reflexivity
          | right; exists d, ndjson; repeat split; assumption ].
Qed.

(** X1.  A run never calls the service twice (there is no retry), and it
    calls it at all only with a well-formed date, the input dataset present
    and readable, the output absent or [--force] given, and the three
    settings present. *)
Theorem X1_at_most_one_remote_call w :
  (length (remote_calls (st_trace (run w).2)) <= 1)%nat
  /\ (remote_calls (st_trace (run w).2) <> [] ->
      exists d ndjson,
        date_ok w d
        /\ read_text (disk0 w) (input_path_of w (strftime_ymd d)) = Ok ndjson
        /\ (path_exists (disk0 w) (output_path_of w (strftime_ymd d)) = false
            \/ arg_force w = true)
        /\ config_missing w = false
        /\ remote_calls (st_trace (run w).2)
           = [build_request (default "" (azure_model w)) ndjson]).
Proof.
  destruct (run_remote_calls w) as [-> | (d & ndjson & Hp & Hr & Hc & ->)].
  - split; [cbn; lia|congruence].
  - split; [cbn; lia|]. intros _. exists d, ndjson.
    destruct Hp as (Hd & _ & Hskip).
    repeat split; try assumption; try apply Hd.
    destruct (path_exists _ _); [|left; reflexivity].
    destruct (arg_force w); [right; reflexivity|discriminate].
Qed.

(** ** Forced regeneration *)

(** X2.  With [--force], an existing summary is regenerated: when the run
    gets an answer, renders it and the write succeeds, the process returns
    normally (status [0]), exactly one request was issued, and the output
    path holds the new document in place of the old one. *)
Theorem X2_force_overwrites w d ndjson resp footer old :
  arg_force w = true ->
  disk0 w !! output_path_of w (strftime_ymd d) = Some (File old) ->
  answered w d ndjson resp ->
  usage_footer (usage resp) = Ok footer ->
  write_raises w d = false ->
  exit_status (run w).1 = 0
  /\ remote_calls (st_trace (run w).2)
     = [build_request (default "" (azure_model w)) ndjson]
  /\ writes (st_trace (run w).2)
     = [(output_path_of w (strftime_ymd d), document w d resp footer)]
  /\ st_disk (run w).2 !! output_path_of w (strftime_ymd d)
     = Some (File (document w d resp footer)).
Proof.
  intros Hforce Hold Ha Hf Hw.
  destruct (usage_footer_inv _ _ Hf) as (m & i & o & t & Hm & Hi & Ho & Ht & ->).
  rewrite (written_run w d ndjson resp m i o t Ha Hm Hi Ho Ht Hw).
  cbn [fst snd st_trace st_disk exit_status].
  split; [reflexivity|]. split; [|split].
  - rewrite !remote_calls_app, call_events_remote_calls. reflexivity.
  - rewrite !writes_app, call_events_writes. reflexivity.
  - apply lookup_insert_eq.
Qed.

Lemma X2_force_witness :
  let w := demo_run (Some "2025-08-01") true cfg_full disk_done
             (Ok demo_response) None in
  disk0 w !! demo_output = Some (File "# 1 August 2025")
  /\ exit_status (run w).1 = 0
  /\ st_disk (run w).2 !! demo_output
     = Some (File (document w demo_date demo_response
                     (footer_line "1,200" "34" "1,234"))).
Proof.
  cbv zeta. split; [reflexivity|].
  destruct (X2_force_overwrites
              (demo_run (Some "2025-08-01") true cfg_full disk_done
                 (Ok demo_response) None)
              demo_date "{}" demo_response
              (footer_line "1,200" "34" "1,234") "# 1 August 2025")
    as (H0 & _ & _ & Hd); try reflexivity.
  - by_running.
  - split; [exact H0 | exact Hd].
Defined.

(** ** What a run leaves alone *)

Lemma last_char_app a b : b <> "" -> last_char (a +:+ b) = last_char b.
Proof.
  intros Hb. induction a as [|c a IH]; [reflexivity|].
  cbn [append last_char]. rewrite IH.
  destruct (a +:+ b) eqn:E; [|reflexivity].
  destruct a; [cbn in E; congruence|discriminate].
Qed.

Lemma path_join_cases a b :
  path_join a b = b \/ path_join a b = a +:+ b
  \/ path_join a b = a +:+ "/" +:+ b.
Proof.
  unfold path_join. destruct b as [|c b].
  - destruct (_ || _); auto.
  - destruct c as [[] [] [] [] [] [] [] []]; try (left; reflexivity);
      destruct (_ || _); auto.
Qed.

Lemma path_join_last a b : b <> "" -> last_char (path_join a b) = last_char b.
Proof.
  intros Hb. destruct (path_join_cases a b) as [-> | [-> | ->]].
  - reflexivity.
  - apply last_char_app, Hb.
  - rewrite <- append_assoc. apply last_char_app, Hb.
Qed.

Lemma input_path_last w s : last_char (input_path_of w s) = Some "n"%char.
Proof.
  unfold input_path_of.
  rewrite path_join_last by (destruct s; discriminate).
  rewrite last_char_app by discriminate. reflexivity.
Qed.

Lemma output_path_last w s : last_char (output_path_of w s) = Some "d"%char.
Proof.
  unfold output_path_of.
  rewrite path_join_last by (destruct s; discriminate).
  rewrite last_char_app by discriminate. reflexivity.
Qed.

Lemma output_dir_last w : last_char (output_dir_of w) = Some "y"%char.
Proof.
  unfold output_dir_of. rewrite path_join_last by discriminate. reflexivity.
Qed.

Lemma input_not_output w s1 s2 : input_path_of w s1 <> output_path_of w s2.
Proof.
  intros H. apply (f_equal last_char) in H.
  rewrite input_path_last, output_path_last in H. discriminate.
Qed.

Lemma input_not_output_dir w s : input_path_of w s <> output_dir_of w.
Proof.
  intros H. apply (f_equal last_char) in H.
  rewrite input_path_last, output_dir_last in H. discriminate.
Qed.

(** The write step changes the disk at the output directory and the output
    path only. *)
Lemma persist_frame w d text st o st2 p :
  persist w d text st = (o, st2) ->
  p <> output_dir_of w ->
  p <> output_path_of w (strftime_ymd d) ->
  st_disk st2 !! p = st_disk st !! p.
Proof.
  destruct st as [dk tr]. run_io. intros Hp Hdir Hpath. revert Hp.
  destruct (makedirs_fault w); [intros [= <- <-]; reflexivity|].
  destruct (dk !! output_dir_of w) as [[]|]; run_io;
    try (intros [= <- <-]; reflexivity).
  all: match goal with
       | |- context [match ?m !! ?k with _ => _ end] =>
           destruct (m !! k) as [[]|]
       end; run_io.
  all: destruct (write_fault w) as [[e [q|]]|]; run_io.
  all: intros [= <- <-]; cbn [st_disk];
       rewrite ?lookup_insert_ne by congruence; reflexivity.
Qed.

Lemma run_frame w p :
  p <> output_dir_of w ->
  (forall d, date_ok w d -> p <> output_path_of w (strftime_ymd d)) ->
  st_disk (run w).2 !! p = disk0 w !! p.
Proof.
  intros Hdir Hpath.
  ends_cases w; try reflexivity.
  - match goal with
    | Hp : persist _ _ _ _ = _ |- _ =>
        apply (persist_frame _ _ _ _ _ _ p) in Hp; [exact Hp|exact Hdir|]
    end.
    apply Hpath. split; assumption.
  - match goal with
    | Hp : persist _ _ _ _ = _ |- _ =>
        apply (persist_frame _ _ _ _ _ _ p) in Hp; [exact Hp|exact Hdir|]
    end.
    apply Hpath. split; assumption.
Qed.

(** X3.  Whatever way a run ends, the only places of the disk it can have
    changed are the output directory and the output document of the
    requested date; in particular the input dataset is as it was. *)
Theorem X3_only_output_touched w :
  (forall p,
      p <> output_dir_of w ->
      (forall d, date_ok w d -> p <> output_path_of w (strftime_ymd d)) ->
      st_disk (run w).2 !! p = disk0 w !! p)
  /\ (forall date_str,
         st_disk (run w).2 !! input_path_of w date_str
         = disk0 w !! input_path_of w date_str).
Proof.
  split; [exact (run_frame w)|].
  intros s. apply run_frame.
  - apply input_not_output_dir.
  - intros d _. apply input_not_output.
Qed.

(** ** Running again *)

Lemma paths_of_base w1 w2 s :
  base_dir w2 = base_dir w1 ->
  input_path_of w2 s = input_path_of w1 s
  /\ output_path_of w2 s = output_path_of w1 s.
Proof.
  unfold input_path_of, output_path_of, output_dir_of. intros ->. split; reflexivity.
Qed.

(** X4.  Generation is idempotent: after a run that wrote its document, a
    second run for the same date in the same directory, without [--force],
    on the disk the first one left, ends with status [0], issues no request,
    writes nothing and leaves the disk, the document included, as the first
    run left it, whatever the service or the settings then are. *)
Theorem X4_second_run_skips w1 w2 d ndjson resp footer :
  answered w1 d ndjson resp ->
  usage_footer (usage resp) = Ok footer ->
  write_raises w1 d = false ->
  date_ok w2 d ->
  base_dir w2 = base_dir w1 ->
  arg_force w2 = false ->
  disk0 w2 = st_disk (run w1).2 ->
  exit_status (run w2).1 = 0
  /\ remote_calls (st_trace (run w2).2) = []
  /\ writes (st_trace (run w2).2) = []
  /\ st_disk (run w2).2 = st_disk (run w1).2
  /\ st_disk (run w2).2 !! output_path_of w1 (strftime_ymd d)
     = Some (File (document w1 d resp footer)).
Proof.
  intros Ha Hf Hw Hd2 Hbase Hforce Hdisk.
  destruct (usage_footer_inv _ _ Hf) as (m & i & o & t & Hm & Hi & Ho & Ht & ->).
  destruct (paths_of_base w1 w2 (strftime_ymd d) Hbase) as [Hin Hout].
  assert (Hdoc : st_disk (run w1).2 !! output_path_of w1 (strftime_ymd d)
                 = Some (File (document w1 d resp (footer_line i o t))))
    by (apply (persisted_document w1 d ndjson resp m); assumption).
  assert (Hkeep : st_disk (run w1).2 !! input_path_of w1 (strftime_ymd d)
                  = disk0 w1 !! input_path_of w1 (strftime_ymd d)).
  { apply run_frame.
    - apply input_not_output_dir.
    - intros d' _. apply input_not_output. }
  assert (Hin2 : path_exists (disk0 w2) (input_path_of w2 (strftime_ymd d)) = true).
  { unfold path_exists. rewrite Hdisk, Hin, Hkeep.
    destruct Ha as ((_ & Hex & _) & _). exact Hex. }
  assert (Hout2 : path_exists (disk0 w2) (output_path_of w2 (strftime_ymd d)) = true).
  { unfold path_exists. rewrite Hdisk, Hout, Hdoc. reflexivity. }
  rewrite (skip_run w2 d Hd2 Hin2 Hout2 Hforce).
  cbn [fst snd st_trace st_disk exit_status].
  repeat split; try reflexivity; try assumption.
  rewrite Hdisk. exact Hdoc.
Qed.

(** A first run, then a second one while the service is down and the
    settings are gone. *)
Lemma X4_second_run_witness :
  let w1 := demo_run (Some "2025-08-01") false cfg_full disk_fresh
              (Ok demo_response) None in
  let w2 := demo_run (Some "2025-8-1") false cfg_none (st_disk (run w1).2)
              (Raise (Exn RemoteError "service unavailable")) None in
  exit_status (run w2).1 = 0
  /\ remote_calls (st_trace (run w2).2) = []
  /\ st_disk (run w2).2 = st_disk (run w1).2.
Proof.
  cbv zeta.
  destruct (X4_second_run_skips
              (demo_run (Some "2025-08-01") false cfg_full disk_fresh
                 (Ok demo_response) None)
              (demo_run (Some "2025-8-1") false cfg_none
                 (st_disk (run (demo_run (Some "2025-08-01") false cfg_full
                                  disk_fresh (Ok demo_response) None)).2)
                 (Raise (Exn RemoteError "service unavailable")) None)
              demo_date "{}" demo_response (footer_line "1,200" "34" "1,234"))
    as (H0 & Hc & _ & Hd & _); try reflexivity.
  - by_running.
  - split; vm_compute; reflexivity.
  - repeat split; assumption.
Defined.

(** * The token-accounting collaborator *)

(** ** Reading rendered counts back *)

Lemma remove_commas_format n : 0 <= n -> remove_commas (format_comma n) = py_str_int n.
Proof.
  intros Hn. unfold format_comma, py_str_int.
  destruct (Z.ltb_spec n 0); [lia|].
  apply remove_commas_group, digits_of_N_digits.
Qed.

(** X5.  The two files agree on how a count is written: what [human] (or
    [format(n, ',')] in the pipeline) writes for a non-negative count is the
    decimal numeral with commas put in, and [to_int] reads it back as the
    same count. *)
Theorem X5_to_int_reads_human n :
  0 <= n ->
  to_int (human n) = Ok n /\ remove_commas (human n) = py_str_int n.
Proof.
  intros Hn. unfold human. split.
  - apply to_int_format_comma, Hn.
  - apply remove_commas_format, Hn.
Qed.

Lemma X5_to_int_witness :
  human 1234567 = "1,234,567"
  /\ to_int (human 1234567) = Ok 1234567
  /\ remove_commas (human 1234567) = py_str_int 1234567.
Proof.
  split; [reflexivity|]. apply (X5_to_int_reads_human 1234567). lia.
Defined.

(** ** Footers the pattern does not match *)

Lemma token_line_match_not_i c s :
  not_i c = true -> token_line_match (String c s) = None.
Proof.
  unfold not_i, token_line_match. intros H. cbn [lit_ci].
  change (lower_ascii "I") with "i"%char.
  apply negb_true_iff in H. rewrite H. reflexivity.
Qed.

Lemma token_line_search_not_i s :
  all_chars not_i s = true -> token_line_search s = None.
Proof.
  induction s as [|c s IH]; [reflexivity|].
  cbn [all_chars]. intros [Hc Hs]%andb_true_iff.
  cbn [token_line_search]. rewrite (token_line_match_not_i c s Hc). auto.
Qed.

Lemma all_chars_app P a b :
  all_chars P (a +:+ b) = all_chars P a && all_chars P b.
Proof.
  induction a as [|c a IH]; [reflexivity|].
  cbn [append all_chars]. rewrite IH. apply andb_assoc.
Qed.

Lemma all_chars_weaken (P Q : ascii -> bool) s :
  (forall c, P c = true -> Q c = true) ->
  all_chars P s = true -> all_chars Q s = true.
Proof.
  intros HPQ. induction s as [|c s IH]; [reflexivity|].
  cbn [all_chars]. intros [Hc Hs]%andb_true_iff.
  rewrite (HPQ c Hc), (IH Hs). reflexivity.
Qed.

Lemma count_char_not_i c : is_digit_or_comma c = true -> not_i c = true.
Proof.
  destruct c as [[] [] [] [] [] [] [] []]; vm_compute; congruence.
Qed.

Lemma group_thousands_not_i n :
  all_chars not_i (group_thousands (digits_of_N n)) = true.
Proof.
  apply (all_chars_weaken is_digit_or_comma); [exact count_char_not_i|].
  apply group_thousands_chars, digits_of_N_digits.
Qed.

Lemma format_comma_not_i z : all_chars not_i (format_comma z) = true.
Proof.
  unfold format_comma. destruct (z <? 0).
  - cbn [all_chars]. rewrite group_thousands_not_i. reflexivity.
  - apply group_thousands_not_i.
Qed.

(** What a rendered count looks like. *)
Lemma render_shape v s :
  render_count v = Ok s ->
  all_chars not_i s = true
  /\ (if uncountable v then starts_off s = true
      else s <> "" /\ all_chars is_digit_or_comma s = true).
Proof.
  assert (Hint : forall z,
             all_chars not_i (format_comma z) = true
             /\ (if z <? 0 then starts_off (format_comma z) = true
                 else format_comma z <> ""
                      /\ all_chars is_digit_or_comma (format_comma z) = true)).
  { intros z. split; [apply format_comma_not_i|].
    destruct (Z.ltb_spec z 0) as [Hz|Hz].
    - unfold format_comma. destruct (Z.ltb_spec z 0); [reflexivity|lia].
    - split; [apply format_comma_nonempty|apply format_comma_chars]; lia. }
  destruct v as [|b|z|f|t|]; unfold render_count, uncountable;
    cbn [is_none]; try (intros [= <-]; split; reflexivity);
    destruct (py_int _) as [n|e]; cbn [res_bind]; try discriminate;
    intros [= <-]; apply Hint.
Qed.

Lemma group_count_off s rest :
  starts_off s = true -> group_count (skip_spaces (s +:+ rest)) = None.
Proof.
  destruct s as [|c s]; [discriminate|]. cbn [starts_off].
  intros [Hsp Hdc]%andb_true_iff.
  apply negb_true_iff in Hsp. apply negb_true_iff in Hdc.
  cbn [append skip_spaces]. rewrite Hsp. unfold group_count.
  cbn [span_count]. rewrite Hdc. reflexivity.
Qed.

(** The pattern does not match a footer one of whose counts is off. *)
Lemma token_line_match_off i o t :
  starts_off i = true
  \/ (i <> "" /\ all_chars is_digit_or_comma i = true /\ starts_off o = true)
  \/ (i <> "" /\ all_chars is_digit_or_comma i = true
      /\ o <> "" /\ all_chars is_digit_or_comma o = true
      /\ starts_off t = true) ->
  token_line_match (footer_line i o t) = None.
Proof.
  intros H. unfold token_line_match, footer_line.
  change ("Input tokens: " +:+ i +:+ " | Output tokens: " +:+ o
          +:+ " | Total tokens: " +:+ t +:+ "._")
    with ("Input tokens:"
          +:+ String " " (i +:+ String " " ("|"
          +:+ String " " ("Output tokens:"
          +:+ String " " (o +:+ String " " ("|"
          +:+ String " " ("Total tokens:"
          +:+ String " " (t +:+ "._")))))))).
  rewrite lit_ci_app. cbn [mbind option_bind]. rewrite skip_spaces_space.
  destruct H as [Hi | [(Hi & Hci & Ho) | (Hi & Hci & Ho & Hco & Ht)]].
  - rewrite (group_count_off i _ Hi). reflexivity.
  - rewrite skip_spaces_count, group_count_app by (assumption || reflexivity).
    cbn [mbind option_bind].
    rewrite skip_spaces_space, skip_spaces_nonspace, lit_ci_app by reflexivity.
    cbn [mbind option_bind].
    rewrite skip_spaces_space, skip_spaces_nonspace, lit_ci_app by reflexivity.
    cbn [mbind option_bind]. rewrite skip_spaces_space.
    rewrite (group_count_off o _ Ho). reflexivity.
  - rewrite skip_spaces_count, group_count_app by (assumption || reflexivity).
    cbn [mbind option_bind].
    rewrite skip_spaces_space, skip_spaces_nonspace, lit_ci_app by reflexivity.
    cbn [mbind option_bind].
    rewrite skip_spaces_space, skip_spaces_nonspace, lit_ci_app by reflexivity.
    cbn [mbind option_bind].
    rewrite skip_spaces_space, skip_spaces_count, group_count_app
      by (assumption || reflexivity).
    cbn [mbind option_bind].
    rewrite skip_spaces_space, skip_spaces_nonspace, lit_ci_app by reflexivity.
    cbn [mbind option_bind].
    rewrite skip_spaces_space, skip_spaces_nonspace, lit_ci_app by reflexivity.
    cbn [mbind option_bind]. rewrite skip_spaces_space.
    rewrite (group_count_off t _ Ht). reflexivity.
Qed.

(** No position of a footer after the first starts a match. *)
Lemma token_line_search_footer i o t :
  all_chars not_i i = true -> all_chars not_i o = true ->
  all_chars not_i t = true ->
  token_line_search (footer_line i o t)
  = token_line_match (footer_line i o t).
Proof.
  intros Hi Ho Ht. unfold footer_line.
  change ("Input tokens: " +:+ i +:+ " | Output tokens: " +:+ o
          +:+ " | Total tokens: " +:+ t +:+ "._")
    with (String "I" ("nput tokens: " +:+ i +:+ " | Output tokens: " +:+ o
                      +:+ " | Total tokens: " +:+ t +:+ "._")).
  cbn [token_line_search].
  rewrite (token_line_search_not_i ("nput tokens: " +:+ _)).
  - destruct (token_line_match _); reflexivity.
  - rewrite !all_chars_app, Hi, Ho, Ht. reflexivity.
Qed.

(** X6.  A document one of whose counts is unknown (rendered n/a) or
    negative has no footer the collaborator can read: provided the text
    before the footer holds no match either, [parse_token_line] returns
    [None], and the scanner lists the file under the missing footers. *)
Theorem X6_unreadable_footer_is_missing w d resp m i o t :
  extract_usage (usage resp) = Ok m ->
  render_count (input_tokens m) = Ok i ->
  render_count (output_tokens m) = Ok o ->
  render_count (total_tokens m) = Ok t ->
  uncountable (input_tokens m) || uncountable (output_tokens m)
  || uncountable (total_tokens m) = true ->
  parse_token_line (document_head w d resp) = Ok None ->
  parse_token_line (document w d resp (footer_line i o t)) = Ok None.
Proof.
  intros Hm Hi Ho Ht Hbad Hhead.
  assert (Hnone : token_line_search (document_head w d resp) = None).
  { unfold parse_token_line in Hhead.
    destruct (token_line_search (document_head w d resp)) as [[[g1 g2] g3]|];
      [|reflexivity].
    destruct (to_int g1); [|discriminate]. destruct (to_int g2); [|discriminate].
    destruct (to_int g3); discriminate. }
  destruct (document_head_ends w d resp) as [q Hq].
  destruct (render_shape _ _ Hi) as [Hni Hsi].
  destruct (render_shape _ _ Ho) as [Hno Hso].
  destruct (render_shape _ _ Ht) as [Hnt Hst].
  unfold parse_token_line.
  rewrite document_split, Hq, token_line_search_app by (rewrite <- Hq; exact Hnone).
  rewrite token_line_search_footer by assumption.
  rewrite token_line_match_off; [reflexivity|].
  destruct (uncountable (input_tokens _)); [left; exact Hsi|].
  destruct Hsi as [Hi1 Hi2].
  destruct (uncountable (output_tokens _)); [right; left; auto|].
  destruct Hso as [Ho1 Ho2].
  destruct (uncountable (total_tokens _)); [|discriminate].
  right; right; auto 10.
Qed.

Lemma X6_absent_usage_witness :
  let w := demo_run (Some "2025-08-01") false cfg_full disk_fresh
             (Ok {| output_text := Some "### OpenAI"; usage := UAbsent |})
             None in
  exists text,
    st_disk (run w).2 !! demo_output = Some (File text)
    /\ parse_token_line text = Ok None.
Proof.
  cbv zeta.
  exists (document
            (demo_run (Some "2025-08-01") false cfg_full disk_fresh
               (Ok {| output_text := Some "### OpenAI"; usage := UAbsent |})
               None)
            demo_date {| output_text := Some "### OpenAI"; usage := UAbsent |}
            (footer_line "n/a" "n/a" "n/a")).
  split; [vm_compute; reflexivity|].
  apply (X6_unreadable_footer_is_missing _ _ _
           {| input_tokens := VNone; output_tokens := VNone;
              total_tokens := VNone |}); reflexivity.
Defined.
Lemma sum_Z_cons x l : sum_Z (x :: l) = x + sum_Z l.
Proof. reflexivity. Qed.

Lemma counted_cons name read rest :
  counted ((name, read) :: rest)
  = match footer_of read with
    | Some counts => counts :: counted rest
    | None => counted rest
    end.
Proof. reflexivity. Qed.

Lemma scan_tally files acc0 :
  (forall name text, In (name, Ok text) files ->
                     is_ok (parse_token_line text) = true) ->
  exists acc,
    CountTokens.scan files acc0 = Ok acc
    /\ CountTokens.total_in acc
       = CountTokens.total_in acc0 + sum_Z (map (fun c => c.1.1) (counted files))
    /\ CountTokens.total_out acc
       = CountTokens.total_out acc0 + sum_Z (map (fun c => c.1.2) (counted files))
    /\ CountTokens.total_all acc
       = CountTokens.total_all acc0 + sum_Z (map (fun c => c.2) (counted files))
    /\ CountTokens.parsed acc
       = CountTokens.parsed acc0 + Z.of_nat (length (counted files))
    /\ CountTokens.missing acc = (CountTokens.missing acc0 ++ footless files)%list.
Proof.
  revert acc0. induction files as [|[name read] rest IH]; intros acc0 Hok.
  - exists acc0. cbn. rewrite !Z.add_0_r, app_nil_r. repeat split; reflexivity.
  - assert (Hrest : forall n t, In (n, Ok t) rest ->
                                is_ok (parse_token_line t) = true)
      by (intros n t Hin; apply (Hok n t); right; exact Hin).
    destruct read as [text|e].
    + specialize (Hok name text (or_introl eq_refl)).
      rewrite counted_cons.
      cbn [CountTokens.scan CountTokens.scan_file footer_of footless].
      destruct (parse_token_line text) as [[[[a b] c]|]|e]; [| |discriminate];
        cbn [res_bind].
      * match goal with
        | |- context [CountTokens.scan rest ?x] =>
            destruct (IH x Hrest) as (acc & -> & Hi & Ho & Ht & Hp & Hm)
        end.
        exists acc.
        cbn [CountTokens.total_in CountTokens.total_out CountTokens.total_all
             CountTokens.parsed CountTokens.missing] in *.
        cbn [map length fst snd]. rewrite ?sum_Z_cons.
        rewrite Hi, Ho, Ht, Hp, Hm. repeat split; lia.
      * match goal with
        | |- context [CountTokens.scan rest ?x] =>
            destruct (IH x Hrest) as (acc & -> & Hi & Ho & Ht & Hp & Hm)
        end.
        exists acc.
        cbn [CountTokens.total_in CountTokens.total_out CountTokens.total_all
             CountTokens.parsed CountTokens.missing] in *.
        cbn [map length fst snd]. rewrite ?sum_Z_cons.
        rewrite Hi, Ho, Ht, Hp, Hm, <- app_assoc. repeat split; reflexivity.
    + rewrite counted_cons.
      cbn [CountTokens.scan CountTokens.scan_file footer_of footless res_bind].
      match goal with
        | |- context [CountTokens.scan rest ?x] =>
            destruct (IH x Hrest) as (acc & -> & Hi & Ho & Ht & Hp & Hm)
        end.
      exists acc.
        cbn [CountTokens.total_in CountTokens.total_out CountTokens.total_all
             CountTokens.parsed CountTokens.missing] in *.
        cbn [map length fst snd]. rewrite ?sum_Z_cons.
      rewrite Hi, Ho, Ht, Hp, Hm. repeat split; reflexivity.
Qed.

Lemma each_file_once files :
  (forall name text, In (name, Ok text) files ->
                     is_ok (parse_token_line text) = true) ->
  (length (counted files) + length (footless files)
   + length (unreadable files) = length files)%nat.
Proof.
  induction files as [|[name read] rest IH]; intros Hok; [reflexivity|].
  assert (Hrest : forall n t, In (n, Ok t) rest ->
                              is_ok (parse_token_line t) = true)
    by (intros n t Hin; apply (Hok n t); right; exact Hin).
  specialize (IH Hrest). rewrite counted_cons.
  unfold unreadable in *.
  destruct read as [text|e];
    cbn [List.filter snd footless footer_of is_ok negb].
  - specialize (Hok name text (or_introl eq_refl)).
    destruct (parse_token_line text) as [[counts|]|e]; [| |discriminate];
      cbn [length]; lia.
  - cbn [length]. lia.
Qed.

(** X7.  When no file of a non-empty listing makes the parser raise, the
    scanner returns 0 after the report of a tally in which each total is
    the sum of that count over the files holding a footer, [parsed] is
    their number, [missing] lists in order the files read without a
    footer, and every file is counted exactly once: parsed, missing or
    unreadable. *)
Theorem X7_scan_counts_every_file_once base files :
  files <> [] ->
  (forall name text, In (name, Ok text) files ->
                     is_ok (parse_token_line text) = true) ->
  exists acc,
    CountTokens.main base (Some files)
    = Ok (0, (CountTokens.printed acc
              ++ CountTokens.report base (length files) acc)%list)
    /\ CountTokens.total_in acc = sum_Z (map (fun c => c.1.1) (counted files))
    /\ CountTokens.total_out acc = sum_Z (map (fun c => c.1.2) (counted files))
    /\ CountTokens.total_all acc = sum_Z (map (fun c => c.2) (counted files))
    /\ CountTokens.parsed acc = Z.of_nat (length (counted files))
    /\ CountTokens.missing acc = footless files
    /\ (length (counted files) + length (footless files)
        + length (unreadable files) = length files)%nat.
Proof.
  intros Hne Hok.
  destruct (scan_tally files CountTokens.start Hok)
    as (acc & Hscan & Hi & Ho & Ht & Hp & Hm).
  exists acc. cbn [CountTokens.start CountTokens.total_in CountTokens.total_out
                     CountTokens.total_all CountTokens.parsed
                     CountTokens.missing] in *.
  split; [|repeat split; try assumption; try lia].
  - unfold CountTokens.main. destruct files as [|f rest]; [congruence|].
    rewrite Hscan. reflexivity.
  - apply each_file_once. exact Hok.
Qed.

Lemma X7_demo_folder_witness :
  exists acc,
    CountTokens.main "/repo/monthly/aisummary" (Some demo_folder)
    = Ok (0, (CountTokens.printed acc
              ++ CountTokens.report "/repo/monthly/aisummary" 3 acc)%list)
    /\ CountTokens.total_in acc = 1200
    /\ CountTokens.total_out acc = 34
    /\ CountTokens.total_all acc = 1234
    /\ CountTokens.parsed acc = 1
    /\ CountTokens.missing acc = ["2025-08-01.md"]
    /\ (1 + 1 + 1 = 3)%nat.
Proof.
  apply (X7_scan_counts_every_file_once "/repo/monthly/aisummary" demo_folder).
  - discriminate.
  - intros name text [H|[H|[H|[]]]]; inversion H; vm_compute; reflexivity.
Defined.

Lemma remove_commas_only s :
  all_chars is_comma s = true -> remove_commas s = "".
Proof.
  induction s as [|c s IH]; [reflexivity|].
  cbn [all_chars remove_commas]. unfold is_comma at 1.
  intros [-> Hs]%andb_true_iff. exact (IH Hs).
Qed.

Lemma to_int_commas s :
  all_chars is_comma s = true ->
  exists msg, to_int s = Raise (Exn ValueError msg).
Proof.
  intros Hs. unfold to_int. rewrite (remove_commas_only s Hs).
  eexists. reflexivity.
Qed.

Lemma to_int_value_error s e : to_int s = Raise e -> exn_class e = ValueError.
Proof.
  unfold to_int, py_int_str.
  destruct (py_strip (remove_commas s)); [intros [= <-]; reflexivity|].
  destruct (NilEmpty.uint_of_string _); [discriminate|].
  intros [= <-]. reflexivity.
Qed.

Lemma parse_value_error text e :
  parse_token_line text = Raise e -> exn_class e = ValueError.
Proof.
  unfold parse_token_line.
  destruct (token_line_search text) as [[[g1 g2] g3]|]; [|discriminate].
  destruct (to_int g1) eqn:H1; cbn [res_bind];
    [|intros [= <-]; exact (to_int_value_error _ _ H1)].
  destruct (to_int g2) eqn:H2; cbn [res_bind];
    [|intros [= <-]; exact (to_int_value_error _ _ H2)].
  destruct (to_int g3) eqn:H3; cbn [res_bind];
    [discriminate|intros [= <-]; exact (to_int_value_error _ _ H3)].
Qed.

Lemma parse_comma_only text g1 g2 g3 :
  token_line_search text = Some (g1, g2, g3) ->
  all_chars is_comma g1 || all_chars is_comma g2 || all_chars is_comma g3
  = true ->
  exists e, parse_token_line text = Raise e.
Proof.
  intros Hm Hc. unfold parse_token_line. rewrite Hm.
  apply orb_true_iff in Hc as [Hc|H3]; [apply orb_true_iff in Hc as [H1|H2]|].
  - destruct (to_int_commas g1 H1) as [msg ->]. eexists. reflexivity.
  - destruct (to_int_commas g2 H2) as [msg ->].
    destruct (to_int g1); eexists; reflexivity.
  - destruct (to_int_commas g3 H3) as [msg ->].
    destruct (to_int g1); [|eexists; reflexivity].
    destruct (to_int g2); eexists; reflexivity.
Qed.

Lemma scan_file_value_error acc name read e :
  CountTokens.scan_file acc name read = Raise e -> exn_class e = ValueError.
Proof.
  destruct read as [text|e0]; cbn [CountTokens.scan_file]; [|discriminate].
  destruct (parse_token_line text) as [[[[a b] c]|]|e1] eqn:Hp;
    cbn [res_bind]; try discriminate.
  intros [= <-]. exact (parse_value_error _ _ Hp).
Qed.

Lemma scan_raises files acc name text e :
  In (name, Ok text) files ->
  parse_token_line text = Raise e ->
  exists e', CountTokens.scan files acc = Raise e'
             /\ exn_class e' = ValueError.
Proof.
  revert acc. induction files as [|[n r] rest IH]; intros acc Hin Hp;
    [destruct Hin|destruct Hin as [Hin|Hin]].
  - injection Hin as -> ->. cbn [CountTokens.scan CountTokens.scan_file].
    rewrite Hp. cbn [res_bind]. exists e. split; [reflexivity|].
    exact (parse_value_error _ _ Hp).
  - cbn [CountTokens.scan].
    destruct (CountTokens.scan_file acc n r) as [acc'|e0] eqn:Hs;
      cbn [res_bind].
    + exact (IH acc' Hin Hp).
    + exists e0. split; [reflexivity|].
      exact (scan_file_value_error _ _ _ _ Hs).
Qed.

(** X8.  A single file can abort the whole scan.  When the leftmost match
    of the pattern in some readable file has a count made of commas only,
    the conversion to an integer raises: the scanner ends with an uncaught
    [ValueError] instead of returning, whatever the other files hold, and
    prints no report. *)
Theorem X8_comma_only_count_aborts_scan base files name text g1 g2 g3 :
  In (name, Ok text) files ->
  token_line_search text = Some (g1, g2, g3) ->
  all_chars is_comma g1 || all_chars is_comma g2 || all_chars is_comma g3
  = true ->
  exists msg,
    CountTokens.main base (Some files) = Raise (Exn ValueError msg).
Proof.
  intros Hin Hm Hc.
  destruct (parse_comma_only text g1 g2 g3 Hm Hc) as [e Hp].
  destruct (scan_raises files CountTokens.start name text e Hin Hp)
    as ([k msg] & Hs & Hk).
  cbn [exn_class] in Hk. subst k. exists msg.
  unfold CountTokens.main. destruct files as [|f rest]; [destruct Hin|].
  rewrite Hs. reflexivity.
Qed.

Lemma X8_comma_only_witness :
  exists msg,
    CountTokens.main "/repo/monthly/aisummary"
      (Some (demo_folder
             ++ [("2025-10-01.md",
                  Ok "Input tokens: , | Output tokens: 1 | Total tokens: 2")])%list)
    = Raise (Exn ValueError msg).
Proof.
  apply (X8_comma_only_count_aborts_scan "/repo/monthly/aisummary"
           (demo_folder
            ++ [("2025-10-01.md",
                 Ok "Input tokens: , | Output tokens: 1 | Total tokens: 2")])%list
           "2025-10-01.md"
           "Input tokens: , | Output tokens: 1 | Total tokens: 2"
           "," "1" "2").
  - cbn. auto.
  - vm_compute. reflexivity.
  - vm_compute. reflexivity.
Defined.

Lemma load_dotenv_lookup dotenv env v :
  load_dotenv dotenv env !! v = effective dotenv env v.
Proof.
  unfold load_dotenv, effective. destruct dotenv as [file|].
  - destruct (env !! v) as [s|] eqn:He.
    + exact (lookup_union_Some_l env file v s He).
    + rewrite lookup_union_r by exact He. reflexivity.
  - destruct (env !! v); reflexivity.
Qed.

Lemma globals_missing w dotenv env :
  module_globals w = (_initialize_env dotenv env).2 ->
  config_missing w
  = negb (forallb (fun v => truthy_key (effective dotenv env v))
            REQUIRED_ENV_VARS).
Proof.
  unfold module_globals, _initialize_env, getenv, config_missing. cbn [snd].
  intros [= -> -> ->].
  rewrite !load_dotenv_lookup. cbn [forallb REQUIRED_ENV_VARS].
  destruct (truthy_key (effective dotenv env "AZURE_OPENAI_API_KEY")),
    (truthy_key (effective dotenv env "AZURE_OPENAI_V1_API_ENDPOINT")),
    (truthy_key (effective dotenv env "AZURE_OPENAI_API_MODEL")); reflexivity.
Qed.

(** X10.  The configuration test of [main] agrees with
    [_have_all_required_env_vars] on the environment [_initialize_env]
    leaves, and it passes exactly when each of the three required
    variables has a non-empty effective value: the environment's if the
    environment has the variable, the one of the [.env] file otherwise. *)
Theorem X10_configuration_from_environment w dotenv env :
  module_globals w = (_initialize_env dotenv env).2 ->
  config_missing w
  = negb (_have_all_required_env_vars (_initialize_env dotenv env).1)
  /\ (config_missing w = false <->
      forall v, In v REQUIRED_ENV_VARS ->
                exists s, s <> "" /\ effective dotenv env v = Some s).
Proof.
  intros Hg. rewrite (globals_missing w dotenv env Hg). split.
  - unfold _have_all_required_env_vars, _initialize_env, getenv. cbn [fst].
    cbn [forallb REQUIRED_ENV_VARS]. rewrite !load_dotenv_lookup. reflexivity.
  - rewrite negb_false_iff, forallb_forall.
    split; intros H v Hin; specialize (H v Hin).
    + destruct (effective dotenv env v) as [s|]; [|discriminate].
      exists s. split; [|reflexivity]. intros ->. discriminate.
    + destruct H as (s & Hs & ->). cbn [truthy_key].
      apply negb_true_iff, String.eqb_neq. exact Hs.
Qed.

Lemma X10_dotenv_only_witness :
  let w := demo_run (Some "2025-08-01") false cfg_full disk_fresh
             (Ok demo_response) None in
  config_missing w
  = negb (_have_all_required_env_vars
            (_initialize_env (Some dotenv_full) ∅).1)
  /\ (config_missing w = false <->
      forall v, In v REQUIRED_ENV_VARS ->
                exists s, s <> "" /\ effective (Some dotenv_full) ∅ v = Some s).
Proof.
  apply (X10_configuration_from_environment
           (demo_run (Some "2025-08-01") false cfg_full disk_fresh
              (Ok demo_response) None)
           (Some dotenv_full) ∅).
  vm_compute. reflexivity.
Defined.

(** X11.  A variable the environment sets to the empty string shadows the
    [.env] file.  However complete that file is, a run that gets as far as
    the configuration test then stops there: exit status 7, no call to the
    service, and the disk as it was. *)
Theorem X11_empty_variable_shadows_dotenv w d ndjson dotenv env v :
  module_globals w = (_initialize_env dotenv env).2 ->
  In v REQUIRED_ENV_VARS ->
  env !! v = Some "" ->
  proceeds w d ->
  read_text (disk0 w) (input_path_of w (strftime_ymd d)) = Ok ndjson ->
  exit_status (run w).1 = 7
  /\ remote_calls (st_trace (run w).2) = []
  /\ st_disk (run w).2 = disk0 w.
Proof.
  intros Hg Hin Hv Hp Hr.
  assert (Hc : config_missing w = true).
  { rewrite (globals_missing w dotenv env Hg). apply negb_true_iff.
    apply not_true_is_false. rewrite forallb_forall. intros H.
    specialize (H v Hin). unfold effective in H. rewrite Hv in H.
    discriminate. }
  rewrite (config_run w d ndjson Hp Hr Hc). cbn [fst snd st_disk st_trace].
  repeat split. apply remote_calls_prints.
  rewrite forallb_app, force_note_prints. reflexivity.
Qed.

Lemma X11_empty_model_witness :
  let w := demo_run (Some "2025-08-01") false
             (Some "secret", Some "https://example.openai.azure.com/openai/v1/",
              Some "")
             disk_fresh (Ok demo_response) None in
  exit_status (run w).1 = 7
  /\ remote_calls (st_trace (run w).2) = []
  /\ st_disk (run w).2 = disk0 w.
Proof.
  apply (X11_empty_variable_shadows_dotenv
           (demo_run (Some "2025-08-01") false
              (Some "secret",
               Some "https://example.openai.azure.com/openai/v1/", Some "")
              disk_fresh (Ok demo_response) None)
           demo_date "{}" (Some dotenv_full)
           {[ "AZURE_OPENAI_API_MODEL" := "" ]}
           "AZURE_OPENAI_API_MODEL").
  - vm_compute. reflexivity.
  - cbn. auto.
  - vm_compute. reflexivity.
  - by_running.
  - vm_compute. reflexivity.
Defined.

Lemma years_read : forallb reads_year (seqZ 1 9999) = true.
Proof. vm_compute. reflexivity. Qed.

Lemma days_read : forallb reads_day (seqZ 1 31) = true.
Proof. vm_compute. reflexivity. Qed.

Lemma in_seqZ lo len z : lo <= z < lo + len -> In z (seqZ lo len).
Proof. intros Hz. apply list_elem_of_In, elem_of_seqZ. exact Hz. Qed.

Lemma year_round y rest :
  1 <= y <= 9999 ->
  then_dash re_Y (zero_pad 4 y +:+ "-" +:+ rest) = Some (y, rest).
Proof.
  intros Hy. pose proof years_read as H. rewrite forallb_forall in H.
  specialize (H y (in_seqZ 1 9999 y ltac:(lia))).
  unfold reads_year in H. unfold then_dash.
  destruct (zero_pad 4 y) as [|a [|b [|c [|e s]]]]; try discriminate H.
  cbn [re_Y append] in *.
  destruct (is_digit a && is_digit b && is_digit c && is_digit e);
    [|discriminate H].
  destruct s; [|discriminate H]. apply Z.eqb_eq in H. rewrite H.
  reflexivity.
Qed.

Lemma month_round m rest :
  1 <= m <= 12 ->
  re_m_dash (zero_pad 2 m +:+ "-" +:+ rest) = Some (m, rest).
Proof.
  intros Hm.
  assert (H : m = 1 \/ m = 2 \/ m = 3 \/ m = 4 \/ m = 5 \/ m = 6 \/ m = 7
              \/ m = 8 \/ m = 9 \/ m = 10 \/ m = 11 \/ m = 12) by lia.
  repeat destruct H as [->|H]; try subst m; reflexivity.
Qed.

Lemma day_round d : 1 <= d <= 31 -> re_d (zero_pad 2 d) = Some (d, "").
Proof.
  intros Hd. pose proof days_read as H. rewrite forallb_forall in H.
  specialize (H d (in_seqZ 1 31 d ltac:(lia))).
  unfold reads_day in H.
  destruct (re_d (zero_pad 2 d)) as [[v [|? ?]]|]; try discriminate H.
  apply Z.eqb_eq in H. rewrite H. reflexivity.
Qed.

Lemma strptime_valid s d : strptime s = Ok d -> valid_date d = true.
Proof.
  unfold strptime.
  destruct (then_dash re_Y s) as [[y s1]|]; [|discriminate].
  destruct (re_m_dash s1) as [[m s2]|]; [|discriminate].
  destruct (re_d s2) as [[dd [|? ?]]|]; try discriminate.
  cbv zeta. destruct (valid_date _) eqn:Hv; [|discriminate].
  intros [= <-]. exact Hv.
Qed.

Lemma days_in_month_le y m : days_in_month y m <= 31.
Proof.
  unfold days_in_month.
  destruct (m =? 2); [destruct (is_leap y); lia|].
  destruct (_ || _); lia.
Qed.

Lemma strptime_strftime d :
  valid_date d = true -> strptime (strftime_ymd d) = Ok d.
Proof.
  intros Hv. pose proof Hv as Hv'. unfold valid_date in Hv'.
  repeat (apply andb_true_iff in Hv' as [Hv' ?]).
  pose proof (days_in_month_le (year d) (month d)).
  unfold strptime, strftime_ymd.
  rewrite year_round, month_round, day_round by lia.
  destruct d as [y m dd]. cbn [year month day] in *. rewrite Hv. reflexivity.
Qed.

Lemma strptime_nonempty s d : strptime s = Ok d -> truthy_key (Some s) = true.
Proof. destruct s; [discriminate|reflexivity]. Qed.

Lemma run_of_date w s1 s2 d :
  strptime s1 = Ok d -> strptime s2 = Ok d ->
  run (with_date w (Some s1)) = run (with_date w (Some s2)).
Proof.
  intros H1 H2. unfold run, main. cbn [with_date arg_date from_option id].
  rewrite (strptime_nonempty s1 d H1), (strptime_nonempty s2 d H2), H1, H2.
  reflexivity.
Qed.

(** X12.  Only the day a [--date] argument denotes matters.  For a year of
    four significant digits, the date text the pipeline builds its paths
    from parses back to the same day, and a run given any accepted
    spelling of a day (such as [2025-8-1]) ends exactly as the run given
    the canonical one ([2025-08-01]): same outcome, same output, same
    disk. *)
Theorem X12_date_spelling_is_irrelevant w s d :
  strptime s = Ok d ->
  1000 <= year d ->
  strptime (strftime_ymd d) = Ok d
  /\ run (with_date w (Some s)) = run (with_date w (Some (strftime_ymd d))).
Proof.
  intros Hs Hy.
  assert (Hc : strptime (strftime_ymd d) = Ok d)
    by (apply strptime_strftime; exact (strptime_valid s d Hs)).
  split; [exact Hc|]. exact (run_of_date w s (strftime_ymd d) d Hs Hc).
Qed.

Lemma X12_short_date_witness :
  let w := demo_run None false cfg_full disk_fresh (Ok demo_response) None in
  strptime "2025-08-01" = Ok demo_date
  /\ run (with_date w (Some "2025-8-1"))
     = run (with_date w (Some "2025-08-01")).
Proof.
  apply (X12_date_spelling_is_irrelevant
           (demo_run None false cfg_full disk_fresh (Ok demo_response) None)
           "2025-8-1" demo_date).
  - vm_compute. reflexivity.
  - vm_compute. discriminate.
Defined.

Lemma rstrip_slashes n : rstrip_slash (slashes n) = "".
Proof.
  induction n as [|n IH]; [reflexivity|].
  cbn [slashes rstrip_slash]. rewrite IH. reflexivity.
Qed.

Lemma rstrip_slash_app s n : rstrip_slash (s +:+ slashes n) = rstrip_slash s.
Proof.
  induction s as [|c s IH]; cbn [append rstrip_slash].
  - apply rstrip_slashes.
  - rewrite IH. reflexivity.
Qed.

Lemma truthy_app s t : s <> "" -> truthy_key (Some (s +:+ t)) = truthy_key (Some s).
Proof. destruct s; [congruence|reflexivity]. Qed.

(** X13.  Trailing slashes of the configured endpoint do not matter to the
    session handler: with a non-empty endpoint, any number of slashes
    added at its end gives the same response and the same upstream
    request, sent to the endpoint without them followed by
    [/chatkit/sessions]. *)
Theorem X13_trailing_slashes_are_ignored api_key endpoint n get_json post :
  endpoint <> "" ->
  CreateSession.main api_key (Some (endpoint +:+ slashes n)) get_json post
  = CreateSession.main api_key (Some endpoint) get_json post.
Proof.
  intros Hne. unfold CreateSession.main, CreateSession.forward.
  rewrite (truthy_app endpoint (slashes n) Hne).
  cbn [from_option id]. rewrite rstrip_slash_app. reflexivity.
Qed.

Lemma X13_two_slashes_witness :
  let post := fun (_ : string) (_ : list (string * string)) (_ : json) =>
                Ok {| CreateSession.up_status := 200;
                      CreateSession.up_text := "{}" |} in
  CreateSession.main (Some "secret") (Some "https://proxy.example/v1//")
    (Ok (JObj [])) post
  = CreateSession.main (Some "secret") (Some "https://proxy.example/v1")
      (Ok (JObj [])) post.
Proof.
  intros post.
  apply (X13_trailing_slashes_are_ignored (Some "secret")
           "https://proxy.example/v1" 2 (Ok (JObj [])) post).
  discriminate.
Defined.

(** X14.  The session handler answers 200 only by relaying: a response
    with status 200 means that both variables were set, that exactly one
    request went upstream, to the endpoint without its trailing slashes
    followed by [/chatkit/sessions] and bearing the key, that its payload
    was the body of the request (or the empty object when that was not
    valid JSON), that the upstream answer had status 200, and that the
    response carries its text unchanged as [application/json]. *)
Theorem X14_success_relays_upstream api_key endpoint get_json post :
  status_code (CreateSession.main api_key endpoint get_json post).1 = 200 ->
  exists key url payload text,
    api_key = Some key /\ key <> ""
    /\ endpoint = Some url /\ url <> ""
    /\ (get_json = Ok payload
        \/ (exists msg, get_json = Raise (Exn ValueError msg))
           /\ payload = JObj [])
    /\ CreateSession.posts
         (CreateSession.main api_key endpoint get_json post).2
       = [(rstrip_slash url +:+ "/chatkit/sessions",
           [("Authorization", "Bearer " +:+ key);
            ("Content-Type", "application/json")],
           payload)]
    /\ post (rstrip_slash url +:+ "/chatkit/sessions")
         [("Authorization", "Bearer " +:+ key);
          ("Content-Type", "application/json")] payload
       = Ok {| CreateSession.up_status := 200;
               CreateSession.up_text := text |}
    /\ (CreateSession.main api_key endpoint get_json post).1
       = {| body := text; mimetype := Some "application/json";
            status_code := 200 |}.
Proof.
  unfold CreateSession.main.
  destruct api_key as [key|]; [|discriminate].
  destruct endpoint as [url|];
    [|cbn [truthy_key negb orb]; rewrite orb_true_r; discriminate].
  cbn [truthy_key from_option id].
  destruct (String.eqb key "") eqn:Hk; [discriminate|].
  destruct (String.eqb url "") eqn:Hu; [discriminate|].
  apply String.eqb_neq in Hk, Hu. cbn [negb orb].
  unfold CreateSession.forward.
  set (session_url := rstrip_slash url +:+ "/chatkit/sessions").
  set (headers := [("Authorization", "Bearer " +:+ key);
                   ("Content-Type", "application/json")]).
  assert (Hpost : forall payload,
    get_json = Ok payload
    \/ (exists msg, get_json = Raise (Exn ValueError msg))
       /\ payload = JObj [] ->
    forall r,
    r = match post session_url headers payload with
        | Raise e => (Raise e, [CreateSession.Post session_url headers payload])
        | Ok response =>
            if negb (CreateSession.up_status response =? 200) then
              (Ok {| body := "Upstream error: "
                             +:+ CreateSession.up_text response;
                     mimetype := None;
                     status_code := CreateSession.up_status response |},
               [CreateSession.Post session_url headers payload;
                CreateSession.LogError
                  ("Upstream error: "
                   +:+ py_str_int (CreateSession.up_status response) +:+ " - "
                   +:+ CreateSession.up_text response)])
            else
              (Ok {| body := CreateSession.up_text response;
                     mimetype := Some "application/json";
                     status_code := 200 |},
               [CreateSession.Post session_url headers payload])
        end ->
    status_code
      (match r with
       | (Ok response, events) =>
           (response, CreateSession.LogInfo "Creating ChatKit session." :: events)
       | (Raise e, events) =>
           ({| body := "Internal error: " +:+ exn_msg e;
               mimetype := None;
               status_code := 500 |},
            CreateSession.LogInfo "Creating ChatKit session."
            :: (events
                ++ [CreateSession.LogError
                      ("Error creating session: " +:+ exn_msg e)])%list)
       end).1 = 200 ->
    exists key0 url0 payload0 text,
      Some key = Some key0 /\ key0 <> ""
      /\ Some url = Some url0 /\ url0 <> ""
      /\ (get_json = Ok payload0
          \/ (exists msg, get_json = Raise (Exn ValueError msg))
             /\ payload0 = JObj [])
      /\ CreateSession.posts
           (match r with
            | (Ok response, events) =>
                (response,
                 CreateSession.LogInfo "Creating ChatKit session." :: events)
            | (Raise e, events) =>
                ({| body := "Internal error: " +:+ exn_msg e;
                    mimetype := None;
                    status_code := 500 |},
                 CreateSession.LogInfo "Creating ChatKit session."
                 :: (events
                     ++ [CreateSession.LogError
                           ("Error creating session: " +:+ exn_msg e)])%list)
            end).2
         = [(rstrip_slash url0 +:+ "/chatkit/sessions",
             [("Authorization", "Bearer " +:+ key0);
              ("Content-Type", "application/json")],
             payload0)]
      /\ post (rstrip_slash url0 +:+ "/chatkit/sessions")
           [("Authorization", "Bearer " +:+ key0);
            ("Content-Type", "application/json")] payload0
         = Ok {| CreateSession.up_status := 200;
                 CreateSession.up_text := text |}
      /\ (match r with
          | (Ok response, events) =>
              (response,
               CreateSession.LogInfo "Creating ChatKit session." :: events)
          | (Raise e, events) =>
              ({| body := "Internal error: " +:+ exn_msg e;
                  mimetype := None;
                  status_code := 500 |},
               CreateSession.LogInfo "Creating ChatKit session."
               :: (events
                   ++ [CreateSession.LogError
                         ("Error creating session: " +:+ exn_msg e)])%list)
          end).1
         = {| body := text; mimetype := Some "application/json";
              status_code := 200 |}).
  { intros payload Hpay r ->.
    destruct (post session_url headers payload) as [[st text]|e] eqn:Hp;
      [|discriminate].
    cbn [CreateSession.up_status CreateSession.up_text].
    destruct (st =? 200) eqn:Hst; cbn [negb fst snd status_code].
    - apply Z.eqb_eq in Hst. subst st. intros _.
      exists key, url, payload, text. repeat split; assumption.
    - intros ->. discriminate Hst. }
  destruct get_json as [j|[[] msg]] eqn:Hg; try discriminate.
  - apply (Hpost j); [left; reflexivity|reflexivity].
  - apply (Hpost (JObj [])); [right; eauto|reflexivity].
Qed.

Lemma X14_relay_witness :
  let post := fun (_ : string) (_ : list (string * string)) (_ : json) =>
                Ok {| CreateSession.up_status := 200;
                      CreateSession.up_text := "{}" |} in
  let get_json : res json := Raise (Exn ValueError "no JSON") in
  let r := CreateSession.main (Some "secret")
             (Some "https://proxy.example/v1/") get_json post in
  exists key url payload text,
    Some "secret" = Some key /\ key <> ""
    /\ Some "https://proxy.example/v1/" = Some url /\ url <> ""
    /\ (get_json = Ok payload
        \/ (exists msg, get_json = Raise (Exn ValueError msg))
           /\ payload = JObj [])
    /\ CreateSession.posts r.2
       = [(rstrip_slash url +:+ "/chatkit/sessions",
           [("Authorization", "Bearer " +:+ key);
            ("Content-Type", "application/json")],
           payload)]
    /\ post (rstrip_slash url +:+ "/chatkit/sessions")
         [("Authorization", "Bearer " +:+ key);
          ("Content-Type", "application/json")] payload
       = Ok {| CreateSession.up_status := 200;
               CreateSession.up_text := text |}
    /\ r.1 = {| body := text; mimetype := Some "application/json";
                status_code := 200 |}.
Proof.
  intros post get_json r.
  apply (X14_success_relays_upstream (Some "secret")
           (Some "https://proxy.example/v1/") get_json post).
  reflexivity.
Defined.

Lemma line_of_message repr msg :
  is_message msg = true -> exists line, Chat.line_of repr msg = inr line.
Proof.
  destruct msg as [| | | | |members]; try discriminate.
  unfold is_message, Chat.line_of.
  destruct (default (JStr "user") (member "role" members)); try discriminate.
  eexists. reflexivity.
Qed.

Lemma line_of_other repr msg :
  is_message msg = false -> Chat.line_of repr msg = inl Chat.AttributeError.
Proof.
  destruct msg as [| | | | |members]; try reflexivity.
  unfold is_message, Chat.line_of.
  destruct (default (JStr "user") (member "role" members));
    try reflexivity; discriminate.
Qed.

Lemma add_lines_messages repr msgs text :
  forallb is_message msgs = true ->
  exists conversation, Chat.add_lines repr msgs text = inr conversation.
Proof.
  revert text. induction msgs as [|msg rest IH]; intros text.
  - eexists. reflexivity.
  - cbn [forallb Chat.add_lines]. intros [Hm Hr]%andb_true_iff.
    destruct (line_of_message repr msg Hm) as [line ->]. apply IH, Hr.
Qed.

Lemma add_lines_other repr msgs text :
  forallb is_message msgs = false ->
  Chat.add_lines repr msgs text = inl Chat.AttributeError.
Proof.
  revert text. induction msgs as [|msg rest IH]; intros text; [discriminate|].
  cbn [forallb Chat.add_lines]. destruct (is_message msg) eqn:Hm.
  - destruct (line_of_message repr msg Hm) as [line ->]. cbn [andb].
    apply IH.
  - rewrite (line_of_other repr msg Hm). reflexivity.
Qed.

Lemma add_lines_text repr s text :
  s <> "" ->
  Chat.add_lines repr
    (map (fun c => JStr (String c EmptyString)) (list_ascii_of_string s)) text
  = inl Chat.AttributeError.
Proof. destruct s; [congruence|reflexivity]. Qed.

Lemma add_lines_keys repr members text :
  members <> [] ->
  Chat.add_lines repr (map (fun m : string * json => JStr m.1) members) text
  = inl Chat.AttributeError.
Proof. destruct members; [congruence|reflexivity]. Qed.

(** X15.  With both variables set, a request whose body is valid JSON is
    answered exactly when the body has the expected shape: an object whose
    [messages], if they count as given, are a list of objects with a
    string for [role] where they have one.  For any other body (a list,
    [null], messages given as text, a message that is no object) the
    handler raises an exception it does not catch, instead of answering
    400, and it has not called the service. *)
Theorem X15_wrong_shape_is_not_answered
    endpoint default_model body repr service :
  truthy_key endpoint = true ->
  truthy_key default_model = true ->
  (well_shaped body = true ->
   exists r,
     (Chat.main endpoint default_model (Ok body) repr service).1
     = Chat.Responded r)
  /\ (well_shaped body = false ->
      exists x,
        Chat.main endpoint default_model (Ok body) repr service
        = (Chat.Raised x, [Chat.LogInfo "Processing chat request."])).
Proof.
  intros He Hm. unfold Chat.main. rewrite He, Hm. cbn [negb orb].
  destruct body as [| | | | |members]; cbn [well_shaped];
    try (split; [discriminate|intros _; eexists; reflexivity]).
  destruct (default (JArr []) (member "messages" members))
    as [|b|z|s|items|ms] eqn:Hmsgs.
  - split; [eexists; reflexivity|discriminate].
  - destruct b; cbn [json_truthy negb Chat.iterate];
      (split; [try discriminate|try discriminate]); eexists; reflexivity.
  - cbn [json_truthy Chat.iterate]. destruct (z =? 0); cbn [negb];
      (split; [try discriminate|try discriminate]); eexists; reflexivity.
  - cbn [json_truthy Chat.iterate]. destruct (String.eqb s "") eqn:Hs;
      cbn [negb].
    + split; [eexists; reflexivity|discriminate].
    + apply String.eqb_neq in Hs. rewrite (add_lines_text repr s _ Hs).
      split; [discriminate|eexists; reflexivity].
  - cbn [Chat.iterate]. destruct (forallb is_message items) eqn:Hf.
    + split; [intros _|discriminate].
      destruct items as [|msg rest]; [eexists; reflexivity|].
      cbn [json_truthy negb].
      destruct (add_lines_messages repr (msg :: rest)
                  ("System: " +:+ Chat.system_prompt +:+ nl) Hf) as [t ->].
      destruct (res_bind _ _); eexists; reflexivity.
    + split; [discriminate|intros _].
      destruct items as [|msg rest]; [discriminate Hf|].
      cbn [json_truthy negb]. rewrite (add_lines_other repr _ _ Hf).
      eexists. reflexivity.
  - cbn [json_truthy Chat.iterate]. destruct ms as [|m ms]; cbn [negb].
    + split; [eexists; reflexivity|discriminate].
    + split; [discriminate|intros _; eexists; reflexivity].
Qed.

Lemma X15_list_body_witness :
  let service := fun _ : Chat.request =>
                   Ok ([] : list Chat.stream_event, None : option pyexn) in
  let repr := fun _ : json => "" in
  exists x,
    Chat.main (Some "https://example.openai.azure.com/openai/v1/")
      (Some "gpt-5") (Ok (JArr [])) repr service
    = (Chat.Raised x, [Chat.LogInfo "Processing chat request."]).
Proof.
  intros service repr.
  apply (X15_wrong_shape_is_not_answered
           (Some "https://example.openai.azure.com/openai/v1/")
           (Some "gpt-5") (JArr []) repr service); reflexivity.
Defined.

Lemma delta_dumps_cons ev rest :
  delta_dumps (ev :: rest)
  = if Chat.is_delta ev
    then match Chat.ev_dump ev with
         | Ok chunk => chunk :: delta_dumps rest
         | Raise _ => delta_dumps rest
         end
    else delta_dumps rest.
Proof.
  unfold delta_dumps.
  destruct (Chat.is_delta ev) eqn:Hd, (Chat.ev_dump ev) eqn:He;
    cbn [omap list_omap]; rewrite Hd, ?He; reflexivity.
Qed.

Lemma collect_ok events failure chunks :
  Chat.collect events failure = Ok chunks ->
  failure = None
  /\ chunks = delta_dumps events
  /\ forallb (fun ev => negb (Chat.is_delta ev) || is_ok (Chat.ev_dump ev))
       events = true.
Proof.
  revert chunks. induction events as [|ev rest IH]; intros chunks.
  - cbn [Chat.collect]. destruct failure; [discriminate|].
    intros [= <-]. repeat split.
  - cbn [Chat.collect forallb]. rewrite delta_dumps_cons.
    destruct (Chat.is_delta ev); cbn [negb orb].
    + destruct (Chat.ev_dump ev) as [chunk|e]; [|discriminate].
      cbn [res_bind is_ok andb].
      destruct (Chat.collect rest failure) as [more|e]; [|discriminate].
      cbn [res_bind]. intros [= <-].
      destruct (IH more eq_refl) as (Hf & Hc & Hall).
      rewrite <- Hc. split; [exact Hf|]. split; [reflexivity|exact Hall].
    + intros H. exact (IH chunks H).
Qed.

(** X16.  The chat handler answers 200 only with a complete stream.  A
    response with status 200 means that the service was called exactly
    once, that its stream ended without raising and every text delta in it
    could be dumped, and that the body is the dumps of the text deltas, in
    order, one per line: events of any other type contribute nothing, and
    a stream that fails part-way yields none of its chunks. *)
Theorem X16_success_relays_text_deltas
    endpoint default_model get_json repr service r :
  (Chat.main endpoint default_model get_json repr service).1
  = Chat.Responded r ->
  status_code r = 200 ->
  exists req events,
    Chat.creates (Chat.main endpoint default_model get_json repr service).2
    = [req]
    /\ service req = Ok (events, None)
    /\ forallb (fun ev => negb (Chat.is_delta ev) || is_ok (Chat.ev_dump ev))
         events = true
    /\ r = {| body := String.concat nl (delta_dumps events);
              mimetype := Some "application/x-ndjson";
              status_code := 200 |}.
Proof.
  unfold Chat.main.
  destruct (negb (truthy_key endpoint) || negb (truthy_key default_model));
    [intros [= <-]; discriminate|].
  destruct get_json as [body|[[] msg]]; try discriminate;
    [|intros [= <-]; discriminate].
  destruct body as [| | | | |members]; try discriminate.
  destruct (negb (json_truthy _)); [intros [= <-]; discriminate|].
  destruct (Chat.iterate _) as [x|msgs]; [discriminate|].
  destruct (Chat.add_lines repr msgs _) as [x|conversation_text];
    [discriminate|].
  match goal with
  | |- context [service ?q] => set (req := q)
  end.
  destruct (service req) as [[events failure]|e] eqn:Hs; cbn [res_bind fst snd];
    [|intros [= <-]; discriminate].
  destruct (Chat.collect events failure) as [chunks|e] eqn:Hc;
    [|intros [= <-]; discriminate].
  intros [= <-] _. destruct (collect_ok events failure chunks Hc)
    as (-> & -> & Hall).
  exists req, events. repeat split; assumption.
Qed.

Lemma X16_one_delta_witness :
  let events :=
    [{| Chat.ev_type := Some "response.created"; Chat.ev_dump := Ok "{}" |};
     {| Chat.ev_type := Some "response.output_text.delta";
        Chat.ev_dump := Ok "{delta}" |}] in
  let service := fun _ : Chat.request => Ok (events, None : option pyexn) in
  let repr := fun _ : json => "" in
  let body :=
    JObj [("messages", JArr [JObj [("role", JStr "user");
                                   ("content", JStr "hello")]])] in
  let r := {| body := "{delta}"; mimetype := Some "application/x-ndjson";
              status_code := 200 |} in
  exists req evs,
    Chat.creates
      (Chat.main (Some "https://example.openai.azure.com/openai/v1/")
         (Some "gpt-5") (Ok body) repr service).2 = [req]
    /\ service req = Ok (evs, None)
    /\ forallb (fun ev => negb (Chat.is_delta ev) || is_ok (Chat.ev_dump ev))
         evs = true
    /\ r = {| body := String.concat nl (delta_dumps evs);
              mimetype := Some "application/x-ndjson";
              status_code := 200 |}.
Proof.
  intros events service repr body r.
  apply (X16_success_relays_text_deltas
           (Some "https://example.openai.azure.com/openai/v1/")
           (Some "gpt-5") (Ok body) repr service r); reflexivity.
Defined.

(** ** The scanner over the folder the pipeline writes to *)

Lemma append_inj_l a x y : a +:+ x = a +:+ y -> x = y.
Proof. induction a as [|c a IH]; cbn [append]; [auto|]. intros [= H]. auto. Qed.

Lemma append_inj_r a b c : a +:+ c = b +:+ c -> a = b.
Proof.
  revert b. induction a as [|x a IH]; intros [|y b]; cbn [append].
  - reflexivity.
  - intros H. apply (f_equal String.length) in H.
    cbn [String.length] in H. rewrite length_append in H. lia.
  - intros H. apply (f_equal String.length) in H.
    cbn [String.length] in H. rewrite length_append in H. lia.
  - intros [= -> H]. f_equal. exact (IH b H).
Qed.

Lemma strftime_ymd_inj d1 d2 :
  valid_date d1 = true -> valid_date d2 = true ->
  strftime_ymd d1 = strftime_ymd d2 -> d1 = d2.
Proof.
  intros H1 H2 H. pose proof (strptime_strftime d1 H1) as R1.
  rewrite H, (strptime_strftime d2 H2) in R1. congruence.
Qed.

Lemma no_slash_append a b :
  no_slash (a +:+ b) = no_slash a && no_slash b.
Proof.
  induction a as [|c a IH]; cbn [append no_slash]; [reflexivity|].
  rewrite IH, andb_assoc. reflexivity.
Qed.

Lemma no_slash_zeros k : no_slash (zeros k) = true.
Proof. induction k as [|k IH]; [reflexivity|exact IH]. Qed.

Lemma no_slash_uint u : no_slash (NilZero.string_of_uint u) = true.
Proof.
  unfold NilZero.string_of_uint.
  destruct u; try reflexivity; cbn [no_slash].
  all: match goal with |- context [NilEmpty.string_of_uint ?v] =>
         induction v; cbn [NilEmpty.string_of_uint no_slash]; auto end.
Qed.

Lemma no_slash_zero_pad k z : no_slash (zero_pad k z) = true.
Proof.
  unfold zero_pad, digits_of_N. cbv zeta.
  rewrite no_slash_append, no_slash_zeros, no_slash_uint. reflexivity.
Qed.

Lemma ends_md_append a : ends_md (a +:+ ".md") = true.
Proof.
  induction a as [|c a IH]; [reflexivity|].
  cbn [append ends_md]. rewrite IH. apply orb_true_r.
Qed.

Lemma md_name_summary d : md_name (strftime_ymd d +:+ ".md") = true.
Proof.
  unfold md_name. rewrite ends_md_append, andb_true_r.
  unfold strftime_ymd.
  rewrite !no_slash_append, !no_slash_zero_pad. reflexivity.
Qed.

Lemma md_name_plain name :
  md_name name = true -> no_slash name = true /\ name <> "".
Proof.
  unfold md_name. intros H. apply andb_true_iff in H as [H1 H2].
  split; [exact H1|]. intros ->. discriminate H2.
Qed.

Lemma path_join_plain dir name :
  no_slash name = true ->
  path_join dir name
  = (if String.eqb dir "" || ends_with_slash dir then dir +:+ name
     else dir +:+ "/" +:+ name).
Proof.
  intros Hn. unfold path_join. destruct name as [|c s]; [reflexivity|].
  destruct c as [[] [] [] [] [] [] [] []]; try reflexivity.
  discriminate Hn.
Qed.

Lemma path_join_plain_inj dir n1 n2 :
  no_slash n1 = true -> no_slash n2 = true ->
  path_join dir n1 = path_join dir n2 -> n1 = n2.
Proof.
  intros H1 H2. rewrite !path_join_plain by assumption.
  destruct (String.eqb dir "" || ends_with_slash dir); intros H.
  - exact (append_inj_l _ _ _ H).
  - apply append_inj_l in H. cbn [append] in H. congruence.
Qed.

Lemma path_join_plain_below dir name :
  no_slash name = true -> name <> "" -> path_join dir name <> dir.
Proof.
  intros Hn Hne. rewrite path_join_plain by assumption.
  intros H. apply (f_equal String.length) in H. revert H.
  destruct (_ || _); rewrite ?length_append; cbn [String.length];
    destruct name; [congruence| |congruence|]; cbn [String.length]; lia.
Qed.

(** A run leaves alone every markdown file of its folder but its own. *)
Lemma run_keeps w name :
  md_name name = true ->
  (forall d, date_ok w d -> name <> strftime_ymd d +:+ ".md") ->
  st_disk (run w).2 !! path_join (output_dir_of w) name
  = disk0 w !! path_join (output_dir_of w) name.
Proof.
  intros Hmd Hother. destruct (md_name_plain name Hmd) as [Hn Hne].
  apply run_frame.
  - apply path_join_plain_below; assumption.
  - intros d Hd Heq. apply (Hother d Hd).
    unfold output_path_of in Heq.
    apply path_join_plain_inj in Heq; [exact Heq|exact Hn|].
    pose proof (md_name_summary d) as H. unfold md_name in H.
    apply andb_true_iff in H as [H _]. exact H.
Qed.

Lemma well_finished_date r d :
  well_finished r -> date_ok (of_world r) d -> d = of_date r.
Proof.
  intros ((((_ & H1) & _) & _) & _) (_ & H2). congruence.
Qed.

Lemma well_finished_valid r : well_finished r -> valid_date (of_date r) = true.
Proof.
  intros ((((_ & H) & _) & _) & _). exact (strptime_valid _ _ H).
Qed.

Lemma output_dir_summaries w : output_dir_of w = summaries_dir (base_dir w).
Proof. reflexivity. Qed.

(** The later runs keep a markdown file that is none of theirs. *)
Lemma later_keep base runs : forall disk name,
  Forall well_finished runs ->
  in_sequence base disk runs ->
  md_name name = true ->
  ~ In name (map summary_name runs) ->
  final_disk disk runs !! path_join (summaries_dir base) name
  = disk !! path_join (summaries_dir base) name.
Proof.
  induction runs as [|r rest IH]; intros disk name Hwf Hseq Hmd Hnot.
  - reflexivity.
  - inversion Hwf as [|? ? Hr Hrest]; subst.
    destruct Hseq as (Hbase & Hkept & Hseq).
    cbn [final_disk]. cbn [map In] in Hnot.
    rewrite (IH _ name Hrest Hseq Hmd) by tauto.
    rewrite <- (Hkept name Hmd), <- Hbase, <- output_dir_summaries.
    apply run_keeps; [exact Hmd|].
    intros d Hd ->. apply Hnot. left. unfold summary_name.
    rewrite (well_finished_date r d Hr Hd). reflexivity.
Qed.

Lemma finished_document r :
  well_finished r ->
  st_disk (run (of_world r)).2
    !! path_join (summaries_dir (base_dir (of_world r))) (summary_name r)
  = Some (File (summary_of r))
  /\ parse_token_line (summary_of r) = Ok (Some (of_counts r)).
Proof.
  intros (Hans & Hw & Hm & Ha & Hb & Hc & Hhead). split.
  - apply (persisted_document (of_world r) (of_date r) (of_dataset r)
             (of_answer r) _ _ _ _ Hans Hm); [reflexivity..|exact Hw].
  - unfold summary_of. rewrite parse_document by assumption.
    destruct (of_counts r) as [[a b] c]. reflexivity.
Qed.

Lemma summary_name_inj r1 r2 :
  well_finished r1 -> well_finished r2 ->
  summary_name r1 = summary_name r2 -> of_date r1 = of_date r2.
Proof.
  intros H1 H2 H. apply append_inj_r in H.
  apply strftime_ymd_inj; [apply well_finished_valid..|]; assumption.
Qed.

Lemma summary_names_distinct runs :
  Forall well_finished runs ->
  NoDup (map of_date runs) -> NoDup (map summary_name runs).
Proof.
  induction 1 as [|r rest Hr Hrest IH]; cbn [map]; intros Hnd.
  - constructor.
  - inversion Hnd as [|? ? Hnot Hnd']; subst. constructor; [|auto].
    intros Hin%list_elem_of_In. apply Hnot, list_elem_of_In.
    apply in_map_iff in Hin as (r' & Heq & Hin').
    apply in_map_iff. exists r'. split; [|exact Hin'].
    apply summary_name_inj; [|exact Hr|exact Heq].
    rewrite List.Forall_forall in Hrest. exact (Hrest r' Hin').
Qed.

(** After runs for distinct days, the summary of each is in the folder. *)
Lemma final_lookup base runs : forall disk r,
  Forall well_finished runs ->
  in_sequence base disk runs ->
  NoDup (map of_date runs) ->
  In r runs ->
  final_disk disk runs !! path_join (summaries_dir base) (summary_name r)
  = Some (File (summary_of r)).
Proof.
  induction runs as [|r0 rest IH]; intros disk r Hwf Hseq Hnd Hin;
    [destruct Hin|].
  inversion Hwf as [|? ? Hr0 Hrest]; subst.
  inversion Hnd as [|? ? Hnot Hnd']; subst.
  destruct Hseq as (Hbase & Hkept & Hseq). cbn [final_disk].
  destruct Hin as [<-|Hin]; [|exact (IH _ r Hrest Hseq Hnd' Hin)].
  rewrite (later_keep base rest _ (summary_name r0) Hrest Hseq
             (md_name_summary _)).
  - rewrite <- Hbase. exact (proj1 (finished_document r0 Hr0)).
  - pose proof (summary_names_distinct (r0 :: rest) Hwf Hnd) as H.
    inversion H as [|? ? Hfresh _]; subst.
    intros Hin%list_elem_of_In. exact (Hfresh Hin).
Qed.

(** The markdown files of the folder are the summaries of the runs. *)
Lemma md_entry_final base disk runs name :
  Forall well_finished runs ->
  in_sequence base disk runs ->
  NoDup (map of_date runs) ->
  (forall n, md_entry disk (summaries_dir base) n = false) ->
  md_entry (final_disk disk runs) (summaries_dir base) name = true
  <-> In name (map summary_name runs).
Proof.
  intros Hwf Hseq Hnd Hempty. split.
  - intros H. destruct (in_dec string_dec name (map summary_name runs))
      as [Hin|Hnot]; [exact Hin|exfalso].
    unfold md_entry in H. apply andb_true_iff in H as [Hmd Hex].
    specialize (Hempty name). unfold md_entry in Hempty.
    rewrite Hmd in Hempty. cbn [andb] in Hempty.
    unfold path_exists in *.
    rewrite (later_keep base runs disk name Hwf Hseq Hmd Hnot) in Hex.
    congruence.
  - intros Hin. apply in_map_iff in Hin as (r & <- & Hin).
    unfold md_entry, path_exists.
    rewrite (final_lookup base runs disk r Hwf Hseq Hnd Hin).
    unfold summary_name. rewrite md_name_summary. reflexivity.
Qed.

Lemma sum_Z_Permutation l1 l2 : l1 ≡ₚ l2 -> sum_Z l1 = sum_Z l2.
Proof.
  induction 1 as [|x l l' _ IH|x y l|l l' l'' _ IH1 _ IH2];
    rewrite ?sum_Z_cons; [reflexivity|lia|lia|congruence].
Qed.

Lemma main_reports base files acc :
  files <> [] ->
  CountTokens.scan files CountTokens.start = Ok acc ->
  CountTokens.main base (Some files)
  = Ok (0, (CountTokens.printed acc
            ++ CountTokens.report base (length files) acc)%list).
Proof.
  intros Hne Hscan. unfold CountTokens.main.
  destruct files as [|f rest]; [congruence|]. rewrite Hscan. reflexivity.
Qed.

Lemma scan_no_warning files acc0 acc :
  (forall f, In f files -> is_ok f.2 = true) ->
  CountTokens.scan files acc0 = Ok acc ->
  CountTokens.printed acc = CountTokens.printed acc0.
Proof.
  revert acc0. induction files as [|[name read] rest IH]; intros acc0 Hr.
  - intros [= <-]. reflexivity.
  - assert (Hrest : forall f, In f rest -> is_ok f.2 = true)
      by (intros f Hin; apply Hr; right; exact Hin).
    specialize (Hr (name, read) (or_introl eq_refl)).
    destruct read as [text|e]; [|discriminate Hr].
    cbn [CountTokens.scan CountTokens.scan_file].
    destruct (parse_token_line text) as [[[[a b] c]|]|e]; cbn [res_bind];
      [| |discriminate];
      intros Hs; rewrite (IH _ Hrest Hs); reflexivity.
Qed.

Lemma read_text_file disk p text :
  disk !! p = Some (File text) -> read_text disk p = Ok text.
Proof. unfold read_text. intros ->. reflexivity. Qed.

(** A listing of summaries that are all there and all carry their footer. *)
Lemma listing_of_summaries disk dir rs :
  (forall r, In r rs ->
             disk !! path_join dir (summary_name r) = Some (File (summary_of r))
             /\ parse_token_line (summary_of r) = Ok (Some (of_counts r))) ->
  (forall name text,
      In (name, Ok text) (listing_of disk dir (map summary_name rs)) ->
      is_ok (parse_token_line text) = true)
  /\ (forall f, In f (listing_of disk dir (map summary_name rs)) ->
                is_ok f.2 = true)
  /\ counted (listing_of disk dir (map summary_name rs)) = map of_counts rs
  /\ footless (listing_of disk dir (map summary_name rs)) = [].
Proof.
  induction rs as [|r rs IH]; intros Hall.
  - repeat split; intros; contradiction.
  - destruct (Hall r (or_introl eq_refl)) as [Hfile Hparse].
    destruct IH as (IH1 & IH2 & IH3 & IH4);
      [intros r' Hin; apply Hall; right; exact Hin|].
    unfold listing_of in *. cbn [map].
    rewrite (read_text_file _ _ _ Hfile). repeat split.
    + intros n t [[= <- <-]|Hin]; [rewrite Hparse; reflexivity|eauto].
    + intros f [<-|Hin]; [reflexivity|eauto].
    + rewrite counted_cons. cbn [footer_of]. rewrite Hparse, IH3.
      reflexivity.
    + cbn [footless]. rewrite Hparse. exact IH4.
Qed.

(** The names the pattern gives are the names of the summaries, in some
    order. *)
Lemma names_of_runs base disk runs names :
  Forall well_finished runs ->
  in_sequence base disk runs ->
  NoDup (map of_date runs) ->
  (forall name, md_entry disk (summaries_dir base) name = false) ->
  NoDup names ->
  (forall name,
      In name names
      <-> md_entry (final_disk disk runs) (summaries_dir base) name = true) ->
  exists rs, names = map summary_name rs /\ runs ≡ₚ rs.
Proof.
  intros Hwf Hseq Hnd Hempty Hnames Hlist.
  apply Permutation_map_inv, NoDup_Permutation;
    [exact Hnames|exact (summary_names_distinct runs Hwf Hnd)|].
  intros name. rewrite !list_elem_of_In, Hlist.
  exact (md_entry_final base disk runs name Hwf Hseq Hnd Hempty).
Qed.

(** X9.  The scanner adds up what the pipeline wrote.  Runs of the pipeline
    take place one after the other in one repository, for distinct days;
    each gets an answer with three non-negative integer counts and writes
    its document (nothing before the footer looking like one); the folder
    of the summaries holds no markdown file at first and between two runs
    its markdown files stay as they are.  Then, whatever the order in which
    the folder is listed afterwards, the scanner returns 0, warns about no
    file, reports none as missing, finds and parses as many files as there
    were runs, and its three totals are the sums of the counts the service
    gave to the runs. *)
Theorem X9_scan_totals_written_summaries base disk runs names :
  runs <> [] ->
  Forall well_finished runs ->
  in_sequence base disk runs ->
  NoDup (map of_date runs) ->
  (forall name, md_entry disk (summaries_dir base) name = false) ->
  NoDup names ->
  (forall name,
      In name names
      <-> md_entry (final_disk disk runs) (summaries_dir base) name = true) ->
  exists acc,
    CountTokens.main (summaries_dir base)
      (Some (listing_of (final_disk disk runs) (summaries_dir base) names))
    = Ok (0, CountTokens.report (summaries_dir base) (length runs) acc)
    /\ CountTokens.total_in acc = sum_Z (map (fun r => (of_counts r).1.1) runs)
    /\ CountTokens.total_out acc = sum_Z (map (fun r => (of_counts r).1.2) runs)
    /\ CountTokens.total_all acc = sum_Z (map (fun r => (of_counts r).2) runs)
    /\ CountTokens.parsed acc = Z.of_nat (length runs)
    /\ CountTokens.missing acc = [].
Proof.
  intros Hne Hwf Hseq Hnd Hempty Hnames Hlist.
  destruct (names_of_runs base disk runs names Hwf Hseq Hnd Hempty Hnames
              Hlist) as (rs & -> & Hperm).
  destruct (listing_of_summaries (final_disk disk runs) (summaries_dir base)
              rs) as (Hok & Hread & Hcount & Hless).
  { intros r Hin. apply (Permutation_in _ (Permutation_sym Hperm)) in Hin.
    split.
    - exact (final_lookup base runs disk r Hwf Hseq Hnd Hin).
    - rewrite List.Forall_forall in Hwf.
      exact (proj2 (finished_document r (Hwf r Hin))). }
  destruct (scan_tally _ CountTokens.start Hok)
    as (acc & Hscan & Hi & Ho & Ht & Hp & Hm).
  pose proof (scan_no_warning _ _ _ Hread Hscan) as Hpr.
  rewrite Hcount in Hi, Ho, Ht, Hp. rewrite Hless in Hm.
  rewrite map_map in Hi, Ho, Ht. rewrite length_map in Hp.
  rewrite <- (sum_Z_Permutation _ _ (Permutation_map _ Hperm)) in Hi.
  rewrite <- (sum_Z_Permutation _ _ (Permutation_map _ Hperm)) in Ho.
  rewrite <- (sum_Z_Permutation _ _ (Permutation_map _ Hperm)) in Ht.
  rewrite <- (Permutation_length Hperm) in Hp.
  cbn [CountTokens.start CountTokens.total_in CountTokens.total_out
       CountTokens.total_all CountTokens.parsed CountTokens.missing
       CountTokens.printed app] in *.
  exists acc. repeat split; try assumption.
  rewrite (main_reports _ _ acc), Hpr; [| |exact Hscan].
  - unfold listing_of. rewrite !length_map, <- (Permutation_length Hperm).
    reflexivity.
  - destruct rs; [|discriminate].
    apply Permutation_nil_r in Hperm. congruence.
Qed.

Lemma demo_runs_well_finished : Forall well_finished [demo_first; demo_second].
Proof.
  repeat constructor; try (vm_compute; reflexivity);
    try (vm_compute; discriminate).
Qed.

Lemma demo_folder_name name :
  md_name name = true ->
  path_join (summaries_dir "/repo") name = "/repo/monthly/aisummary/" +:+ name.
Proof.
  intros Hmd. rewrite path_join_plain by (apply md_name_plain; exact Hmd).
  reflexivity.
Qed.

Lemma demo_runs_in_sequence :
  in_sequence "/repo" disk_fresh [demo_first; demo_second].
Proof.
  cbn [in_sequence]. repeat split.
  intros name Hmd. rewrite (demo_folder_name name Hmd).
  cbn [demo_second of_world demo_run disk0].
  apply lookup_insert_ne. discriminate.
Qed.

Lemma demo_days_distinct : NoDup (map of_date [demo_first; demo_second]).
Proof.
  apply NoDup_ListNoDup. repeat constructor; cbn; intuition discriminate.
Qed.

Lemma demo_folder_empty name :
  md_entry disk_fresh (summaries_dir "/repo") name = false.
Proof.
  unfold md_entry. destruct (md_name name) eqn:Hmd; [|reflexivity].
  rewrite (demo_folder_name name Hmd). unfold path_exists, disk_fresh.
  rewrite !lookup_insert_ne by discriminate. reflexivity.
Qed.

Lemma demo_names_distinct : NoDup ["2025-07-01.md"; "2025-08-01.md"].
Proof.
  apply NoDup_ListNoDup. repeat constructor; cbn; intuition discriminate.
Qed.

Lemma demo_names_listed name :
  In name ["2025-07-01.md"; "2025-08-01.md"]
  <-> md_entry (final_disk disk_fresh [demo_first; demo_second])
        (summaries_dir "/repo") name = true.
Proof.
  rewrite (md_entry_final "/repo" disk_fresh [demo_first; demo_second] name
             demo_runs_well_finished demo_runs_in_sequence demo_days_distinct
             demo_folder_empty).
  change (map summary_name [demo_first; demo_second])
    with ["2025-08-01.md"; "2025-07-01.md"].
  cbn [In]. tauto.
Qed.

Lemma X9_two_runs_witness :
  exists acc,
    CountTokens.main "/repo/monthly/aisummary"
      (Some (listing_of (final_disk disk_fresh [demo_first; demo_second])
               "/repo/monthly/aisummary"
               ["2025-07-01.md"; "2025-08-01.md"]))
    = Ok (0, CountTokens.report "/repo/monthly/aisummary" 2 acc)
    /\ CountTokens.total_in acc = 2000
    /\ CountTokens.total_out acc = 100
    /\ CountTokens.total_all acc = 2100
    /\ CountTokens.parsed acc = 2
    /\ CountTokens.missing acc = [].
Proof.
  exact (X9_scan_totals_written_summaries "/repo" disk_fresh
           [demo_first; demo_second] ["2025-07-01.md"; "2025-08-01.md"]
           ltac:(discriminate) demo_runs_well_finished demo_runs_in_sequence
           demo_days_distinct demo_folder_empty demo_names_distinct
           demo_names_listed).
Defined.
